(** * The test orchestration and execution engine of the passoff harness

    A shallow embedding of [resources/repo_test.py] and
    [resources/repo_test_suite.py]: the result model and its merge
    operator, the class hierarchy of the test units, the chain, follow
    and group composites, and the process executor with its reader
    thread, queue and relay loop.

    Conventions.  A Python call that may raise is a computation in the
    monad [M]: it takes the state of the machine and gives an [outcome]
    and the new state.  An object reference is an [oid]; the objects
    live in a [heap].  Python's [None] for an optional value is Rocq's
    [None].  Wall-clock time is counted in milliseconds. *)

From Stdlib Require Import List String Ascii ZArith Lia Bool Arith DecimalString.
From Stdlib Require Import Permutation.
Import ListNotations.
Open Scope string_scope.

(** ** Exceptions and outcomes *)

Inductive exn : Type :=
| TypeError
| AttributeError
| FileNotFoundError
| NotADirectoryError
| PermissionError
| OSError.

(** What a call gives: a value, a raised exception, or nothing yet
    ([Pending]: the call has not returned within the steps granted). *)
Inductive outcome (A : Type) : Type :=
| Ret (a : A)
| Raise (e : exn)
| Pending.

Arguments Ret {A} a.
Arguments Raise {A} e.
Arguments Pending {A}.

Definition returned {A : Type} (o : outcome A) : bool :=
  match o with Ret _ => true | _ => false end.

(** [nl] is the one-character string "\n". *)
Definition nl : string := String "010"%char EmptyString.

(** ** Result model ([result_type], [repo_test_result]) *)

Inductive result_type : Type := SUCCESS | WARNING | ERROR.

(** The values of the [Enum]. *)
Definition value (r : result_type) : Z :=
  match r with SUCCESS => 1 | WARNING => 2 | ERROR => 3 end.

Definition result_type_eqb (a b : result_type) : bool :=
  match a, b with
  | SUCCESS, SUCCESS | WARNING, WARNING | ERROR, ERROR => true
  | _, _ => false
  end.

(** The stricter of two severities under SUCCESS < WARNING < ERROR. *)
Definition stricter (a b : result_type) : result_type :=
  if (value a <? value b)%Z then b else a.

Definition oid := nat.

Record repo_test_result : Type := mk_result {
  test : oid;                 (* the unit that was executed *)
  result : result_type;
  msg : option string
}.

Module repo_test_result.

(** [repo_test_result.__str__], given the name of [self.test]. *)
Definition str (getName : oid -> string) (self : repo_test_result) : string :=
  if result_type_eqb (result self) SUCCESS then
    "Success: " ++ getName (test self)
  else if result_type_eqb (result self) WARNING then
    "Warning: " ++ getName (test self)
  else
    "Error: " ++ getName (test self).

(** [x += y] where [x] is [None] or a [str] and [y] is a [str]:
    [None] has no [+] with a string. *)
Definition iadd (x : option string) (y : string) : outcome (option string) :=
  match x with
  | Some s => Ret (Some (s ++ y))
  | None => Raise TypeError
  end.

(** [repo_test_result.merged_result].  The augmented assignment
    [new_msg += "\n" + other_result.msg if new_msg is not None else other_result.msg]
    adds to [new_msg] the value of the whole conditional expression. *)
Definition merged_result (self : repo_test_result)
    (other_result : option repo_test_result) : outcome repo_test_result :=
  match other_result with
  | None => Ret (mk_result (test self) (result self) (msg self))
  | Some other =>
      let new_msg := msg self in
      let new_msg' :=
        match msg other with
        | Some other_msg =>
            iadd new_msg
              (match new_msg with
               | Some _ => nl ++ other_msg
               | None => other_msg
               end)
        | None => Ret new_msg
        end in
      let new_error :=
        if result_type_eqb (result self) ERROR
           || result_type_eqb (result other) ERROR then ERROR
        else if result_type_eqb (result self) WARNING
                || result_type_eqb (result other) WARNING then WARNING
        else SUCCESS in
      match new_msg' with
      | Ret m => Ret (mk_result (test self) new_error m)
      | Raise e => Raise e
      | Pending => Pending
      end
  end.

End repo_test_result.

(** The message the merge operator is specified to give. *)
Definition joined_msg (a b : option string) : option string :=
  match a, b with
  | Some x, Some y => Some (x ++ nl ++ y)
  | Some x, None => Some x
  | None, Some y => Some y
  | None, None => None
  end.

(** The pairs on which the message concatenation of [merged_result] is
    defined: every pair but (left message absent, right present). *)
Definition mergeable (a b : repo_test_result) : bool :=
  match msg a, msg b with
  | None, Some _ => false
  | _, _ => true
  end.

(** ** Classes of [repo_test.py] and method resolution

    Every class of the file derives, directly or not, from
    [repo_test_unit]; inheritance is single.  [custom parent] stands for
    a test class written outside the file on top of one of its classes
    (what the base classes are meant for): it brings its own
    [perform_test] and [module_name] and nothing else. *)

Inductive py_class : Type :=
| repo_test_unit
| repo_test
| repo_test_linked_list
| repo_test_follow
| file_exists_test
| file_regex_check
| file_not_tracked_test
| files_tracked_test
| make_test
| execs_exist_test
| check_for_untracked_files
| check_for_tag
| check_for_max_repo_files
| check_for_ignored_files
| check_for_uncommitted_files
| check_number_of_files
| list_git_commits
| check_remote_origin
| check_remote_starter
| custom (parent : py_class).

Inductive method : Type :=
| m_getName
| m_perform_test
| m_initiate_test
| m_getResult
| m_module_name
| m_execute_command
| m_cleanup.

(** The class named in the [class] statement; [None] for [object]. *)
Definition base (c : py_class) : option py_class :=
  match c with
  | repo_test_unit => None
  | repo_test => Some repo_test_unit
  | repo_test_linked_list | repo_test_follow => Some repo_test
  | make_test => Some repo_test_follow
  | custom parent => Some parent
  | _ => Some repo_test
  end.

(** Which of the methods above a class body defines. *)
Definition defines (c : py_class) (m : method) : bool :=
  match c, m with
  | repo_test_unit, (m_getName | m_perform_test | m_initiate_test | m_getResult) => true
  | repo_test, (m_module_name | m_perform_test | m_execute_command | m_cleanup) => true
  | repo_test_linked_list, m_initiate_test => true
  | repo_test_follow, m_initiate_test => true
  | check_for_max_repo_files, m_perform_test => true
  | check_remote_starter, m_perform_test => true
  | (file_exists_test | file_regex_check | file_not_tracked_test
     | files_tracked_test | make_test | execs_exist_test
     | check_for_untracked_files | check_for_tag | check_for_ignored_files
     | check_for_uncommitted_files | check_number_of_files
     | list_git_commits | check_remote_origin | custom _),
    (m_module_name | m_perform_test) => true
  | _, _ => false
  end.

(** Method resolution order: the class, then its bases. *)
Fixpoint mro (c : py_class) : list py_class :=
  c :: match c with
       | repo_test_unit => []
       | repo_test => [repo_test_unit]
       | repo_test_linked_list | repo_test_follow => [repo_test; repo_test_unit]
       | make_test => [repo_test_follow; repo_test; repo_test_unit]
       | custom parent => mro parent
       | _ => [repo_test; repo_test_unit]
       end.

(** The class whose definition of [m] an instance of [c] runs. *)
Definition resolve (c : py_class) (m : method) : option py_class :=
  find (fun k => defines k m) (mro c).

Definition py_class_is_linked_list (c : py_class) : bool :=
  match c with repo_test_linked_list => true | _ => false end.

(** [isinstance(x, repo_test_linked_list)] for an [x] of class [c]. *)
Definition isinstance_linked_list (c : py_class) : bool :=
  existsb py_class_is_linked_list (mro c).

(** ** Computations that may raise *)

Definition M (S A : Type) : Type := S -> outcome A * S.

Definition ret {S A : Type} (a : A) : M S A := fun s => (Ret a, s).

Definition raise {S A : Type} (e : exn) : M S A := fun s => (Raise e, s).

Definition bind {S A B : Type} (m : M S A) (k : A -> M S B) : M S B :=
  fun s =>
    match m s with
    | (Ret a, s') => k a s'
    | (Raise e, s') => (Raise e, s')
    | (Pending, s') => (Pending, s')
    end.

(** A value or exception computed without touching the state. *)
Definition pure {S A : Type} (o : outcome A) : M S A := fun s => (o, s).

(** A statement that only changes the state. *)
Definition exec {S : Type} (f : S -> S) : M S unit := fun s => (Ret tt, f s).

Notation "x <- c1 ;; c2" := (bind c1 (fun x => c2))
  (at level 61, c1 at next level, right associativity).
Notation "c1 ;;; c2" := (bind c1 (fun _ => c2))
  (at level 61, right associativity).

(** ** The machine the harness runs on *)

(** One step of one of the activities that run while a command
    executes: the child writes its next line to the pipe, the child
    exits, the reader thread takes a turn, time passes, the main thread
    takes a turn. *)
Inductive event : Type :=
| EvWrite
| EvExit
| EvReader
| EvTick (ms : Z)
| EvMain.

(** What a launched command does: the lines it writes to its combined
    stdout/stderr (each with its line end), the status it exits with
    and the files it leaves behind. *)
Record program : Type := mk_program {
  out_lines : list string;
  exit_status : Z;
  creates : list string
}.

(** A launched child and the interleaving under which it runs. *)
Record launched : Type := mk_launched {
  prog : program;
  schedule : list event
}.

Record World : Type := mk_World {
  stdout : list string;                  (* what was written to sys.stdout, in order *)
  test_log_fp : option (list string);    (* the aggregate log: None, or what was written to it *)
  files : list (string * list string);   (* files opened for writing and what was written *)
  fs : list string;                      (* the paths that exist *)
  clock : Z;                             (* time.time(), in milliseconds *)
  to_delete : list (oid * string);       (* the units' files_to_delete entries *)
  Popen : list string -> string -> exn + launched;
  open_w : string -> option exn;         (* whether open(path, "w") raises *)
  makedirs : string -> option exn;
  copyfile : string -> string -> option exn
}.

Definition with_stdout (w : World) (v : list string) : World :=
  mk_World v (test_log_fp w) (files w) (fs w) (clock w) (to_delete w)
           (Popen w) (open_w w) (makedirs w) (copyfile w).

Definition with_test_log_fp (w : World) (v : option (list string)) : World :=
  mk_World (stdout w) v (files w) (fs w) (clock w) (to_delete w)
           (Popen w) (open_w w) (makedirs w) (copyfile w).

Definition with_files (w : World) (v : list (string * list string)) : World :=
  mk_World (stdout w) (test_log_fp w) v (fs w) (clock w) (to_delete w)
           (Popen w) (open_w w) (makedirs w) (copyfile w).

Definition with_fs (w : World) (v : list string) : World :=
  mk_World (stdout w) (test_log_fp w) (files w) v (clock w) (to_delete w)
           (Popen w) (open_w w) (makedirs w) (copyfile w).

Definition with_clock (w : World) (v : Z) : World :=
  mk_World (stdout w) (test_log_fp w) (files w) (fs w) v (to_delete w)
           (Popen w) (open_w w) (makedirs w) (copyfile w).

Definition with_to_delete (w : World) (v : list (oid * string)) : World :=
  mk_World (stdout w) (test_log_fp w) (files w) (fs w) (clock w) v
           (Popen w) (open_w w) (makedirs w) (copyfile w).

(** [sys.stdout.write(s)] and [print(s)]. *)
Definition stdout_write (s : string) (w : World) : World :=
  with_stdout w (stdout w ++ [s])%list.

Definition py_print (s : string) (w : World) : World :=
  stdout_write (s ++ nl) w.

(** [test_log_fp.write(s)] when the aggregate log is open. *)
Definition test_log_write (s : string) (w : World) : World :=
  match test_log_fp w with
  | Some l => with_test_log_fp w (Some (l ++ [s])%list)
  | None => w
  end.

(** [fp.write(s)] for the file opened at [path]. *)
Fixpoint files_append (fl : list (string * list string)) (path s : string)
  : list (string * list string) :=
  match fl with
  | [] => []
  | (p, l) :: fl' =>
      if String.eqb p path then (p, (l ++ [s])%list) :: fl'
      else (p, l) :: files_append fl' path s
  end.

Definition file_write (path s : string) (w : World) : World :=
  with_files w (files_append (files w) path s).

Definition os_path_exists (path : string) (w : World) : bool :=
  existsb (String.eqb path) (fs w).

Definition os_makedirs (path : string) : M World unit :=
  fun w =>
    match makedirs w path with
    | Some e => (Raise e, w)
    | None => (Ret tt, with_fs w (path :: fs w))
    end.

(** [open(path, "w")]: raises, or gives a file object (here its path)
    on an empty file. *)
Definition py_open_w (path : string) : M World string :=
  fun w =>
    match open_w w path with
    | Some e => (Raise e, w)
    | None =>
        (Ret path,
         with_fs
           (with_files w
              ((path, []) ::
               filter (fun e => negb (String.eqb (fst e) path)) (files w)))
           (path :: fs w))
    end.

(** A file object defines neither [__bool__] nor [__len__]: it is true. *)
Definition file_truthy (fp : string) : bool := true.

Definition subprocess_Popen (proc_cmd : list string) (cwd : string) : M World launched :=
  fun w =>
    match Popen w proc_cmd cwd with
    | inl e => (Raise e, w)
    | inr l => (Ret l, w)
    end.

Definition time_time : M World Z := fun w => (Ret (clock w), w).

(** ** Strings as Python builds them *)

(** [sep.join(l)]. *)
Fixpoint join (sep : string) (l : list string) : string :=
  match l with
  | [] => ""
  | [x] => x
  | x :: l' => x ++ sep ++ join sep l'
  end.

(** [str(n)] for an [int]. *)
Definition str_of_Z (n : Z) : string :=
  DecimalString.NilZero.string_of_int (Z.to_int n).

(** ASCII white space, what [str.strip()] removes at both ends of ASCII
    text (on other text it removes more: U+0085, U+00A0 and the like). *)
Definition is_space (c : ascii) : bool :=
  let n := nat_of_ascii c in
  ((9 <=? n) && (n <=? 13))%nat || ((28 <=? n) && (n <=? 32))%nat.

Fixpoint lstrip (s : list ascii) : list ascii :=
  match s with
  | c :: s' => if is_space c then lstrip s' else s
  | [] => []
  end.

Definition strip (s : string) : string :=
  string_of_list_ascii
    (rev (lstrip (rev (lstrip (list_ascii_of_string s))))).

(** [repr] of a list of strings none of which holds a quote, a
    backslash or a control character. *)
Definition repr_list (l : list string) : string :=
  "[" ++ join ", " (map (fun s => "'" ++ s ++ "'") l) ++ "]".

(** The last component of a normalised path. *)
Fixpoint basename_from (acc s : string) : string :=
  match s with
  | EmptyString => acc
  | String c s' =>
      if Ascii.eqb c "/"%char then basename_from "" s'
      else basename_from (acc ++ String c EmptyString) s'
  end.

Definition basename (s : string) : string := basename_from "" s.

(** The text of an exception, without the errno and the path that
    [str(e)] adds for an [OSError]. *)
Definition exn_str (e : exn) : string :=
  match e with
  | TypeError => "TypeError"
  | AttributeError => "AttributeError"
  | FileNotFoundError => "No such file or directory"
  | NotADirectoryError => "Not a directory"
  | PermissionError => "Permission denied"
  | OSError => "OSError"
  end.

(** ** [repo_test_suite]: configuration and printing *)

Module TermColor.
Definition esc : string := String "027"%char EmptyString.
Definition YELLOW : string := esc ++ "[93m".
Definition RED : string := esc ++ "[91m".
Definition END : string := esc ++ "[0m".
End TermColor.

Record repo_test_suite : Type := mk_suite {
  working_path : string;
  log_dir : option string;
  print_to_stdout : bool;
  verbose : bool;
  test_color : option string;
  warning_color : option string;
  error_color : option string;
  copy_build_files_dir : option string
}.

Module repo_test_suite.

Definition print_color (self : repo_test_suite) (color : option string)
    (msg_str : string) (w : World) : World :=
  let w1 := test_log_write (msg_str ++ nl) w in
  let msg_str' :=
    match color with
    | Some c => c ++ msg_str ++ TermColor.END
    | None => msg_str
    end in
  py_print msg_str' w1.

Definition print (self : repo_test_suite) (message : string)
    (verbose_message : bool) (w : World) : World :=
  if negb verbose_message || verbose self then
    let w1 := if print_to_stdout self then py_print message w else w in
    test_log_write (message ++ nl) w1
  else w.

Definition print_error (self : repo_test_suite) (message : string) : World -> World :=
  print_color self (error_color self) message.

Definition print_warning (self : repo_test_suite) (message : string) : World -> World :=
  print_color self (warning_color self) message.

Definition print_test_status (self : repo_test_suite) (message : string) : World -> World :=
  print_color self (test_color self) message.

End repo_test_suite.

(** ** [repo_test]: the process executor *)

(** The attributes [repo_test.__init__] sets, and [self.log_dir], which
    [execute_command] reads and no constructor of the file sets
    ([None]: the instance has no such attribute). *)
Record repo_test_attrs : Type := mk_attrs {
  abort_on_error : bool;
  process_output_filename : option string;
  timeout_seconds : Z;
  attr_log_dir : option string
}.

(** Where the main thread stands in [execute_command] once the child is
    launched and the reader thread started. *)
Inductive pc : Type :=
| AtWhile           (* about to test the loop condition *)
| AtGet             (* about to call output_queue.get(timeout=1.0) *)
| AtTimeout         (* about to test the timeout *)
| AtCommunicate     (* about to call proc.communicate() *)
| Returned (rc : Z).

(** The child process, its pipe, the reader thread and the queue. *)
Record proc : Type := mk_proc {
  todo : list string;          (* lines the child has still to write *)
  child : program;
  returncode : option Z;       (* None while the child runs: what poll() gives *)
  pipe : list string;          (* written by the child, not yet read *)
  thread_alive : bool;         (* output_thread.is_alive() *)
  output_queue : list string;
  main : pc
}.

Definition with_main (p : proc) (v : pc) : proc :=
  mk_proc (todo p) (child p) (returncode p) (pipe p) (thread_alive p)
          (output_queue p) v.

Definition is_None {A : Type} (o : option A) : bool :=
  match o with None => true | Some _ => false end.

Module repo_test.

Definition success_result (self : oid) (msg : option string) : repo_test_result :=
  mk_result self SUCCESS msg.

Definition warning_result (self : oid) (msg : option string) : repo_test_result :=
  mk_result self WARNING msg.

Definition error_result (self : oid) (msg : option string) : repo_test_result :=
  mk_result self ERROR msg.

(** The child writes its next line to the pipe. *)
Definition child_write (p : proc) : proc :=
  match returncode p, todo p with
  | None, line :: rest =>
      mk_proc rest (child p) None (pipe p ++ [line])%list (thread_alive p)
              (output_queue p) (main p)
  | _, _ => p
  end.

(** The child, having written all its lines, exits. *)
Definition child_exit (p : proc) (w : World) : proc * World :=
  match returncode p, todo p with
  | None, [] =>
      (mk_proc [] (child p) (Some (exit_status (child p))) (pipe p)
               (thread_alive p) (output_queue p) (main p),
       with_fs w (creates (child p) ++ fs w)%list)
  | _, _ => (p, w)
  end.

(** One turn of the loop of [read_stdout_to_queue_thread]:
    [readline()] gives the next line of the pipe, or the empty string
    at end of file (the child has exited and the pipe is empty), and
    waits otherwise. *)
Definition read_stdout_to_queue_thread (p : proc) : proc :=
  if thread_alive p then
    match pipe p with
    | line :: rest =>
        if negb (String.eqb line "") then
          mk_proc (todo p) (child p) (returncode p) rest true
                  (output_queue p ++ [strip line])%list (main p)
        else
          mk_proc (todo p) (child p) (returncode p) rest false
                  (output_queue p) (main p)
    | [] =>
        match returncode p with
        | Some _ =>
            mk_proc (todo p) (child p) (returncode p) [] false
                    (output_queue p) (main p)
        | None => p
        end
    end
  else p.

(** [proc.terminate()]. *)
Definition terminate (p : proc) : proc :=
  match returncode p with
  | None =>
      mk_proc (todo p) (child p) (Some (-15)%Z) (pipe p) (thread_alive p)
              (output_queue p) (main p)
  | Some _ => p
  end.

(** One turn of the main thread: the loop condition, the body of the
    [try], the timeout test, or the two statements after the loop. *)
Definition main_turn (self : repo_test_attrs) (suite : repo_test_suite)
    (fp : option string) (start_time : Z) (p : proc) (w : World)
  : proc * World :=
  match main p with
  | AtWhile =>
      if is_None (returncode p) && thread_alive p
      then (with_main p AtGet, w)
      else (with_main p AtCommunicate, w)
  | AtGet =>
      match output_queue p with
      | line :: rest =>
          let line := line ++ nl in
          let w1 := if print_to_stdout suite then stdout_write line w else w in
          let w2 := test_log_write line w1 in
          let w3 := match fp with
                    | Some f => file_write f line w2
                    | None => w2
                    end in
          (mk_proc (todo p) (child p) (returncode p) (pipe p)
                   (thread_alive p) rest AtTimeout, w3)
      | [] =>
          (* queue.Empty, raised after the wait of one second *)
          (with_main p AtTimeout, with_clock w (clock w + 1000)%Z)
      end
  | AtTimeout =>
      if (timeout_seconds self >? 0)%Z then
        let elapsed_time := (clock w - start_time)%Z in
        if (elapsed_time >? 1000 * timeout_seconds self)%Z then
          (with_main (terminate p) (Returned 1),
           repo_test_suite.print_error suite
             ("Process exceeded " ++ str_of_Z (timeout_seconds self)
              ++ " seconds and was terminated.") w)
        else (with_main p AtWhile, w)
      else (with_main p AtWhile, w)
  | AtCommunicate =>
      (* communicate() reads what is left in the pipe, drops it, and
         waits for the child; the pipe is taken to close when the child
         exits (no other process holds it) *)
      match returncode p with
      | Some rc =>
          (mk_proc (todo p) (child p) (Some rc) [] (thread_alive p)
                   (output_queue p) (Returned rc), w)
      | None => (p, w)
      end
  | Returned _ => (p, w)
  end.

Definition step (self : repo_test_attrs) (suite : repo_test_suite)
    (fp : option string) (start_time : Z) (ev : event) (p : proc) (w : World)
  : proc * World :=
  match ev with
  | EvWrite => (child_write p, w)
  | EvExit => child_exit p w
  | EvReader => (read_stdout_to_queue_thread p, w)
  | EvTick ms => (p, with_clock w (clock w + Z.max 0 ms)%Z)
  | EvMain => main_turn self suite fp start_time p w
  end.

(** The machine runs under the schedule until the main thread
    returns. *)
Fixpoint run (self : repo_test_attrs) (suite : repo_test_suite)
    (fp : option string) (start_time : Z) (sched : list event) (p : proc)
  : M World Z :=
  fun w =>
    match main p with
    | Returned rc => (Ret rc, w)
    | _ =>
        match sched with
        | [] => (Pending, w)
        | ev :: sched' =>
            let (p', w') := step self suite fp start_time ev p w in
            run self suite fp start_time sched' p' w'
        end
    end.

(** [self.log_dir]. *)
Definition getattr_log_dir {S : Type} (self : repo_test_attrs) : M S string :=
  match attr_log_dir self with
  | Some d => ret d
  | None => raise AttributeError
  end.

(** [repo_test.execute_command]. *)
Definition execute_command (self_id : oid) (self : repo_test_attrs)
    (suite : repo_test_suite) (proc_cmd : list string)
    (process_output_filename : option string) : M World Z :=
  fp <- match log_dir suite, process_output_filename with
        | Some suite_log_dir, Some filename =>
            (fun w =>
               if negb (os_path_exists suite_log_dir w)
               then os_makedirs suite_log_dir w
               else (Ret tt, w)) ;;;
            self_log_dir <- getattr_log_dir self ;;
            let process_output_filepath := self_log_dir ++ "/" ++ filename in
            fp <- py_open_w process_output_filepath ;;
            if negb (file_truthy fp) then
              (* print_error is called with two messages, one too many *)
              raise TypeError
            else
              (* print's second argument, the path, is its verbose_message *)
              exec (repo_test_suite.print suite "Writing output to:" true) ;;;
              exec (fun w => with_to_delete w
                      (to_delete w ++ [(self_id, process_output_filepath)])%list) ;;;
              ret (Some fp)
        | _, _ => ret None
        end ;;
  let cmd_str := join " " proc_cmd in
  let message := "Executing the following command in directory:"
                 ++ working_path suite ++ ":" ++ cmd_str in
  exec (repo_test_suite.print suite message false) ;;;
  exec (fun w => match fp with
                 | Some f => file_write f (message ++ nl) w
                 | None => w
                 end) ;;;
  start_time <- time_time ;;
  proc <- subprocess_Popen proc_cmd (working_path suite) ;;
  run self suite fp start_time (schedule proc)
      (mk_proc (out_lines (prog proc)) (prog proc) None [] true [] AtWhile).

End repo_test.

(** ** [make_test]: a Makefile rule run through the executor *)

Record make_test_attrs : Type := mk_make_test {
  make_rule : string;
  required_input_files : option (list string);
  required_build_files : option (list string);
  self_copy_build_files_dir : option string;
  copy_prefice_str : option string
}.

(** [for x in l: body(x)] *)
Fixpoint for_each {S A : Type} (l : list A) (body : A -> M S unit) : M S unit :=
  match l with
  | [] => ret tt
  | x :: l' => body x ;;; for_each l' body
  end.

Module make_test.

(** [make_test.copy_build_file]; paths are taken normalised. *)
Definition copy_build_file (self : make_test_attrs) (suite : repo_test_suite)
    (build_file : string) : M World unit :=
  let dest_filename := basename build_file in
  let dest_filename :=
    match copy_prefice_str self with
    | Some prefice => prefice ++ "_" ++ dest_filename
    | None => dest_filename
    end in
  match self_copy_build_files_dir self with
  | None => raise TypeError        (* pathlib.Path(None) *)
  | Some dir =>
      let dest_path := dir ++ "/" ++ dest_filename in
      exec (repo_test_suite.print suite
              ("Copying " ++ build_file ++ " to " ++ dest_path) false) ;;;
      fun w =>
        match copyfile w build_file dest_path with
        | None => (Ret tt, with_fs w (dest_path :: fs w))
        | Some e =>
            (Ret tt,
             repo_test_suite.print suite ("Error: " ++ exn_str e) false
               (repo_test_suite.print suite
                  ("Error copying file " ++ build_file ++ " to " ++ dest_path)
                  false w))
        end
  end.

(** [make_test.perform_test]. *)
Definition perform_test (self_id : oid) (base : repo_test_attrs)
    (self : make_test_attrs) (suite : repo_test_suite) : M World repo_test_result :=
  fun w =>
    let inputs := match required_input_files self with
                  | Some l => l
                  | None => []
                  end in
    match find (fun file => negb (os_path_exists file w)) inputs with
    | Some file =>
        (Ret (repo_test.error_result self_id None),
         repo_test_suite.print_error suite
           (" Required file for Makefile rule '" ++ make_rule self
            ++ "' does not exist: " ++ file) w)
    | None =>
        (let cmd := ["make"; make_rule self] in
         make_return_val <- repo_test.execute_command self_id base suite cmd None ;;
         if negb (make_return_val =? 0)%Z then
           ret (repo_test.error_result self_id None)
         else
           let result := repo_test.success_result self_id None in
           fun w' =>
             let builds := match required_build_files self with
                           | Some l => l
                           | None => []
                           end in
             let missing_build_files :=
               filter (fun file => negb (os_path_exists file w')) builds in
             if (0 <? List.length missing_build_files)%nat then
               let error_msg :=
                 "Missing build files: " ++ repr_list missing_build_files in
               (Ret (repo_test.warning_result self_id (Some error_msg)),
                repo_test_suite.print_error suite error_msg w')
             else
               match copy_build_files_dir suite, required_build_files self with
               | Some _, Some l =>
                   (for_each l (copy_build_file self suite) ;;; ret result) w'
               | _, _ => (Ret result, w')
               end) w
    end.

End make_test.

(** ** Test units as objects *)

(** An instance of a class of [repo_test.py].  [perform_test] is what
    the instance's own check does: it returns a [repo_test_result], as
    its docstring asks, or raises.  [next] is the link of a
    [repo_test_linked_list], [sub_tests] the list of a
    [repo_test_follow]. *)
Record py_object : Type := mk_object {
  cls : py_class;
  name : string;
  perform_test : M World repo_test_result;
  next : option oid;
  sub_tests : list oid
}.

Definition heap : Type := oid -> py_object.

(** The machine, and the checks called so far, oldest first. *)
Record state : Type := mk_state {
  world : World;
  calls : list oid
}.

Definition in_world {A : Type} (m : M World A) : M state A :=
  fun s => let (o, w) := m (world s) in (o, mk_state w (calls s)).

(** [u.perform_test()]. *)
Definition call_perform_test (h : heap) (u : oid) : M state repo_test_result :=
  fun s =>
    let (o, w) := perform_test (h u) (world s) in
    (o, mk_state w (calls s ++ [u])%list).

Module repo_test_unit.

Definition getName (h : heap) (self : oid) : string := name (h self).

Definition initiate_test (h : heap) (self : oid) : M state repo_test_result :=
  call_perform_test h self.

Definition getResult (self : py_object) : option repo_test_result := None.

End repo_test_unit.

Module repo_test_linked_list.

(** [cur_test.next]: the attribute [repo_test_linked_list.__init__] sets. *)
Definition getattr_next (h : heap) (cur_test : oid) : M state (option oid) :=
  if isinstance_linked_list (cls (h cur_test)) then ret (next (h cur_test))
  else raise AttributeError.

(** The loop of [initiate_test], entered with [cur_test] not [None]
    (it starts at [self]); one unit of fuel per turn. *)
Fixpoint walk (fuel : nat) (h : heap) (cur_test : oid)
    (new_result : option repo_test_result) : M state repo_test_result :=
  match fuel with
  | O => pure Pending
  | S fuel' =>
      result <- call_perform_test h cur_test ;;
      new_result' <- pure (repo_test_result.merged_result result new_result) ;;
      cur_test' <- getattr_next h cur_test ;;
      match cur_test' with
      | None => ret new_result'
      | Some c => walk fuel' h c (Some new_result')
      end
  end.

Definition initiate_test (fuel : nat) (h : heap) (self : oid)
  : M state repo_test_result :=
  walk fuel h self None.

End repo_test_linked_list.

Module repo_test_follow.

Fixpoint for_sub_tests (h : heap) (subs : list oid)
    (own_result : repo_test_result) : M state repo_test_result :=
  match subs with
  | [] => ret own_result
  | sub_test :: rest =>
      sub_result <- call_perform_test h sub_test ;;
      own_result' <- pure (repo_test_result.merged_result own_result
                             (Some sub_result)) ;;
      for_sub_tests h rest own_result'
  end.

Definition initiate_test (h : heap) (self : oid) : M state repo_test_result :=
  own_result <- call_perform_test h self ;;
  for_sub_tests h (sub_tests (h self)) own_result.

End repo_test_follow.

(** [u.initiate_test()] and [u.getResult()], through method resolution. *)
Definition initiate_test (fuel : nat) (h : heap) (u : oid) : M state repo_test_result :=
  match resolve (cls (h u)) m_initiate_test with
  | Some repo_test_linked_list => repo_test_linked_list.initiate_test fuel h u
  | Some repo_test_follow => repo_test_follow.initiate_test h u
  | Some repo_test_unit => repo_test_unit.initiate_test h u
  | _ => raise AttributeError
  end.

Definition getResult (h : heap) (u : oid) : M state (option repo_test_result) :=
  match resolve (cls (h u)) m_getResult with
  | Some repo_test_unit => ret (repo_test_unit.getResult (h u))
  | _ => raise AttributeError
  end.

(** ** [repo_test_group] *)

(** [result_dict] is a Python dict keyed by the test objects (no class
    defines [__eq__] or [__hash__], so a key is the object's identity):
    it keeps its entries in the order their keys were first set. *)
Definition dict : Type := list (oid * repo_test_result).

(** [d[k] = v] *)
Fixpoint dict_set (d : dict) (k : oid) (v : repo_test_result) : dict :=
  match d with
  | [] => [(k, v)]
  | (k', v') :: d' =>
      if Nat.eqb k' k then (k', v) :: d'
      else (k', v') :: dict_set d' k v
  end.

Fixpoint dict_get (d : dict) (k : oid) : option repo_test_result :=
  match d with
  | [] => None
  | (k', v') :: d' => if Nat.eqb k' k then Some v' else dict_get d' k
  end.

Definition keys (d : dict) : list oid := map fst d.

Record repo_test_group : Type := mk_group {
  group_id : oid;
  group_name : string;
  group_sub_tests : list oid;
  result_dict : dict
}.

Definition on_world (f : World -> World) (s : state) : state :=
  mk_state (f (world s)) (calls s).

Module repo_test_group.

(** [__init__] *)
Definition init (id : oid) (name : string) : repo_test_group :=
  mk_group id name [] [].

Definition getName (self : repo_test_group) : string := group_name self.

Definition add_test (self : repo_test_group) (rtest : oid)
    (position : option Z) : repo_test_group :=
  let l := group_sub_tests self in
  let inserted :=
    match position with
    | Some pos =>
        if (0 <=? pos)%Z && (pos <? Z.of_nat (List.length l))%Z
        then (firstn (Z.to_nat pos) l ++ rtest :: skipn (Z.to_nat pos) l)%list
        else (l ++ [rtest])%list
    | None => (l ++ [rtest])%list
    end in
  mk_group (group_id self) (group_name self) inserted (result_dict self).

(** [add_group], for another group than [self]. *)
Definition add_group (self rtest_group : repo_test_group) : repo_test_group :=
  mk_group (group_id self) (group_name self)
           (group_sub_tests self ++ group_sub_tests rtest_group)%list
           (result_dict self).

Definition getTest (h : heap) (self : repo_test_group) (test_name : string)
  : option oid :=
  find (fun t => String.eqb (repo_test_unit.getName h t) test_name)
       (group_sub_tests self).

(** One turn of the loop of [getResult]. *)
Definition getResult_turn (h : heap) (acc : result_type * string)
    (item : oid * repo_test_result) : result_type * string :=
  let (cur_result, cur_msg) := acc in
  let r := snd item in
  let cur_result' :=
    if result_type_eqb (result r) ERROR then ERROR
    else if result_type_eqb (result r) WARNING
            && negb (result_type_eqb cur_result ERROR) then WARNING
    else cur_result in
  (cur_result',
   cur_msg ++ repo_test_result.str (repo_test_unit.getName h) r ++ nl).

Definition getResult (h : heap) (self : repo_test_group) : repo_test_result :=
  let (cur_result, cur_msg) :=
    fold_left (getResult_turn h) (result_dict self) (SUCCESS, "") in
  mk_result (group_id self) cur_result (Some cur_msg).

(** The loop of [initiate_test] over what is left of [sub_tests]. *)
Fixpoint for_sub_tests (fuel : nat) (h : heap) (suite : repo_test_suite)
    (tests : list oid) (self : repo_test_group) (s : state)
  : outcome unit * repo_test_group * state :=
  match tests with
  | [] => (Ret tt, self, s)
  | test :: rest =>
      let s1 := on_world (repo_test_suite.print_test_status suite
                  (" Executing Test: " ++ repo_test_unit.getName h test)) s in
      match initiate_test fuel h test s1 with
      | (Ret r, s2) =>
          let self' := mk_group (group_id self) (group_name self)
                         (group_sub_tests self)
                         (dict_set (result_dict self) test r) in
          let s3 := on_world (repo_test_suite.print_test_status suite
                      (repo_test_result.str (repo_test_unit.getName h) r))
                      s2 in
          for_sub_tests fuel h suite rest self' s3
      | (Raise e, s2) => (Raise e, self, s2)
      | (Pending, s2) => (Pending, self, s2)
      end
  end.

Definition initiate_test (fuel : nat) (h : heap) (suite : repo_test_suite)
    (self : repo_test_group) (s : state)
  : outcome repo_test_result * repo_test_group * state :=
  let s0 := on_world (repo_test_suite.print_test_status suite
              ("Executing Test Set: " ++ getName self)) s in
  match for_sub_tests fuel h suite (group_sub_tests self) self s0 with
  | (Ret _, self', s') => (Ret (getResult h self'), self', s')
  | (Raise e, self', s') => (Raise e, self', s')
  | (Pending, self', s') => (Pending, self', s')
  end.

End repo_test_group.

(** ** Vocabulary of the statements *)

(** *** Severities and messages *)

(** The worst severity of a list, [SUCCESS] for the empty one. *)
Definition worst (l : list result_type) : result_type :=
  fold_right stricter SUCCESS l.

(** The messages that are present, joined by newlines in list order;
    [None] when none is present. *)
Definition messages_joined (l : list (option string)) : option string :=
  fold_left joined_msg l None.

(** The merge as specified, on a pair on which it is defined. *)
Definition merge_spec (a b : repo_test_result) : repo_test_result :=
  mk_result (test a) (stricter (result a) (result b))
            (joined_msg (msg a) (msg b)).

(** No message is absent after one that is present: the lists of
    messages on which every merge of a chain is defined. *)
Fixpoint absent_then_present (l : list (option string)) : bool :=
  match l with
  | [] => true
  | None :: l' => absent_then_present l'
  | Some _ :: l' => forallb (fun m => negb (is_None m)) l'
  end.

(** The first message is present or none is: the lists of messages on
    which every merge of a follow unit is defined. *)
Definition first_or_none (l : list (option string)) : bool :=
  match l with
  | [] => true
  | Some _ :: _ => true
  | None :: l' => forallb is_None l'
  end.

(** *** Checks and links *)

(** [us] are the links met from [cur] by following [next] up to [None],
    each an instance of [repo_test_linked_list]. *)
Fixpoint linked (h : heap) (cur : option oid) (us : list oid) : Prop :=
  match us with
  | [] => cur = None
  | u :: us' =>
      cur = Some u /\
      isinstance_linked_list (cls (h u)) = true /\
      linked h (next (h u)) us'
  end.

(** Each check of [us] called once, in list order, whatever the
    results: the results in the same order. *)
Fixpoint perform_all (h : heap) (us : list oid) : M state (list repo_test_result) :=
  match us with
  | [] => ret []
  | u :: us' =>
      r <- call_perform_test h u ;;
      rs <- perform_all h us' ;;
      ret (r :: rs)
  end.

Definition opt_list {A : Type} (o : option A) : list A :=
  match o with Some a => [a] | None => [] end.

(** What the loop of a chain has accumulated after the results [rs],
    starting from [acc], on lists on which every merge is defined: the
    newer result is the left operand. *)
Definition chain_acc (acc : option repo_test_result) (rs : list repo_test_result)
  : option repo_test_result :=
  fold_left
    (fun acc r => Some match acc with
                       | Some a => merge_spec r a
                       | None => r
                       end)
    rs acc.

(** The links a walk from [u] visits, as far as the fuel goes. *)
Fixpoint links (fuel : nat) (h : heap) (u : oid) : list oid :=
  match fuel with
  | O => []
  | S fuel' =>
      u :: match next (h u) with
           | Some c => links fuel' h c
           | None => []
           end
  end.

(** The checks an invocation of [u] calls when it returns: its own for
    a leaf, its own and its subordinates' for a follow unit, those of
    its links for a chain. *)
Definition checks_of (fuel : nat) (h : heap) (u : oid) : list oid :=
  match resolve (cls (h u)) m_initiate_test with
  | Some repo_test_linked_list => links fuel h u
  | Some repo_test_follow => u :: sub_tests (h u)
  | _ => [u]
  end.

(** *** The table of a group *)

(** The keys of a dict after [d[k] = v]. *)
Definition add_key (ks : list oid) (k : oid) : list oid :=
  if existsb (Nat.eqb k) ks then ks else (ks ++ [k])%list.

Fixpoint concat_all (l : list string) : string :=
  match l with
  | [] => ""
  | x :: l' => x ++ concat_all l'
  end.

(** The text of every Result of a table, each followed by a newline. *)
Definition table_text (h : heap) (d : dict) : string :=
  concat_all
    (map (fun e => repo_test_result.str (repo_test_unit.getName h) (snd e) ++ nl) d).

Definition table_severities (d : dict) : list result_type :=
  map (fun e => result (snd e)) d.

(** What holds of every group built by [__init__], [add_test],
    [add_group] and [initiate_test]: the keys of the table are distinct
    members. *)
Definition group_wf (g : repo_test_group) : Prop :=
  NoDup (keys (result_dict g)) /\
  incl (keys (result_dict g)) (group_sub_tests g).

(** *** The relay of the output *)

(** A relayed line: what the main thread writes for a line of the queue. *)
Definition with_newline (line : string) : string := line ++ nl.

(** The lines a process has still to deliver to the main thread, in
    delivery order: those of the queue, of the pipe, and unwritten. *)
Definition pending (p : proc) : list string :=
  (output_queue p ++ map strip (pipe p ++ todo p))%list.

(** The console and the aggregate log once the lines [done] have been
    relayed, from a console at [base_out] and a log at [base_log]. *)
Definition relayed (suite : repo_test_suite) (base_out : list string)
    (base_log : option (list string)) (done : list string) (w : World) : Prop :=
  stdout w = (base_out ++ if print_to_stdout suite
                          then map with_newline done else [])%list /\
  test_log_fp w = option_map (fun b => (b ++ map with_newline done)%list) base_log.

Definition is_Returned (c : pc) : bool :=
  match c with Returned _ => true | _ => false end.

(** While the main thread is in the loop: the lines relayed, then the
    lines pending, are the lines of the child, stripped, in order. *)
Definition relay_inv (suite : repo_test_suite) (lines base_out : list string)
    (base_log : option (list string)) (p : proc) (w : World) : Prop :=
  exists done,
    relayed suite base_out base_log done w /\
    map strip lines = (done ++ pending p)%list /\
    Forall (fun l => l <> "") (pipe p ++ todo p).

(** Once it has returned: the lines relayed are a prefix of the
    stripped lines of the child, followed on the console by nothing
    but, after a timeout, the error message. *)
Definition relay_final (suite : repo_test_suite) (lines base_out : list string)
    (w : World) : Prop :=
  exists done lost tail,
    map strip lines = (done ++ lost)%list /\
    stdout w = (base_out ++ (if print_to_stdout suite
                             then map with_newline done else []) ++ tail)%list /\
    List.length tail <= 1.

(** ** Sample objects *)

(** A machine on which nothing can be launched and no file operation
    fails. *)
Definition quiet_world : World :=
  mk_World [] None [] [] 0 []
           (fun _ _ => inl FileNotFoundError)
           (fun _ => None) (fun _ => None) (fun _ _ => None).

Definition quiet_state : state := mk_state quiet_world [].

Definition plain_suite : repo_test_suite :=
  mk_suite "." None true false None None None None.

(** An instance whose check returns [r] whatever the state. *)
Definition fixed_check (c : py_class) (nm : string) (r : repo_test_result)
    (nxt : option oid) (subs : list oid) : py_object :=
  mk_object c nm (ret r) nxt subs.

(** Two links, 1 then 2, whose checks give the messages "a" and "b". *)
Definition two_links : heap :=
  fun u =>
    match u with
    | 1 => fixed_check repo_test_linked_list "first"
             (mk_result 1 SUCCESS (Some "a")) (Some 2) []
    | 2 => fixed_check (custom repo_test_linked_list) "second"
             (mk_result 2 WARNING (Some "b")) None []
    | _ => fixed_check repo_test "other" (mk_result u SUCCESS None) None []
    end.

(** A follow unit 1 whose own check fails without a message, as
    [make_test.perform_test] does on a failed rule, with two
    subordinates: 2 reports an error with a message, 3 succeeds. *)
Definition build_and_checks : heap :=
  fun u =>
    match u with
    | 1 => fixed_check repo_test_follow "sim"
             (repo_test.error_result 1 None) None [2; 3]
    | 2 => fixed_check (custom repo_test) "log check"
             (repo_test.error_result 2 (Some "testbench failed")) None []
    | _ => fixed_check (custom repo_test) "other"
             (repo_test.success_result u None) None []
    end.

(** The same unit when every check gives a message. *)
Definition build_and_checks_with_messages : heap :=
  fun u =>
    match u with
    | 1 => fixed_check repo_test_follow "sim"
             (repo_test.error_result 1 (Some "make failed")) None [2; 3]
    | 2 => fixed_check (custom repo_test) "log check"
             (repo_test.success_result 2 (Some "log clean")) None []
    | _ => fixed_check (custom repo_test) "other"
             (repo_test.success_result u (Some "ok")) None []
    end.

(** Three leaves: 1 succeeds, 2 warns, the others fail with a message. *)
Definition three_leaves : heap :=
  fun u =>
    match u with
    | 1 => fixed_check (custom repo_test) "files"
             (repo_test.success_result 1 None) None []
    | 2 => fixed_check (custom repo_test) "untracked"
             (repo_test.warning_result 2 None) None []
    | _ => fixed_check (custom repo_test) "remote"
             (repo_test.error_result u (Some "fetch failed")) None []
    end.

Definition three_members : repo_test_group :=
  repo_test_group.add_test
    (repo_test_group.add_test
       (repo_test_group.add_test (repo_test_group.init 9 "Repository Tests")
          1 None) 2 None) 3 None.

(** The members [run_main] gives the group of repository tests under
    [--build --submit], the tests it creates on the way left aside:
    [add_makefile_tests] splices the same build steps in once for each
    of the two options. *)
Definition build_steps : repo_test_group :=
  repo_test_group.add_test (repo_test_group.init 8 "Build Steps") 1 None.

Definition spliced_twice : repo_test_group :=
  repo_test_group.add_group
    (repo_test_group.add_group (repo_test_group.init 9 "Repository Tests")
       build_steps)
    build_steps.

(** ** Sample commands *)

(** The rule [sim] of a lab: it needs [top.sv] and leaves [sim.log]. *)
Definition sim_rule : make_test_attrs :=
  mk_make_test "sim" (Some ["top.sv"]) (Some ["sim.log"]) None None.

Definition attrs_with_timeout (seconds : Z) : repo_test_attrs :=
  mk_attrs true None seconds None.

(** A machine on which [top.sv] exists and every launch gives [l]. *)
Definition machine_launching (l : launched) : World :=
  mk_World [] None [] ["top.sv"] 0 []
           (fun _ _ => inr l)
           (fun _ => None) (fun _ => None) (fun _ _ => None).

(** A child that writes two lines and exits with status 0.  The first
    line is relayed while the child runs; the second reaches the queue
    after the child has exited and before the main thread tests the
    loop condition again. *)
Definition two_lines : program :=
  mk_program ["line1" ++ nl; "line2" ++ nl] 0 ["sim.log"].

Definition exits_before_last_get : launched :=
  mk_launched two_lines
    [EvWrite; EvReader; EvMain; EvMain; EvMain;
     EvWrite; EvExit; EvReader; EvReader; EvMain; EvMain].

(** A child that writes nothing and never exits, watched for nine turns
    of the main thread. *)
Definition hangs : launched :=
  mk_launched (mk_program [] 0 [])
    [EvMain; EvMain; EvMain; EvMain; EvMain; EvMain; EvMain; EvMain; EvMain].

(** A child that writes nothing and exits with status 1 at once. *)
Definition fails_at_once : launched :=
  mk_launched (mk_program [] 1 [])
    [EvExit; EvReader; EvMain; EvMain].

(** A [make_test] instance for [sim_rule] at every address. *)
Definition sim_unit (timeout : Z) : heap :=
  fun u =>
    mk_object make_test "sim"
      (make_test.perform_test u (attrs_with_timeout timeout) sim_rule plain_suite)
      None [].

(** *** Samples for the further properties *)

(** Three Results that all carry a message. *)
Definition r_make : repo_test_result := mk_result 1 ERROR (Some "make failed").
Definition r_log : repo_test_result := mk_result 2 SUCCESS (Some "log clean").
Definition r_ok : repo_test_result := mk_result 3 WARNING (Some "ok").

(** A chain head 1 whose successor 2 is a plain test, not a link. *)
Definition link_then_leaf : heap :=
  fun u =>
    match u with
    | 1 => fixed_check repo_test_linked_list "first"
             (mk_result 1 SUCCESS (Some "a")) (Some 2) []
    | _ => fixed_check (custom repo_test) "leaf"
             (mk_result u SUCCESS (Some "b")) None []
    end.

(** A link that is its own successor. *)
Definition self_loop : heap :=
  fun u =>
    fixed_check repo_test_linked_list "loop" (mk_result u SUCCESS None) (Some u) [].

(** A follow unit 1 with subordinates 2 and 3; the check of 2 raises. *)
Definition raising_sub : heap :=
  fun u =>
    match u with
    | 1 => fixed_check repo_test_follow "sim"
             (repo_test.success_result 1 None) None [2; 3]
    | 2 => mk_object (custom repo_test) "broken" (raise OSError) None []
    | _ => fixed_check (custom repo_test) "other"
             (repo_test.success_result u None) None []
    end.

(** [repo_test_suite.run_build_test], for the suite's group
    [makefile_tests]: the value of the invocation is dropped. *)
Definition run_build_test (fuel : nat) (h : heap) (suite : repo_test_suite)
    (makefile_tests : repo_test_group) (build_rule : string) : M state unit :=
  match repo_test_group.getTest h makefile_tests build_rule with
  | None =>
      exec (on_world (repo_test_suite.print_error suite
                        ("Build rule '" ++ build_rule ++ "' not found")))
  | Some build_test =>
      initiate_test fuel h build_test ;;; ret tt
  end.

(** The table after the members [tests] have been recorded with the
    Results [res] gives them. *)
Definition record_all (res : oid -> repo_test_result) (tests : list oid) (d : dict)
  : dict :=
  fold_left (fun d t => dict_set d t (res t)) tests d.

(** A group of three members of which the second raises. *)
Definition second_member_raises : heap :=
  fun u =>
    match u with
    | 2 => mk_object (custom repo_test) "broken" (raise OSError) None []
    | _ => three_leaves u
    end.

Definition is_EvMain (ev : event) : bool :=
  match ev with EvMain => true | _ => false end.

(** A child that writes nothing and does not exit, under a schedule in
    which [ms] milliseconds pass before the main thread takes [n]
    turns. *)
Definition silent (ms : Z) (n : nat) : launched :=
  mk_launched (mk_program [] 0 []) (EvTick ms :: repeat EvMain n).

(** A suite that keeps per-command logs under [logs]. *)
Definition logging_suite : repo_test_suite :=
  mk_suite "." (Some "logs") true false None None None None.

(** A machine with an open aggregate log on which every launch gives [l]. *)
Definition machine_logging (l : launched) : World :=
  mk_World [] (Some []) [] ["top.sv"] 0 []
           (fun _ _ => inr l)
           (fun _ => None) (fun _ => None) (fun _ _ => None).

(** A child that writes nothing and exits with status 0 at once,
    leaving [made] behind. *)
Definition succeeds_at_once (made : list string) : launched :=
  mk_launched (mk_program [] 0 made) [EvExit; EvReader; EvMain; EvMain].

(** A suite that asks for the build files to be copied to [out]. *)
Definition copying_suite : repo_test_suite :=
  mk_suite "." None true false None None None (Some "out").

(** ** The names of the checks ([module_name]) *)

(** [s[:-n]]: all but the last [n] characters; nothing is left of a
    string of at most [n] characters. *)
Definition slice_to_minus (n : nat) (s : string) : string :=
  substring 0 (String.length s - n) s.

(** The loop [for item in l: name_str += f'{item}, ']. *)
Definition add_items (name_str : string) (l : list string) : string :=
  fold_left (fun name_str item => name_str ++ item ++ ", ") l name_str.

Module file_exists_test.
Definition module_name (repo_file_list : list string) : string :=
  slice_to_minus 2 (add_items "Files Exist: " repo_file_list).
End file_exists_test.

Module file_not_tracked_test.
Definition module_name (files_not_tracked_list : list string) : string :=
  slice_to_minus 2 (add_items "Files Not Tracked: " files_not_tracked_list).
End file_not_tracked_test.

Module files_tracked_test.
Definition module_name (files_tracked_list : list string) : string :=
  slice_to_minus 2 (add_items "Files Tracked: " files_tracked_list).
End files_tracked_test.

Module execs_exist_test.
Definition module_name (executables : list string) : string :=
  slice_to_minus 2 (add_items "Executables Exist: " executables).
End execs_exist_test.

(** [make_test.module_name] and [make_test.rule_summary]. *)
Module make_test_strings.

Definition module_name (self : make_test_attrs) : string :=
  let name_str := "Makefile: 'make " ++ make_rule self ++ "'" in
  let name_str :=
    match required_input_files self with
    | Some (required_file :: l) =>
        slice_to_minus 2 (add_items (name_str ++ " required: ") (required_file :: l))
    | _ => name_str
    end in
  match required_build_files self with
  | Some (build_file :: l) =>
      slice_to_minus 2 (add_items (name_str ++ " [") (build_file :: l)) ++ "]"
  | _ => name_str
  end.

Definition rule_summary (name : string) (self : make_test_attrs) : string :=
  let summary_str := name ++ ":" in
  let summary_str :=
    match required_input_files self with
    | Some (required_file :: l) =>
        slice_to_minus 2
          (add_items (summary_str ++ nl ++ "   Required Input Files: ")
                     (required_file :: l))
    | _ => summary_str
    end in
  match required_build_files self with
  | Some (build_file :: l) =>
      slice_to_minus 2
        (add_items (summary_str ++ nl ++ "   Required Build Files: ")
                   (build_file :: l))
  | _ => summary_str
  end.

End make_test_strings.

(** ** [file_regex_check] *)

Record file_regex_check_attrs : Type := mk_file_regex_check {
  filename : string;
  regex_str : string;
  error_on_match : bool;
  module_name_str : option string;
  error_msg : option string
}.

(** [str(b)] for a [bool]. *)
Definition str_of_bool (b : bool) : string := if b then "True" else "False".

Module file_regex_check.

Definition make_name (filename regex_str : string) (error_on_match : bool) : string :=
  "File Regex Check: " ++ filename ++ " - " ++ regex_str
  ++ " - Error on match: " ++ str_of_bool error_on_match.

Definition module_name (self : file_regex_check_attrs) : string :=
  match module_name_str self with
  | Some s => s
  | None =>
      "File Regex Check: " ++ filename self ++ " - " ++ regex_str self
      ++ " - Error on match: " ++ str_of_bool (error_on_match self)
  end.

Section perform_test.

(** What the libraries answer: [working_path / filename] as a string,
    [open(path, 'r').read()], and whether [re.search(regex, text)] finds
    a match; the last two may raise. *)
Variable joinpath : string -> string -> string.
Variable read_text : string -> exn + string.
Variable re_search : string -> string -> exn + bool.

Definition perform_test (self_id : oid) (self : file_regex_check_attrs)
    (suite : repo_test_suite) : M World repo_test_result :=
  fun w =>
    let file_path := joinpath (working_path suite) (filename self) in
    if negb (os_path_exists file_path w) then
      (Ret (repo_test.error_result self_id None),
       repo_test_suite.print_error suite ("File does not exist: " ++ file_path) w)
    else
      match read_text file_path with
      | inl e => (Raise e, w)
      | inr file_contents =>
          match re_search (regex_str self) file_contents with
          | inl e => (Raise e, w)
          | inr regex_match =>
              let print_error_msg w :=
                match error_msg self with
                | Some m => repo_test_suite.print_error suite m w
                | None => w
                end in
              if error_on_match self && regex_match then
                (Ret (repo_test.error_result self_id None),
                 print_error_msg
                   (repo_test_suite.print_error suite
                      ("Regex '" ++ regex_str self ++ "' matches in file "
                       ++ filename self) w))
              else if negb (error_on_match self) && negb regex_match then
                (Ret (repo_test.error_result self_id None),
                 print_error_msg
                   (repo_test_suite.print_error suite
                      ("Regex '" ++ regex_str self ++ "' does not match in file "
                       ++ filename self) w))
              else
                (Ret (repo_test.success_result self_id None),
                 repo_test_suite.print suite
                   ("Regex '" ++ regex_str self ++ "' check passed in file "
                    ++ filename self) false w)
          end
      end.

End perform_test.

End file_regex_check.

(** A check of [top.sv] against the pattern [initial], over a file
    system that holds the file with the given text and a matcher that
    answers [found]. *)
Definition no_initial : file_regex_check_attrs :=
  mk_file_regex_check "top.sv" "initial" true None (Some "Remove the initial block").

Definition world_with_top : World :=
  with_fs quiet_world ["./top.sv"].

Definition slash (a b : string) : string := a ++ "/" ++ b.

Definition reads_text (text : string) (path : string) : exn + string := inr text.

Definition answers (found : bool) (regex text : string) : exn + bool := inr found.

(** A build step whose rule left a build file out, followed by two regex
    checks: 2 finds its pattern, 3 passes.  The regex checks give no
    message. *)
Definition build_and_regex_checks : heap :=
  fun u =>
    match u with
    | 1 => fixed_check make_test "sim"
             (repo_test.warning_result 1 (Some "Missing build files: ['sim.log']"))
             None [2; 3]
    | 2 => fixed_check file_regex_check "no initial"
             (repo_test.error_result 2 None) None []
    | _ => fixed_check file_regex_check "no latch"
             (repo_test.success_result u None) None []
    end.

(** ** [check_for_max_repo_files] *)

(** [s.split(c)] for a one-character separator: the pieces between the
    occurrences of [c]; a string without [c], the empty one too, is one
    piece. *)
Fixpoint split_on (c : ascii) (s : string) : list string :=
  match s with
  | EmptyString => [EmptyString]
  | String a s' =>
      if Ascii.eqb a c then EmptyString :: split_on c s'
      else match split_on c s' with
           | piece :: pieces => String a piece :: pieces
           | [] => [String a EmptyString]
           end
  end.

Module check_for_max_repo_files.

Section perform_test.

(** What [repo.git.ls_files(path)] answers: the tracked files, one per
    line without a final newline, or an exception. *)
Variable git_ls_files : string -> exn + string.

Definition perform_test (self_id : oid) (max_dir_files : Z)
    (relative_repo_path : string) (suite : repo_test_suite)
    : M World repo_test_result :=
  fun w =>
    match git_ls_files relative_repo_path with
    | inl e => (Raise e, w)
    | inr listing =>
        let tracked_files := split_on "010"%char listing in
        let n_tracked_files := Z.of_nat (List.length tracked_files) in
        let w :=
          repo_test_suite.print suite
            (str_of_Z n_tracked_files ++ " Tracked git files in "
             ++ relative_repo_path
             ++ " (max allowed: " ++ str_of_Z max_dir_files ++ ")") false w in
        if (n_tracked_files >? max_dir_files)%Z then
          (Ret (repo_test.warning_result self_id None),
           repo_test_suite.print_error suite "  Too many tracked files" w)
        else
          (Ret (repo_test.success_result self_id None), w)
    end.

End perform_test.

End check_for_max_repo_files.

(** No character of [s] is [c]. *)
Fixpoint without (c : ascii) (s : string) : bool :=
  match s with
  | EmptyString => true
  | String a s' => negb (Ascii.eqb a c) && without c s'
  end.

(** A repository path whose listing is [names], one per line. *)
Definition lists (names : list string) (path : string) : exn + string :=
  inr (join nl names).

(** ** The summary of a group ([repo_test_group.print_test_summary]) *)

(** [test.module_name()] on an object of the heap: the method of the
    first class of its resolution order that defines one.  [repo_test]'s
    own returns a constant; [own_module_name] stands for the methods of
    the subclasses, which build a string from the instance's attributes;
    [repo_test_unit] has none. *)
Definition call_module_name (own_module_name : oid -> string) (h : heap)
    (u : oid) : exn + string :=
  match resolve (cls (h u)) m_module_name with
  | None => inl AttributeError
  | Some repo_test => inr "BASE MODULE"
  | Some _ => inr (own_module_name u)
  end.

(** One turn of the first loop of [print_test_summary]; the lists are
    [success], [warnings] and [errors]. *)
Definition summary_turn
    (acc : list repo_test_result * list repo_test_result * list repo_test_result)
    (item : oid * repo_test_result)
  : list repo_test_result * list repo_test_result * list repo_test_result :=
  let '(success, warnings, errors) := acc in
  let r := snd item in
  if result_type_eqb (result r) SUCCESS then ((success ++ [r])%list, warnings, errors)
  else if result_type_eqb (result r) WARNING then (success, (warnings ++ [r])%list, errors)
  else (success, warnings, (errors ++ [r])%list).

(** The lines of the summary for [warnings] or for [errors]. *)
Definition print_listed (own_module_name : oid -> string) (h : heap)
    (suite : repo_test_suite) (title : string) (listed : list repo_test_result)
  : M World unit :=
  if negb (List.length listed =? 0)%nat then
    exec (repo_test_suite.print_error suite
            (" " ++ str_of_Z (Z.of_nat (List.length listed)) ++ title)) ;;;
    for_each listed (fun r =>
      match call_module_name own_module_name h (test r) with
      | inl e => raise e
      | inr module_name =>
          exec (repo_test_suite.print_error suite ("  " ++ module_name)) ;;;
          match msg r with
          | Some m => exec (repo_test_suite.print_error suite ("   " ++ m))
          | None => ret tt
          end
      end)
  else ret tt.

Definition print_test_summary (own_module_name : oid -> string) (h : heap)
    (suite : repo_test_suite) (self : repo_test_group) : M World unit :=
  let '(success, warnings, errors) :=
    fold_left summary_turn (result_dict self) ([], [], []) in
  if (List.length warnings =? 0)%nat && (List.length errors =? 0)%nat then
    exec (repo_test_suite.print_test_status suite "  No errors or warnings")
  else
    print_listed own_module_name h suite " Warnings" warnings ;;;
    print_listed own_module_name h suite " Errors" errors.

(** The recorded Results of severity [sev], in the order of the table. *)
Definition recorded (sev : result_type) (d : dict) : list repo_test_result :=
  filter (fun r => result_type_eqb (result r) sev) (map snd d).

(** The line [print_color] writes to the console for [m]. *)
Definition console_line (color : option string) (m : string) : string :=
  match color with
  | Some c => c ++ m ++ TermColor.END
  | None => m
  end ++ nl.

(** [m] only appends to the console. *)
Definition appends {A : Type} (m : M World A) : Prop :=
  forall w, exists tail, stdout (snd (m w)) = (stdout w ++ tail)%list.

(** The checks of [three_leaves] with, as object 4, a
    [check_for_max_repo_files] that has found too many files, and a
    group whose table holds the warning of 2, that of 4 and the error
    of 3. *)
Definition max_files_heap : heap :=
  fun u =>
    match u with
    | 4 => fixed_check check_for_max_repo_files
             "Check for max tracked repo files:0"
             (repo_test.warning_result 4 None) None []
    | _ => three_leaves u
    end.

Definition max_files_group : repo_test_group :=
  mk_group 0 "repo" [2; 4; 3]
    [(2, repo_test.warning_result 2 None);
     (4, repo_test.warning_result 4 None);
     (3, repo_test.error_result 3 (Some "fetch failed"))].

(** ** Vocabulary of the runs *)

(** The invocations a run of a group's [initiate_test] makes of the
    members [tests], from a given state on, with the status lines it
    prints around each: the Results they return, in order.  Nothing is
    recorded here. *)
Fixpoint invoke_members (fuel : nat) (h : heap) (suite : repo_test_suite)
    (tests : list oid) : M state (list repo_test_result) :=
  match tests with
  | [] => ret []
  | test :: rest =>
      exec (on_world (repo_test_suite.print_test_status suite
                        (" Executing Test: " ++ repo_test_unit.getName h test))) ;;;
      r <- initiate_test fuel h test ;;
      exec (on_world (repo_test_suite.print_test_status suite
                        (repo_test_result.str (repo_test_unit.getName h) r))) ;;;
      rs <- invoke_members fuel h suite rest ;;
      ret (r :: rs)
  end.

(** The table after the Results [rs] of the members [tests] have been
    stored, in order. *)
Definition record_results (d : dict) (tests : list oid)
    (rs : list repo_test_result) : dict :=
  fold_left (fun d e => dict_set d (fst e) (snd e)) (combine tests rs) d.

(** The Results of a run of [invoke_members], none if it did not return. *)
Definition results_of (o : outcome (list repo_test_result))
  : list repo_test_result :=
  match o with Ret rs => rs | _ => [] end.

(** *** The machine under a schedule *)

(** The machine after the events of [sched]. *)
Fixpoint steps (self : repo_test_attrs) (suite : repo_test_suite)
    (fp : option string) (start_time : Z) (sched : list event) (p : proc)
    (w : World) : proc * World :=
  match sched with
  | [] => (p, w)
  | ev :: sched' =>
      let (p', w') := repo_test.step self suite fp start_time ev p w in
      steps self suite fp start_time sched' p' w'
  end.

(** The machine at the return of the main thread, under the schedule;
    none when the schedule ends before the main thread returns. *)
Fixpoint machine_at_return (self : repo_test_attrs) (suite : repo_test_suite)
    (fp : option string) (start_time : Z) (sched : list event) (p : proc)
    (w : World) : option (proc * World) :=
  match main p with
  | Returned _ => Some (p, w)
  | _ =>
      match sched with
      | [] => None
      | ev :: sched' =>
          let (p', w') := repo_test.step self suite fp start_time ev p w in
          machine_at_return self suite fp start_time sched' p' w'
      end
  end.

(** The main thread is in the relay loop. *)
Definition in_loop (c : pc) : bool :=
  match c with
  | AtWhile | AtGet | AtTimeout => true
  | AtCommunicate | Returned _ => false
  end.

(** The turns the main thread takes from a point of the loop to the end
    of the next timeout test. *)
Definition turns_to_test (c : pc) : nat :=
  match c with
  | AtWhile => 3
  | AtGet => 2
  | AtTimeout => 1
  | AtCommunicate | Returned _ => 0
  end.

(** The turns the main thread takes from a point of the loop to leave
    it once the child has exited, at most. *)
Definition turns_to_leave (c : pc) : nat :=
  match c with
  | AtGet => 3
  | AtTimeout => 2
  | AtWhile => 1
  | AtCommunicate | Returned _ => 0
  end.

(** The three facts a step keeps while the main thread stays in the
    loop. *)
Ltac kept_in_loop :=
  split; [first [assumption | reflexivity]
         | split; [first [assumption | reflexivity]
                  | cbn [turns_to_leave] in *; lia]].

(** The turns that surely bring a silent child to the timeout return
    when [k] more waits of one second carry the time elapsed past the
    timeout. *)
Definition turns_to_timeout (c : pc) (k : nat) : nat :=
  match c with
  | AtWhile => 3 * k
  | AtGet => 3 * k - 1
  | AtTimeout => 3 * k + 1
  | AtCommunicate | Returned _ => 0
  end.

(** The child runs, its reader thread is alive, and the lines it has
    written or will write are lines. *)
Definition running (p : proc) : Prop :=
  returncode p = None /\
  thread_alive p = true /\
  Forall (fun l => l <> "") (pipe p ++ todo p).

(** The message of a timeout. *)
Definition timeout_message (self : repo_test_attrs) : string :=
  "Process exceeded " ++ str_of_Z (timeout_seconds self)
  ++ " seconds and was terminated.".

(** The text is ASCII: on such text [strip] removes what [str.strip()]
    removes. *)
Definition is_ascii_text (s : string) : bool :=
  forallb (fun c => (nat_of_ascii c <? 128)%nat) (list_ascii_of_string s).

(** [repr] writes the name between single quotes as it is: its
    characters are printable ASCII other than the quote and the
    backslash. *)
Definition repr_plain (s : string) : bool :=
  forallb (fun c => let n := nat_of_ascii c in
                    (32 <=? n)%nat && (n <=? 126)%nat
                    && negb (n =? 39)%nat && negb (n =? 92)%nat)
          (list_ascii_of_string s).

(** A child that is still running when the time elapsed passes the
    timeout of two seconds, after a timeout test that found one second,
    and exits with status 0 before the main thread tests the loop
    condition again. *)
Definition exits_late : launched :=
  mk_launched (mk_program [] 0 [])
    [EvMain; EvMain; EvMain; EvTick 5000; EvExit; EvReader; EvMain; EvMain].

(** * Properties *)

(** ** The merge operator *)

Lemma stricter_value (a b : result_type) :
  value (stricter a b) = Z.max (value a) (value b).
Proof.
  unfold stricter.
  destruct (value a <? value b)%Z eqn:E.
  - apply Z.ltb_lt in E. lia.
  - apply Z.ltb_ge in E. lia.
Qed.

Lemma merged_severity (a b : result_type) :
  (if result_type_eqb a ERROR || result_type_eqb b ERROR then ERROR
   else if result_type_eqb a WARNING || result_type_eqb b WARNING then WARNING
   else SUCCESS) = stricter a b.
Proof. destruct a, b; reflexivity. Qed.

(** With no right operand the merge is a copy of the left one. *)
Lemma merged_result_None (a : repo_test_result) :
  repo_test_result.merged_result a None = Ret a.
Proof. destruct a; reflexivity. Qed.

(** Where the concatenation of the messages is defined, the merge is
    the specified one: left owner, stricter severity, joined messages. *)
Lemma merged_result_mergeable (a b : repo_test_result) :
  mergeable a b = true ->
  repo_test_result.merged_result a (Some b) =
  Ret (mk_result (test a) (stricter (result a) (result b))
                 (joined_msg (msg a) (msg b))).
Proof.
  unfold mergeable, repo_test_result.merged_result.
  rewrite merged_severity.
  destruct (msg a) as [ma|], (msg b) as [mb|]; simpl; intros H;
    try discriminate; reflexivity.
Qed.

(** Everywhere else it raises. *)
Lemma merged_result_not_mergeable (a b : repo_test_result) :
  mergeable a b = false ->
  repo_test_result.merged_result a (Some b) = Raise TypeError.
Proof.
  unfold mergeable, repo_test_result.merged_result.
  destruct (msg a) as [ma|], (msg b) as [mb|]; simpl; intros H;
    try discriminate; reflexivity.
Qed.

(** The merge is a pure function: it never stays pending. *)
Lemma merged_result_not_Pending (a : repo_test_result) (b : option repo_test_result) :
  repo_test_result.merged_result a b <> Pending.
Proof.
  destruct b as [b|]; [|rewrite merged_result_None; discriminate].
  destruct (mergeable a b) eqn:E.
  - rewrite merged_result_mergeable by assumption. discriminate.
  - rewrite merged_result_not_mergeable by assumption. discriminate.
Qed.

(** C1.  Merging a Result without a message with one that has a message
    gives no Result at all: the call raises [TypeError], so the stricter
    severity ([ERROR] here) is not delivered.  With no right operand the
    merge is a copy of the left one. *)
Theorem merged_result_severity_lost :
  repo_test_result.merged_result
    (mk_result 1 SUCCESS None) (Some (mk_result 2 ERROR (Some "make failed")))
  = Raise TypeError
  /\ (forall r,
        repo_test_result.merged_result
          (mk_result 1 SUCCESS None)
          (Some (mk_result 2 ERROR (Some "make failed"))) <> Ret r)
  /\ (forall a, repo_test_result.merged_result a None = Ret a).
Proof.
  split; [reflexivity|].
  split; [intros r; discriminate|].
  intros a. apply merged_result_None.
Qed.

(** C2.  Whenever the left message is absent and the right one present,
    whatever the owners, severities and text, [merged_result] raises
    [TypeError] in place of returning the right message. *)
Theorem merged_result_absent_left_message_raises :
  forall (t t' : oid) (r r' : result_type) (m : string),
    repo_test_result.merged_result
      (mk_result t r None) (Some (mk_result t' r' (Some m)))
    = Raise TypeError.
Proof. intros. destruct r, r'; reflexivity. Qed.

(** ** Algebra of severities and messages *)

Lemma stricter_assoc (a b c : result_type) :
  stricter (stricter a b) c = stricter a (stricter b c).
Proof. destruct a, b, c; reflexivity. Qed.

Lemma stricter_comm (a b : result_type) : stricter a b = stricter b a.
Proof. destruct a, b; reflexivity. Qed.

Lemma stricter_SUCCESS_r (a : result_type) : stricter a SUCCESS = a.
Proof. destruct a; reflexivity. Qed.

Lemma string_app_assoc (a b c : string) : (a ++ b) ++ c = a ++ (b ++ c).
Proof. induction a as [|x a IH]; simpl; [reflexivity | now rewrite IH]. Qed.

Lemma joined_msg_assoc (a b c : option string) :
  joined_msg (joined_msg a b) c = joined_msg a (joined_msg b c).
Proof.
  destruct a as [a|], b as [b|], c as [c|]; simpl; try reflexivity.
  now rewrite !string_app_assoc.
Qed.

Lemma joined_msg_None_l (a : option string) : joined_msg None a = a.
Proof. destruct a; reflexivity. Qed.

Lemma joined_msg_None_r (a : option string) : joined_msg a None = a.
Proof. destruct a; reflexivity. Qed.

Lemma messages_joined_snoc (l : list (option string)) (m : option string) :
  messages_joined (l ++ [m]) = joined_msg (messages_joined l) m.
Proof. unfold messages_joined. now rewrite fold_left_app. Qed.

Lemma worst_value_bound (l : list result_type) (r : result_type) :
  In r l -> (value r <= value (worst l))%Z.
Proof.
  induction l as [|x l IH]; simpl; [tauto|].
  rewrite stricter_value. intros [->|H]; [lia|]. specialize (IH H). lia.
Qed.

(** ** Calls of the checks *)

Lemma perform_all_cons (h : heap) (u : oid) (us : list oid) (s s' : state)
    (rs : list repo_test_result) :
  perform_all h (u :: us) s = (Ret rs, s') ->
  exists r1 s1 rs',
    call_perform_test h u s = (Ret r1, s1) /\
    perform_all h us s1 = (Ret rs', s') /\
    rs = r1 :: rs'.
Proof.
  simpl. unfold bind.
  destruct (call_perform_test h u s) as [[r1|e|] s1] eqn:E1; try discriminate.
  destruct (perform_all h us s1) as [[rs'|e|] s2] eqn:E2; try discriminate.
  unfold ret. intros E. injection E as <- <-.
  now exists r1, s1, rs'.
Qed.

Lemma call_perform_test_calls (h : heap) (u : oid) (s s' : state)
    (o : outcome repo_test_result) :
  call_perform_test h u s = (o, s') -> calls s' = (calls s ++ [u])%list.
Proof.
  unfold call_perform_test.
  destruct (perform_test (h u) (world s)) as [o' w].
  intros E. injection E as _ <-. reflexivity.
Qed.

Lemma perform_all_calls (h : heap) (us : list oid) :
  forall (s s' : state) (rs : list repo_test_result),
    perform_all h us s = (Ret rs, s') ->
    calls s' = (calls s ++ us)%list /\ List.length rs = List.length us.
Proof.
  induction us as [|u us IH]; intros s s' rs H.
  - simpl in H. unfold ret in H. injection H as <- <-.
    now rewrite app_nil_r.
  - apply perform_all_cons in H as (r1 & s1 & rs' & H1 & H2 & ->).
    apply call_perform_test_calls in H1.
    apply IH in H2 as [H2 H3].
    rewrite H2, H1, <- app_assoc. simpl. now rewrite H3.
Qed.

(** ** Method resolution *)

Lemma mro_base (c : py_class) :
  mro c = c :: match base c with Some b => mro b | None => [] end.
Proof. destruct c; reflexivity. Qed.

Lemma resolve_getResult (c : py_class) :
  resolve c m_getResult = Some repo_test_unit.
Proof.
  unfold resolve.
  induction c; try reflexivity.
  simpl. exact IHc.
Qed.

Lemma resolve_initiate_test_linked_list (c : py_class) :
  isinstance_linked_list c = true ->
  resolve c m_initiate_test = Some repo_test_linked_list.
Proof.
  unfold isinstance_linked_list, resolve.
  induction c; simpl; try discriminate; try reflexivity.
  exact IHc.
Qed.

(** ** The chain *)

Lemma absent_then_present_tail (m : option string) (l : list (option string)) :
  absent_then_present (m :: l) = true -> absent_then_present l = true.
Proof.
  destruct m as [m|]; simpl; [|tauto].
  induction l as [|[x|] l IH]; simpl; try reflexivity; try discriminate.
  intros H. exact H.
Qed.

Lemma absent_then_present_joined (a b : option string) (l : list (option string)) :
  absent_then_present (a :: b :: l) = true ->
  absent_then_present (joined_msg b a :: l) = true.
Proof.
  destruct a as [a|], b as [b|]; simpl; try discriminate; tauto.
Qed.

Lemma absent_then_present_mergeable (a r : repo_test_result)
    (l : list (option string)) :
  absent_then_present (msg a :: msg r :: l) = true -> mergeable r a = true.
Proof.
  unfold mergeable.
  destruct (msg a) as [ma|], (msg r) as [mr|]; simpl; try reflexivity.
  discriminate.
Qed.

(** The loop of the chain, on a list of links whose checks return and
    whose merges are defined: every link is visited and the value is
    the accumulation [chain_acc]. *)
Lemma walk_fold (h : heap) :
  forall (us : list oid) (head : oid) (acc : option repo_test_result)
         (fuel : nat) (s s' : state) (rs : list repo_test_result),
    linked h (Some head) us ->
    List.length us <= fuel ->
    perform_all h us s = (Ret rs, s') ->
    absent_then_present (map msg (opt_list acc ++ rs)) = true ->
    exists r,
      repo_test_linked_list.walk fuel h head acc s = (Ret r, s') /\
      chain_acc acc rs = Some r.
Proof.
  induction us as [|u us IH]; intros head acc fuel s s' rs Hl Hf Hp Hm.
  - simpl in Hl. discriminate.
  - destruct Hl as (Hh & Hc & Hn). injection Hh as ->.
    destruct fuel as [|fuel]; [simpl in Hf; lia|].
    apply perform_all_cons in Hp as (r1 & s1 & rs' & H1 & H2 & ->).
    simpl. unfold bind at 1. rewrite H1.
    assert (Hmerge :
      exists new,
        repo_test_result.merged_result r1 acc = Ret new /\
        new = match acc with Some a => merge_spec r1 a | None => r1 end /\
        absent_then_present (map msg (opt_list (Some new) ++ rs')) = true).
    { destruct acc as [a|]; simpl in Hm.
      - exists (merge_spec r1 a). split; [|split; [reflexivity|]].
        + apply merged_result_mergeable.
          eapply absent_then_present_mergeable; exact Hm.
        + simpl. apply absent_then_present_joined. exact Hm.
      - exists r1. split; [apply merged_result_None|].
        split; [reflexivity|]. exact Hm. }
    destruct Hmerge as (new & Hnew & Hdef & Hm').
    unfold bind at 1, pure at 1. rewrite Hnew.
    unfold bind at 1, repo_test_linked_list.getattr_next. rewrite Hc.
    unfold ret at 1.
    destruct us as [|u2 us].
    + simpl in Hn. rewrite Hn.
      simpl in H2. unfold ret in H2. injection H2 as <- <-.
      exists new. split; [reflexivity|].
      unfold chain_acc. simpl. now rewrite Hdef.
    + pose proof Hn as Hn2. destruct Hn2 as (Hnx & _). rewrite Hnx.
      rewrite Hnx in Hn.
      destruct (IH u2 (Some new) fuel s1 s' rs' Hn) as (r & Hw & Hacc);
        [simpl in Hf |- *; lia | exact H2 | exact Hm' |].
      exists r. split; [exact Hw|].
      unfold chain_acc in *. simpl. now rewrite <- Hdef.
Qed.

(** What [chain_acc] holds: the worst severity, the messages joined
    newest first, the owner of the last result. *)
Lemma chain_acc_fields :
  forall (rs : list repo_test_result) (acc : option repo_test_result)
         (r : repo_test_result),
    chain_acc acc rs = Some r ->
    result r = worst (map result (opt_list acc ++ rs)) /\
    msg r = messages_joined (rev (map msg (opt_list acc ++ rs))) /\
    (forall d, test r = test (last (opt_list acc ++ rs) d)).
Proof.
  induction rs as [|r1 rs IH]; intros acc r H.
  - unfold chain_acc in H. simpl in H. subst acc. simpl.
    rewrite stricter_SUCCESS_r. unfold messages_joined. simpl.
    repeat split. now destruct (msg r).
  - unfold chain_acc in H. simpl in H.
    apply IH in H as (Hr & Hm & Ht).
    destruct acc as [a|]; simpl in *.
    + split; [|split].
      * rewrite Hr.
        rewrite (stricter_comm (result r1) (result a)).
        now rewrite stricter_assoc.
      * rewrite Hm. rewrite !messages_joined_snoc.
        now rewrite joined_msg_assoc.
      * intros d. rewrite (Ht d). destruct rs; reflexivity.
    + split; [exact Hr|]. split; [exact Hm|]. exact Ht.
Qed.

(** C3 (as amended).  On a chain of links [us] whose checks return and
    on whose results every merge is defined, invoking the head calls
    each link's check once, in order from head to tail, whatever the
    severities met, and returns the fold in which each new result is the
    left operand of the merge: the worst of the severities, the owner of
    the tail's result, the messages joined from tail to head. *)
Theorem chain_initiate_test_folds_newest_first :
  forall (h : heap) (head : oid) (us : list oid) (fuel : nat)
         (s s' : state) (rs : list repo_test_result),
    linked h (Some head) us ->
    List.length us <= fuel ->
    perform_all h us s = (Ret rs, s') ->
    absent_then_present (map msg rs) = true ->
    exists r,
      initiate_test fuel h head s = (Ret r, s') /\
      calls s' = (calls s ++ us)%list /\
      result r = worst (map result rs) /\
      (forall d, test r = test (last rs d)) /\
      msg r = messages_joined (rev (map msg rs)).
Proof.
  intros h head us fuel s s' rs Hl Hf Hp Hm.
  destruct (walk_fold h us head None fuel s s' rs Hl Hf Hp Hm) as (r & Hw & Ha).
  apply chain_acc_fields in Ha as (Hr & Hmsg & Ht). simpl in Hr, Hmsg, Ht.
  exists r. split; [|split; [|split; [|split]]]; try assumption.
  - destruct us as [|u us]; [discriminate Hl|].
    destruct Hl as (Hh & Hc & _). injection Hh as ->.
    unfold initiate_test.
    rewrite (resolve_initiate_test_linked_list _ Hc). exact Hw.
  - now apply (perform_all_calls h us s s' rs).
Qed.

Lemma chain_initiate_test_folds_newest_first_witness :
  exists r,
    initiate_test 2 two_links 1 quiet_state = (Ret r, mk_state quiet_world [1; 2]) /\
    calls (mk_state quiet_world [1; 2]) = (calls quiet_state ++ [1; 2])%list /\
    result r = worst (map result [mk_result 1 SUCCESS (Some "a");
                                  mk_result 2 WARNING (Some "b")]) /\
    (forall d, test r = test (last [mk_result 1 SUCCESS (Some "a");
                                    mk_result 2 WARNING (Some "b")] d)) /\
    msg r = messages_joined (rev (map msg [mk_result 1 SUCCESS (Some "a");
                                           mk_result 2 WARNING (Some "b")])).
Proof.
  apply (chain_initiate_test_folds_newest_first
           two_links 1 [1; 2] 2 quiet_state (mk_state quiet_world [1; 2])
           [mk_result 1 SUCCESS (Some "a"); mk_result 2 WARNING (Some "b")]).
  - simpl. repeat split; reflexivity.
  - simpl. lia.
  - reflexivity.
  - reflexivity.
Defined.

(** C3 as stated fails: on the chain 1 -> 2 the Result names the tail,
    not the head, and its message runs from tail to head. *)
Lemma chain_owner_is_tail_counterexample :
  linked two_links (Some 1) [1; 2] /\
  exists r,
    initiate_test 2 two_links 1 quiet_state = (Ret r, mk_state quiet_world [1; 2]) /\
    test r = 2 /\ test r <> 1 /\
    msg r = Some ("b" ++ nl ++ "a") /\
    msg r <> messages_joined [Some "a"; Some "b"].
Proof.
  split; [simpl; repeat split; reflexivity|].
  exists (mk_result 2 WARNING (Some ("b" ++ nl ++ "a"))).
  split; [reflexivity|].
  repeat split; try reflexivity; simpl; discriminate.
Qed.

(** ** The follow unit *)

Lemma first_or_none_mergeable (a r : repo_test_result) (l : list (option string)) :
  first_or_none (msg a :: msg r :: l) = true -> mergeable a r = true.
Proof.
  unfold mergeable.
  destruct (msg a) as [ma|], (msg r) as [mr|]; simpl; try reflexivity.
  discriminate.
Qed.

Lemma first_or_none_joined (a b : option string) (l : list (option string)) :
  first_or_none (a :: b :: l) = true ->
  first_or_none (joined_msg a b :: l) = true.
Proof.
  destruct a as [a|], b as [b|]; simpl; try discriminate; tauto.
Qed.

(** The loop over the subordinates, where their checks return and the
    merges are defined: the left fold of the merge from [own_result]. *)
Lemma for_sub_tests_fold (h : heap) :
  forall (subs : list oid) (own : repo_test_result) (s s' : state)
         (rs : list repo_test_result),
    perform_all h subs s = (Ret rs, s') ->
    first_or_none (map msg (own :: rs)) = true ->
    repo_test_follow.for_sub_tests h subs own s =
    (Ret (fold_left merge_spec rs own), s').
Proof.
  induction subs as [|u subs IH]; intros own s s' rs Hp Hm.
  - simpl in Hp. unfold ret in Hp. injection Hp as <- <-. reflexivity.
  - apply perform_all_cons in Hp as (r1 & s1 & rs' & H1 & H2 & ->).
    cbn [repo_test_follow.for_sub_tests]. unfold bind at 1. rewrite H1.
    unfold bind at 1, pure at 1.
    rewrite merged_result_mergeable
      by (eapply first_or_none_mergeable; exact Hm).
    apply (IH _ _ _ _ H2).
    simpl. apply first_or_none_joined. exact Hm.
Qed.

Lemma fold_merge_spec_fields :
  forall (rs : list repo_test_result) (own : repo_test_result),
    test (fold_left merge_spec rs own) = test own /\
    result (fold_left merge_spec rs own) = worst (map result (own :: rs)) /\
    msg (fold_left merge_spec rs own) = messages_joined (map msg (own :: rs)).
Proof.
  induction rs as [|r1 rs IH]; intros own.
  - simpl. rewrite stricter_SUCCESS_r. unfold messages_joined. simpl.
    repeat split. now destruct (msg own).
  - simpl. destruct (IH (merge_spec own r1)) as (Ht & Hr & Hm).
    rewrite Ht, Hr, Hm. simpl. repeat split.
    + now rewrite stricter_assoc.
    + unfold messages_joined. simpl.
      destruct (msg own), (msg r1); reflexivity.
Qed.

(** A follow unit whose checks return and whose first message is
    present, or whose messages are all absent: the primary's check, then
    every subordinate's in list order, and the fold of their results,
    primary first. *)
Lemma follow_initiate_test_folds :
  forall (h : heap) (self : oid) (fuel : nat) (s s' : state)
         (r0 : repo_test_result) (rs : list repo_test_result),
    resolve (cls (h self)) m_initiate_test = Some repo_test_follow ->
    perform_all h (self :: sub_tests (h self)) s = (Ret (r0 :: rs), s') ->
    first_or_none (map msg (r0 :: rs)) = true ->
    exists r,
      initiate_test fuel h self s = (Ret r, s') /\
      calls s' = (calls s ++ self :: sub_tests (h self))%list /\
      result r = worst (map result (r0 :: rs)) /\
      test r = test r0 /\
      msg r = messages_joined (map msg (r0 :: rs)).
Proof.
  intros h self fuel s s' r0 rs Hc Hp Hm.
  pose proof (perform_all_calls h _ s s' _ Hp) as [Hcalls _].
  apply perform_all_cons in Hp as (r1 & s1 & rs' & H1 & H2 & E).
  injection E as <- <-.
  exists (fold_left merge_spec rs r0).
  destruct (fold_merge_spec_fields rs r0) as (Ht & Hr & Hmsg).
  split; [|split; [|split; [|split]]]; try assumption.
  unfold initiate_test. rewrite Hc.
  unfold repo_test_follow.initiate_test, bind at 1. rewrite H1.
  now apply for_sub_tests_fold.
Qed.

(** The follow unit of the specification's own test: the primary
    fails, two subordinates succeed, every check gives a message. *)
Example follow_unit_with_messages (fuel : nat) :
  initiate_test fuel build_and_checks_with_messages 1 quiet_state =
  (Ret (mk_result 1 ERROR
          (Some ("make failed" ++ nl ++ "log clean" ++ nl ++ "ok"))),
   mk_state quiet_world [1; 2; 3]).
Proof. reflexivity. Qed.

(** C4.  A follow unit whose own check fails without a message (as a
    failed Makefile rule does) and whose first subordinate reports a
    message: the merge raises [TypeError] after the first subordinate,
    the second subordinate is never run and no Result is returned. *)
Theorem follow_unit_aborts_on_merge :
  forall fuel : nat,
    initiate_test fuel build_and_checks 1 quiet_state =
    (Raise TypeError, mk_state quiet_world [1; 2])
    /\ sub_tests (build_and_checks 1) = [2; 3]
    /\ ~ In 3 (calls (snd (initiate_test fuel build_and_checks 1 quiet_state))).
Proof.
  intros fuel. split; [reflexivity|]. split; [reflexivity|].
  simpl. intros [H|[H|[]]]; discriminate.
Qed.

(** ** Units: what an invocation that returns has called *)

Lemma bind_Ret_inv {S A B : Type} (m : M S A) (k : A -> M S B) (s s' : S) (b : B) :
  bind m k s = (Ret b, s') ->
  exists a s1, m s = (Ret a, s1) /\ k a s1 = (Ret b, s').
Proof.
  unfold bind. destruct (m s) as [[a|e|] s1]; try discriminate.
  intros H. now exists a, s1.
Qed.

Lemma pure_Ret_inv {S A : Type} (o : outcome A) (s s' : S) (a : A) :
  pure o s = (Ret a, s') -> o = Ret a /\ s' = s.
Proof. unfold pure. intros H. injection H as -> ->. now split. Qed.

Lemma follow_for_sub_tests_calls (h : heap) :
  forall (subs : list oid) (own r : repo_test_result) (s s' : state),
    repo_test_follow.for_sub_tests h subs own s = (Ret r, s') ->
    calls s' = (calls s ++ subs)%list.
Proof.
  induction subs as [|u subs IH]; intros own r s s' H.
  - simpl in H. unfold ret in H. injection H as _ <-. now rewrite app_nil_r.
  - cbn [repo_test_follow.for_sub_tests] in H.
    apply bind_Ret_inv in H as (r1 & s1 & H1 & H).
    apply bind_Ret_inv in H as (own' & s2 & H2 & H).
    apply pure_Ret_inv in H2 as [_ ->].
    apply call_perform_test_calls in H1.
    apply IH in H. rewrite H, H1, <- app_assoc. reflexivity.
Qed.

Lemma walk_calls (h : heap) :
  forall (fuel : nat) (u : oid) (acc : option repo_test_result)
         (r : repo_test_result) (s s' : state),
    repo_test_linked_list.walk fuel h u acc s = (Ret r, s') ->
    calls s' = (calls s ++ links fuel h u)%list.
Proof.
  induction fuel as [|fuel IH]; intros u acc r s s' H.
  - simpl in H. discriminate.
  - cbn [repo_test_linked_list.walk] in H.
    apply bind_Ret_inv in H as (r1 & s1 & H1 & H).
    apply bind_Ret_inv in H as (new & s2 & H2 & H).
    apply pure_Ret_inv in H2 as [_ ->].
    apply bind_Ret_inv in H as (nxt & s3 & H3 & H).
    unfold repo_test_linked_list.getattr_next in H3.
    destruct (isinstance_linked_list (cls (h u))); [|discriminate].
    unfold ret in H3. injection H3 as <- <-.
    apply call_perform_test_calls in H1.
    cbn [links].
    destruct (next (h u)) as [c|].
    + apply IH in H. rewrite H, H1, <- app_assoc. reflexivity.
    + unfold ret in H. injection H as _ <-. exact H1.
Qed.

Lemma initiate_test_calls (fuel : nat) (h : heap) (u : oid)
    (r : repo_test_result) (s s' : state) :
  initiate_test fuel h u s = (Ret r, s') ->
  calls s' = (calls s ++ checks_of fuel h u)%list.
Proof.
  unfold initiate_test, checks_of.
  destruct (resolve (cls (h u)) m_initiate_test) as [c|]; [|discriminate].
  destruct c; try discriminate.
  - apply call_perform_test_calls.
  - apply walk_calls.
  - unfold repo_test_follow.initiate_test. intros H.
    apply bind_Ret_inv in H as (r1 & s1 & H1 & H).
    apply call_perform_test_calls in H1.
    apply follow_for_sub_tests_calls in H.
    rewrite H, H1, <- app_assoc. reflexivity.
Qed.

(** ** The dict of results *)

Lemma keys_dict_set (d : dict) (k : oid) (v : repo_test_result) :
  keys (dict_set d k v) = add_key (keys d) k.
Proof.
  unfold add_key, keys.
  induction d as [|[k' v'] d IH]; simpl; [reflexivity|].
  rewrite (Nat.eqb_sym k k').
  destruct (Nat.eqb k' k) eqn:E; simpl; [reflexivity|].
  rewrite IH. now destruct (existsb (Nat.eqb k) (map fst d)).
Qed.

Lemma dict_get_set_same (d : dict) (k : oid) (v : repo_test_result) :
  dict_get (dict_set d k v) k = Some v.
Proof.
  induction d as [|[k' v'] d IH]; simpl.
  - now rewrite Nat.eqb_refl.
  - destruct (Nat.eqb k' k) eqn:E; simpl; rewrite E; [reflexivity | exact IH].
Qed.

Lemma dict_get_set_other (d : dict) (k k2 : oid) (v : repo_test_result) :
  k2 <> k -> dict_get (dict_set d k v) k2 = dict_get d k2.
Proof.
  intros Hne.
  induction d as [|[k' v'] d IH]; simpl.
  - destruct (Nat.eqb k k2) eqn:E; [apply Nat.eqb_eq in E; congruence|reflexivity].
  - destruct (Nat.eqb k' k) eqn:E; simpl.
    + apply Nat.eqb_eq in E. subst k'.
      destruct (Nat.eqb k k2) eqn:E2; [apply Nat.eqb_eq in E2; congruence|reflexivity].
    + now rewrite IH.
Qed.

Lemma existsb_eqb_In (k : oid) (ks : list oid) :
  existsb (Nat.eqb k) ks = true <-> In k ks.
Proof.
  rewrite existsb_exists. split.
  - intros (x & Hx & E). apply Nat.eqb_eq in E. now subst.
  - intros H. exists k. split; [exact H | apply Nat.eqb_refl].
Qed.

Lemma add_key_In (ks : list oid) (k u : oid) :
  In u (add_key ks k) <-> In u ks \/ u = k.
Proof.
  unfold add_key. destruct (existsb (Nat.eqb k) ks) eqn:E.
  - apply existsb_eqb_In in E. split; [tauto|]. intros [H| ->]; assumption.
  - rewrite in_app_iff. simpl. intuition congruence.
Qed.

Lemma add_key_NoDup (ks : list oid) (k : oid) :
  NoDup ks -> NoDup (add_key ks k).
Proof.
  intros H. unfold add_key. destruct (existsb (Nat.eqb k) ks) eqn:E; [exact H|].
  apply NoDup_app; [exact H | constructor; [intros []|constructor] |].
  intros x Hx [<-|[]].
  apply existsb_eqb_In in Hx. congruence.
Qed.

Lemma fold_add_key_In (tests ks : list oid) (u : oid) :
  In u (fold_left add_key tests ks) <-> In u ks \/ In u tests.
Proof.
  revert ks. induction tests as [|t tests IH]; intros ks; simpl; [tauto|].
  rewrite IH, add_key_In. intuition congruence.
Qed.

Lemma fold_add_key_NoDup (tests ks : list oid) :
  NoDup ks -> NoDup (fold_left add_key tests ks).
Proof.
  revert ks. induction tests as [|t tests IH]; intros ks H; simpl; [exact H|].
  apply IH, add_key_NoDup, H.
Qed.

(** Keys already in the dict are set in place: the keys do not move. *)
Lemma fold_add_key_present (tests ks : list oid) :
  incl tests ks -> fold_left add_key tests ks = ks.
Proof.
  induction tests as [|t tests IH]; intros H; simpl; [reflexivity|].
  assert (E : add_key ks t = ks).
  { unfold add_key.
    destruct (existsb (Nat.eqb t) ks) eqn:E; [reflexivity|].
    assert (In t ks) as Hin by (apply H; now left).
    apply existsb_eqb_In in Hin. congruence. }
  rewrite E. apply IH. intros x Hx. apply H. now right.
Qed.

Lemma dict_get_In (d : dict) (u : oid) :
  In u (keys d) -> exists r, dict_get d u = Some r.
Proof.
  induction d as [|[k v] d IH]; simpl; [tauto|].
  intros [->|H].
  - rewrite Nat.eqb_refl. now exists v.
  - destruct (Nat.eqb k u); [now exists v | now apply IH].
Qed.

(** ** The group *)

Lemma getResult_turn_stricter (h : heap) (c : result_type) (m : string)
    (item : oid * repo_test_result) :
  repo_test_group.getResult_turn h (c, m) item =
  (stricter c (result (snd item)),
   m ++ repo_test_result.str (repo_test_unit.getName h) (snd item) ++ nl).
Proof.
  unfold repo_test_group.getResult_turn.
  f_equal. destruct c, (result (snd item)); reflexivity.
Qed.

Lemma getResult_fold (h : heap) :
  forall (d : dict) (c : result_type) (m : string),
    fold_left (repo_test_group.getResult_turn h) d (c, m) =
    (stricter c (worst (table_severities d)), m ++ table_text h d).
Proof.
  induction d as [|item d IH]; intros c m.
  - simpl. rewrite stricter_SUCCESS_r. f_equal.
    unfold table_text. simpl.
    induction m as [|x m IHm]; simpl; [reflexivity | now rewrite <- IHm].
  - cbn [fold_left]. rewrite getResult_turn_stricter, IH.
    unfold table_severities, table_text. simpl.
    rewrite stricter_assoc. f_equal.
    now rewrite !string_app_assoc.
Qed.

Lemma getResult_fields (h : heap) (g : repo_test_group) :
  repo_test_group.getResult h g =
  mk_result (group_id g) (worst (table_severities (result_dict g)))
            (Some (table_text h (result_dict g))).
Proof.
  unfold repo_test_group.getResult. rewrite getResult_fold.
  f_equal. now destruct (worst (table_severities (result_dict g))).
Qed.

(** The loop of the group over members whose invocations return. *)
Lemma keys_record_results (tests : list oid) :
  forall (rs : list repo_test_result) (d : dict),
    List.length rs = List.length tests ->
    keys (record_results d tests rs) = fold_left add_key tests (keys d).
Proof.
  unfold record_results.
  induction tests as [|t tests IH]; intros [|r rs] d Hlen;
    try discriminate Hlen; [reflexivity|].
  cbn [combine fold_left fst snd]. rewrite IH by (simpl in Hlen; lia).
  now rewrite keys_dict_set.
Qed.

Lemma dict_get_record_results (tests : list oid) :
  forall (rs : list repo_test_result) (d : dict) (u : oid) (r : repo_test_result),
    List.length rs = List.length tests ->
    dict_get (record_results d tests rs) u = Some r ->
    In (u, r) (combine tests rs) \/
    (~ In u tests /\ dict_get d u = Some r).
Proof.
  unfold record_results.
  induction tests as [|t tests IH]; intros [|r0 rs] d u r Hlen Hget;
    try discriminate Hlen.
  - right. split; [intros [] | exact Hget].
  - cbn [combine fold_left fst snd] in Hget.
    apply IH in Hget; [|simpl in Hlen; lia].
    destruct Hget as [Hin|[Hnin Hold]]; [left; now right|].
    destruct (Nat.eq_dec u t) as [->|Hne].
    + rewrite dict_get_set_same in Hold. injection Hold as <-.
      left. now left.
    + rewrite dict_get_set_other in Hold by exact Hne.
      right. split; [|exact Hold]. intros [E|Hin]; [congruence|tauto].
Qed.

(** The loop of the group over the members of a run whose invocations
    return: it returns in the state the invocations leave, with their
    Results stored in order. *)
Lemma group_for_sub_tests_run (fuel : nat) (h : heap) (suite : repo_test_suite) :
  forall (tests : list oid) (g : repo_test_group) (s s' : state)
         (rs : list repo_test_result),
    invoke_members fuel h suite tests s = (Ret rs, s') ->
    repo_test_group.for_sub_tests fuel h suite tests g s =
      (Ret tt,
       mk_group (group_id g) (group_name g) (group_sub_tests g)
                (record_results (result_dict g) tests rs),
       s') /\
    List.length rs = List.length tests /\
    calls s' = (calls s ++ flat_map (checks_of fuel h) tests)%list.
Proof.
  induction tests as [|t tests IH]; intros g s s' rs H.
  - injection H as <- <-. destruct g. simpl. rewrite app_nil_r. now repeat split.
  - cbn [invoke_members] in H.
    apply bind_Ret_inv in H as ([] & s1 & H1 & H).
    injection H1 as <-.
    apply bind_Ret_inv in H as (r & s2 & H2 & H).
    apply bind_Ret_inv in H as ([] & s3 & H3 & H).
    injection H3 as <-.
    apply bind_Ret_inv in H as (rs' & s4 & H4 & H).
    injection H as <- <-.
    cbn [repo_test_group.for_sub_tests]. cbn [append] in H2 |- *. rewrite H2.
    destruct (IH (mk_group (group_id g) (group_name g) (group_sub_tests g)
                           (dict_set (result_dict g) t r)) _ _ _ H4)
      as (Hrun & Hlen & Hcalls).
    rewrite Hrun. split; [reflexivity|]. split; [simpl; now rewrite Hlen|].
    apply initiate_test_calls in H2. rewrite Hcalls. simpl in *.
    rewrite H2. now rewrite <- app_assoc.
Qed.

Lemma keys_length (d : dict) : List.length (keys d) = List.length d.
Proof. apply length_map. Qed.

(** C5 (as amended).  On a group whose members' invocations return in
    the run at hand, [initiate_test] returns: it has invoked the
    members in list order, once for each place a member has in the
    list; the table then holds one entry for each distinct member, a
    Result that an invocation of that member returned in this run: it
    has as many entries as there are distinct members, which is the
    member count when no unit is listed twice, and an invocation of a
    group whose members all have an entry adds none; the group-level
    Result has the worst of the recorded severities and, as its message,
    the text of every recorded Result, each followed by a newline. *)
Theorem group_initiate_test_records_and_folds :
  forall (fuel : nat) (h : heap) (suite : repo_test_suite)
         (g : repo_test_group) (s s' : state) (rs : list repo_test_result),
    group_wf g ->
    invoke_members fuel h suite (group_sub_tests g)
      (on_world (repo_test_suite.print_test_status suite
                   ("Executing Test Set: " ++ repo_test_group.getName g)) s)
    = (Ret rs, s') ->
    exists r g',
      repo_test_group.initiate_test fuel h suite g s = (Ret r, g', s') /\
      group_sub_tests g' = group_sub_tests g /\
      group_wf g' /\
      calls s' = (calls s ++ flat_map (checks_of fuel h) (group_sub_tests g))%list /\
      (forall u, In u (keys (result_dict g')) <-> In u (group_sub_tests g)) /\
      List.length (result_dict g') =
        List.length (nodup Nat.eq_dec (group_sub_tests g)) /\
      (NoDup (group_sub_tests g) ->
       List.length (result_dict g') = List.length (group_sub_tests g)) /\
      (incl (group_sub_tests g) (keys (result_dict g)) ->
       keys (result_dict g') = keys (result_dict g)) /\
      (forall u, In u (group_sub_tests g) ->
                 exists r1,
                   dict_get (result_dict g') u = Some r1 /\
                   In (u, r1) (combine (group_sub_tests g) rs)) /\
      r = mk_result (group_id g) (worst (table_severities (result_dict g')))
                    (Some (table_text h (result_dict g'))).
Proof.
  intros fuel h suite g s s' rs [Hnd Hincl] Hinv.
  unfold repo_test_group.initiate_test.
  destruct (group_for_sub_tests_run fuel h suite (group_sub_tests g) g _ _ _ Hinv)
    as (Hrun & Hlen & Hcalls).
  rewrite Hrun.
  set (g' := mk_group (group_id g) (group_name g) (group_sub_tests g)
                      (record_results (result_dict g) (group_sub_tests g) rs)).
  assert (Hkeys : keys (result_dict g') =
                  fold_left add_key (group_sub_tests g) (keys (result_dict g)))
    by (apply keys_record_results; exact Hlen).
  assert (Hin : forall u, In u (keys (result_dict g')) <-> In u (group_sub_tests g)).
  { intros u. rewrite Hkeys, fold_add_key_In. split; [|tauto].
    intros [H|H]; [now apply Hincl | exact H]. }
  assert (Hnd' : NoDup (keys (result_dict g'))).
  { rewrite Hkeys. now apply fold_add_key_NoDup. }
  assert (Hperm : Permutation (keys (result_dict g'))
                              (nodup Nat.eq_dec (group_sub_tests g))).
  { apply NoDup_Permutation; [exact Hnd' | apply NoDup_nodup |].
    intros u. rewrite nodup_In. apply Hin. }
  exists (repo_test_group.getResult h g'), g'.
  split; [reflexivity|]. split; [reflexivity|].
  split; [split; [exact Hnd'|]|].
  { intros u Hu. now apply Hin. }
  split; [exact Hcalls|]. split; [exact Hin|].
  split; [|split; [|split; [|split]]].
  - rewrite <- keys_length. now apply Permutation_length.
  - intros Hm. rewrite <- keys_length.
    rewrite (Permutation_length Hperm). now rewrite (nodup_fixed_point Nat.eq_dec).
  - intros Hall. rewrite Hkeys. now apply fold_add_key_present.
  - intros u Hu.
    destruct (dict_get_In (result_dict g') u) as [r1 Hget]; [now apply Hin|].
    exists r1. split; [exact Hget|].
    destruct (dict_get_record_results _ _ _ _ _ Hlen Hget) as [H|[Hn _]];
      [exact H | tauto].
  - now rewrite getResult_fields.
Qed.

Lemma group_initiate_test_records_and_folds_witness :
  exists r g',
    repo_test_group.initiate_test 1 three_leaves plain_suite three_members
      quiet_state
    = (Ret r, g',
       snd (invoke_members 1 three_leaves plain_suite
              (group_sub_tests three_members)
              (on_world (repo_test_suite.print_test_status plain_suite
                           ("Executing Test Set: "
                            ++ repo_test_group.getName three_members))
                        quiet_state))) /\
    List.length (result_dict g') = List.length (group_sub_tests three_members) /\
    r = mk_result 9 (worst (table_severities (result_dict g')))
                  (Some (table_text three_leaves (result_dict g'))).
Proof.
  destruct (group_initiate_test_records_and_folds
              1 three_leaves plain_suite three_members quiet_state
              (snd (invoke_members 1 three_leaves plain_suite
                      (group_sub_tests three_members)
                      (on_world (repo_test_suite.print_test_status plain_suite
                                   ("Executing Test Set: "
                                    ++ repo_test_group.getName three_members))
                                quiet_state)))
              (results_of
                 (fst (invoke_members 1 three_leaves plain_suite
                         (group_sub_tests three_members)
                         (on_world (repo_test_suite.print_test_status plain_suite
                                      ("Executing Test Set: "
                                       ++ repo_test_group.getName three_members))
                                   quiet_state)))))
    as (r & g' & Hrun & _ & _ & _ & _ & _ & Hlen & _ & _ & Hr).
  - split; [constructor | intros u []].
  - reflexivity.
  - exists r, g'. split; [exact Hrun|]. split; [|exact Hr].
    apply Hlen. simpl.
    repeat constructor; simpl; intuition discriminate.
Defined.

(** C5 as stated fails: the group [run_main] builds under
    [--build --submit] lists the build step twice; after the invocation
    the table has one entry for two members. *)
Lemma group_table_smaller_than_members_counterexample :
  group_sub_tests spliced_twice = [1; 1] /\
  exists r g' s',
    repo_test_group.initiate_test 1 three_leaves plain_suite spliced_twice
      quiet_state = (Ret r, g', s') /\
    calls s' = [1; 1] /\
    List.length (group_sub_tests g') = 2 /\
    List.length (result_dict g') = 1 /\
    List.length (result_dict g') <> List.length (group_sub_tests g').
Proof.
  split; [reflexivity|].
  eexists _, _, _. split; [reflexivity|].
  simpl. repeat split; try reflexivity. discriminate.
Qed.

(** The invariant of the table is established by the constructor and
    kept by the operations that add members. *)
Lemma group_wf_init (id : oid) (nm : string) :
  group_wf (repo_test_group.init id nm).
Proof. split; [constructor | intros u []]. Qed.

Lemma group_wf_add_test (g : repo_test_group) (rtest : oid) (position : option Z) :
  group_wf g -> group_wf (repo_test_group.add_test g rtest position).
Proof.
  intros [Hnd Hincl]. split; [exact Hnd|].
  intros u Hu. apply Hincl in Hu. simpl.
  assert (Happ : In u (group_sub_tests g ++ [rtest])%list)
    by (apply in_or_app; now left).
  destruct position as [pos|]; [|exact Happ].
  destruct ((0 <=? pos)%Z && (pos <? Z.of_nat (List.length (group_sub_tests g)))%Z);
    [|exact Happ].
  rewrite <- (firstn_skipn (Z.to_nat pos) (group_sub_tests g)) in Hu.
  apply in_app_or in Hu. apply in_or_app.
  destruct Hu as [Hu|Hu]; [now left | right; now right].
Qed.

Lemma group_wf_add_group (g g2 : repo_test_group) :
  group_wf g -> group_wf (repo_test_group.add_group g g2).
Proof.
  intros [Hnd Hincl]. split; [exact Hnd|].
  intros u Hu. simpl. apply in_or_app. left. now apply Hincl.
Qed.

(** C9.  While the result table is empty, the group-level Result that
    [getResult] computes is [SUCCESS] with the empty message; and it is
    what [initiate_test] returns for a group that has no members, the
    table staying empty. *)
Theorem empty_group_result_is_SUCCESS :
  forall (fuel : nat) (h : heap) (suite : repo_test_suite)
         (g : repo_test_group) (s : state),
    result_dict g = [] ->
    repo_test_group.getResult h g = mk_result (group_id g) SUCCESS (Some "") /\
    (group_sub_tests g = [] ->
     fst (fst (repo_test_group.initiate_test fuel h suite g s)) =
       Ret (mk_result (group_id g) SUCCESS (Some "")) /\
     result_dict (snd (fst (repo_test_group.initiate_test fuel h suite g s))) = []).
Proof.
  intros fuel h suite g s Hd. split.
  - unfold repo_test_group.getResult. rewrite Hd. reflexivity.
  - intros Hm.
    unfold repo_test_group.initiate_test, repo_test_group.getResult.
    rewrite Hm. simpl. rewrite Hd. split; reflexivity.
Qed.

Lemma empty_group_result_is_SUCCESS_witness :
  repo_test_group.getResult three_leaves (repo_test_group.init 9 "Repository Tests")
    = mk_result 9 SUCCESS (Some "") /\
  fst (fst (repo_test_group.initiate_test 0 three_leaves plain_suite
              (repo_test_group.init 9 "Repository Tests") quiet_state)) =
    Ret (mk_result 9 SUCCESS (Some "")) /\
  result_dict (snd (fst (repo_test_group.initiate_test 0 three_leaves plain_suite
              (repo_test_group.init 9 "Repository Tests") quiet_state))) = [].
Proof.
  destruct (empty_group_result_is_SUCCESS 0 three_leaves plain_suite
              (repo_test_group.init 9 "Repository Tests") quiet_state eq_refl)
    as [Hget Hrun].
  split; [exact Hget|].
  apply Hrun. reflexivity.
Defined.

(** A group without members that was built by the operations of the
    class has an empty table. *)
Lemma group_wf_no_members (g : repo_test_group) :
  group_wf g -> group_sub_tests g = [] -> result_dict g = [].
Proof.
  intros [_ Hincl] Hm. rewrite Hm in Hincl.
  destruct (result_dict g) as [|[k v] d]; [reflexivity|].
  exfalso. apply (Hincl k). now left.
Qed.

(** ** [getResult] of the units *)

(** C10.  For a unit of any class of the file, or of a class built on
    one of them that does not define [getResult], the method resolves to
    the one of [repo_test_unit] and returns [None], before an invocation
    as well as after it. *)
Theorem unit_getResult_is_None :
  forall (h : heap) (u : oid) (fuel : nat) (s : state),
    resolve (cls (h u)) m_getResult = Some repo_test_unit /\
    getResult h u s = (Ret None, s) /\
    getResult h u (snd (initiate_test fuel h u s)) =
      (Ret None, snd (initiate_test fuel h u s)).
Proof.
  intros h u fuel s. unfold getResult.
  rewrite resolve_getResult. repeat split; reflexivity.
Qed.

(** ** The process executor *)

Lemma Popen_print (suite : repo_test_suite) (m : string) (v : bool) (w : World) :
  Popen (repo_test_suite.print suite m v w) = Popen w.
Proof.
  unfold repo_test_suite.print, test_log_write, py_print, stdout_write.
  destruct (negb v || verbose suite); [|reflexivity].
  destruct (print_to_stdout suite); simpl;
    destruct (test_log_fp w); reflexivity.
Qed.

Lemma fs_print (suite : repo_test_suite) (m : string) (v : bool) (w : World) :
  fs (repo_test_suite.print suite m v w) = fs w.
Proof.
  unfold repo_test_suite.print, test_log_write, py_print, stdout_write.
  destruct (negb v || verbose suite); [|reflexivity].
  destruct (print_to_stdout suite); simpl;
    destruct (test_log_fp w); reflexivity.
Qed.

(** With no per-command log file asked for, a launch that raises makes
    [execute_command] raise the same exception. *)
Lemma execute_command_launch_failure (self_id : oid) (self : repo_test_attrs)
    (suite : repo_test_suite) (cmd : list string) (w : World) (e : exn) :
  Popen w cmd (working_path suite) = inl e ->
  fst (repo_test.execute_command self_id self suite cmd None w) = Raise e.
Proof.
  intros HP. unfold repo_test.execute_command.
  destruct (log_dir suite);
    unfold bind, ret, exec, time_time, subprocess_Popen;
    rewrite Popen_print, HP; reflexivity.
Qed.

(** With a per-command log file asked for, an instance built by the
    constructors of the file has no [log_dir] to read. *)
Lemma execute_command_log_file_AttributeError (self_id : oid)
    (self : repo_test_attrs) (suite : repo_test_suite) (cmd : list string)
    (dir filename : string) (w : World) :
  log_dir suite = Some dir ->
  attr_log_dir self = None ->
  os_path_exists dir w = true ->
  fst (repo_test.execute_command self_id self suite cmd (Some filename) w)
  = Raise AttributeError.
Proof.
  intros Hd Ha He. unfold repo_test.execute_command, repo_test.getattr_log_dir.
  rewrite Hd, Ha. unfold bind at 1. unfold bind at 1. rewrite He. simpl.
  reflexivity.
Qed.

(** ** The order of the relayed lines *)

Lemma stdout_stdout_write (s : string) (w : World) :
  stdout (stdout_write s w) = (stdout w ++ [s])%list.
Proof. reflexivity. Qed.

Lemma test_log_fp_stdout_write (s : string) (w : World) :
  test_log_fp (stdout_write s w) = test_log_fp w.
Proof. reflexivity. Qed.

Lemma stdout_test_log_write (s : string) (w : World) :
  stdout (test_log_write s w) = stdout w.
Proof. unfold test_log_write. now destruct (test_log_fp w). Qed.

Lemma test_log_fp_test_log_write (s : string) (w : World) :
  test_log_fp (test_log_write s w) =
  option_map (fun l => (l ++ [s])%list) (test_log_fp w).
Proof.
  unfold test_log_write.
  destruct (test_log_fp w) eqn:E; simpl; [reflexivity | exact E].
Qed.

Section Relay.

Variable self : repo_test_attrs.
Variable suite : repo_test_suite.
Variable start_time : Z.
Variable lines : list string.
Variable base_out : list string.
Variable base_log : option (list string).

Lemma relay_inv_final (p : proc) (w : World) :
  relay_inv suite lines base_out base_log p w -> relay_final suite lines base_out w.
Proof.
  intros (done & [Hout Hlog] & Hall & _).
  exists done, (pending p), []. split; [exact Hall|].
  split; [now rewrite app_nil_r | simpl; lia].
Qed.

Lemma relay_step (ev : event) (p : proc) (w : World) :
  is_Returned (main p) = false ->
  relay_inv suite lines base_out base_log p w ->
  let (p', w') := repo_test.step self suite None start_time ev p w in
  if is_Returned (main p') then relay_final suite lines base_out w' else relay_inv suite lines base_out base_log p' w'.
Proof.
  intros Hrun Hinv.
  pose proof Hinv as (done & [Hout Hlog] & Hall & Hne).
  destruct ev; cbn [repo_test.step].
  - (* the child writes *)
    unfold repo_test.child_write.
    destruct (returncode p) eqn:Erc;
      [rewrite Hrun; exact Hinv|].
    destruct (todo p) as [|line rest] eqn:Etodo;
      [rewrite Hrun; exact Hinv|].
    cbn [main]. rewrite Hrun.
    exists done. split; [now split|]. split.
    + rewrite Hall. unfold pending. cbn [output_queue pipe todo].
      rewrite Etodo. now rewrite <- app_assoc.
    + cbn [pipe todo]. try rewrite Etodo in Hne. now rewrite <- app_assoc.
  - (* the child exits *)
    unfold repo_test.child_exit.
    destruct (returncode p) eqn:Erc;
      [rewrite Hrun; exact Hinv|].
    destruct (todo p) as [|line rest] eqn:Etodo;
      [|rewrite Hrun; exact Hinv].
    cbn [main]. rewrite Hrun.
    exists done. split; [now split|]. split.
    + rewrite Hall. unfold pending. cbn [output_queue pipe todo].
      now rewrite Etodo.
    + cbn [pipe todo]. try rewrite Etodo in Hne. exact Hne.
  - (* the reader thread *)
    unfold repo_test.read_stdout_to_queue_thread.
    destruct (thread_alive p); [|rewrite Hrun; exact Hinv].
    destruct (pipe p) as [|line rest] eqn:Epipe.
    + destruct (returncode p) eqn:Erc; [|rewrite Hrun; exact Hinv].
      cbn [main]. rewrite Hrun.
      exists done. split; [now split|]. split.
      * rewrite Hall. unfold pending. cbn [output_queue pipe todo].
        now rewrite Epipe.
      * cbn [pipe todo]. try rewrite Epipe in Hne. exact Hne.
    + simpl in Hne. inversion Hne as [|x l Hline Hrest]; subst.
      destruct (String.eqb line "") eqn:Eline;
        [apply String.eqb_eq in Eline; contradiction|].
      cbn [negb main]. rewrite Hrun.
      exists done. split; [now split|]. split.
      * rewrite Hall. unfold pending. cbn [output_queue pipe todo].
        rewrite Epipe. simpl. now rewrite <- app_assoc.
      * exact Hrest.
  - (* time passes *)
    rewrite Hrun.
    exists done. split; [now split|]. now split.
  - (* the main thread *)
    unfold repo_test.main_turn.
    destruct (main p) eqn:Emain; try discriminate Hrun.
    + destruct (is_None (returncode p) && thread_alive p);
        cbn [with_main main is_Returned];
        (exists done; split; [now split|]; now split).
    + destruct (output_queue p) as [|line rest] eqn:Eq.
      * cbn [with_main main is_Returned].
        exists done. split; [now split|]. now split.
      * cbn [main is_Returned].
        exists (done ++ [line])%list. split; [split|split].
        -- rewrite stdout_test_log_write.
           destruct (print_to_stdout suite);
             rewrite ?stdout_stdout_write, Hout, ?map_app, <- ?app_assoc;
             reflexivity.
        -- rewrite test_log_fp_test_log_write.
           destruct (print_to_stdout suite);
             rewrite ?test_log_fp_stdout_write, Hlog;
             destruct base_log; simpl;
             rewrite ?map_app, <- ?app_assoc; reflexivity.
        -- rewrite Hall. unfold pending. cbn [output_queue pipe todo].
           rewrite Eq. now rewrite <- app_assoc.
        -- exact Hne.
    + destruct (timeout_seconds self >? 0)%Z;
        [destruct (clock w - start_time >? 1000 * timeout_seconds self)%Z|];
        cbn [with_main main is_Returned];
        try (exists done; split; [now split|]; now split).
      exists done, (pending p),
        [match error_color suite with
         | Some c => c ++ ("Process exceeded " ++ str_of_Z (timeout_seconds self)
                           ++ " seconds and was terminated.") ++ TermColor.END
         | None => "Process exceeded " ++ str_of_Z (timeout_seconds self)
                   ++ " seconds and was terminated."
         end ++ nl].
      split; [exact Hall|]. split; [|simpl; lia].
      unfold repo_test_suite.print_error, repo_test_suite.print_color, py_print.
      rewrite stdout_stdout_write, stdout_test_log_write, Hout.
      now rewrite <- app_assoc.
    + destruct (returncode p) eqn:Erc.
      * cbn [main is_Returned]. now apply (relay_inv_final p).
      * rewrite Emain. cbn [is_Returned]. exact Hinv.
Qed.

(** Whatever the interleaving, when the executor returns, the console
    holds a prefix of the child's lines, stripped, in the order the
    child wrote them. *)
Lemma relay_run (sched : list event) :
  forall (p : proc) (w w' : World) (rc : Z),
    is_Returned (main p) = false ->
    relay_inv suite lines base_out base_log p w ->
    repo_test.run self suite None start_time sched p w = (Ret rc, w') ->
    relay_final suite lines base_out w'.
Proof.
  induction sched as [|ev sched IH]; intros p w w' rc Hrun Hinv H.
  - simpl in H. destruct (main p); try discriminate.
  - cbn [repo_test.run] in H.
    destruct (main p) eqn:Emain; try discriminate Hrun;
      pose proof (relay_step ev p w) as Hstep;
      rewrite Emain in Hstep; specialize (Hstep eq_refl Hinv);
      destruct (repo_test.step self suite None start_time ev p w) as [p' w1];
      (destruct (is_Returned (main p')) eqn:Eret;
       [ destruct (main p') eqn:Emain'; try discriminate Eret;
         destruct sched; simpl in H; rewrite Emain' in H;
         injection H as _ <-; exact Hstep
       | now apply (IH p' w1 w' rc) ]).
Qed.

End Relay.

(** Whatever the interleaving under which a launched command runs, when
    [execute_command] returns, the console holds, after the message that
    names the command, a prefix of the child's lines, stripped, in the
    order the child wrote them (and the error message of a timeout). *)
Lemma execute_command_relays_in_order (self_id : oid) (self : repo_test_attrs)
    (suite : repo_test_suite) (cmd : list string) (w w' : World)
    (l : launched) (rc : Z) :
  Popen w cmd (working_path suite) = inr l ->
  Forall (fun x => x <> "") (out_lines (prog l)) ->
  repo_test.execute_command self_id self suite cmd None w = (Ret rc, w') ->
  relay_final suite (out_lines (prog l))
    (stdout (repo_test_suite.print suite
               ("Executing the following command in directory:"
                ++ working_path suite ++ ":" ++ join " " cmd) false w))
    w'.
Proof.
  intros HP Hne H.
  assert (Hrun :
    repo_test.run self suite None
      (clock (repo_test_suite.print suite
                ("Executing the following command in directory:"
                 ++ working_path suite ++ ":" ++ join " " cmd) false w))
      (schedule l)
      (mk_proc (out_lines (prog l)) (prog l) None [] true [] AtWhile)
      (repo_test_suite.print suite
         ("Executing the following command in directory:"
          ++ working_path suite ++ ":" ++ join " " cmd) false w)
    = (Ret rc, w')).
  { unfold repo_test.execute_command in H.
    destruct (log_dir suite);
      unfold bind, ret, exec, time_time, subprocess_Popen in H;
      rewrite Popen_print, HP in H; exact H. }
  set (w1 := repo_test_suite.print suite _ false w) in *.
  apply (relay_run self suite (clock w1) (out_lines (prog l)) (stdout w1)
           (test_log_fp w1) (schedule l)
           (mk_proc (out_lines (prog l)) (prog l) None [] true [] AtWhile)
           w1 w' rc eq_refl); [|exact Hrun].
  exists []. split; [split|split].
  - simpl. destruct (print_to_stdout suite); now rewrite app_nil_r.
  - destruct (test_log_fp w1); simpl; [now rewrite app_nil_r | reflexivity].
  - reflexivity.
  - exact Hne.
Qed.

Lemma run_of_machine_at_return (self : repo_test_attrs) (suite : repo_test_suite)
    (fp : option string) (start_time : Z) :
  forall (sched : list event) (p p' : proc) (w w' : World) (rc : Z),
    machine_at_return self suite fp start_time sched p w = Some (p', w') ->
    main p' = Returned rc ->
    repo_test.run self suite fp start_time sched p w = (Ret rc, w').
Proof.
  induction sched as [|ev sched IH]; intros p p' w w' rc H Hm.
  - simpl in *. destruct (main p) eqn:E; try discriminate H.
    injection H as <- <-. rewrite E in Hm. now injection Hm as ->.
  - cbn [machine_at_return repo_test.run] in *.
    destruct (main p) eqn:E;
      try (destruct (repo_test.step self suite fp start_time ev p w) as [p1 w1];
           now apply (IH p1 p')).
    injection H as <- <-. rewrite E in Hm. now injection Hm as ->.
Qed.

Lemma clock_relay (suite : repo_test_suite) (fp : option string) (line : string)
    (w : World) :
  clock (match fp with
         | Some f =>
             file_write f line
               (test_log_write line
                  (if print_to_stdout suite then stdout_write line w else w))
         | None =>
             test_log_write line
               (if print_to_stdout suite then stdout_write line w else w)
         end) = clock w.
Proof.
  unfold test_log_write, file_write, stdout_write.
  destruct fp, (print_to_stdout suite); simpl;
    destruct (test_log_fp w); reflexivity.
Qed.

(** While the child runs and does not exit, a step other than the
    timeout return keeps it running, does not turn the clock back and
    brings the main thread nearer to the timeout test. *)
Lemma running_step (self : repo_test_attrs) (suite : repo_test_suite)
    (fp : option string) (start_time : Z) (ev : event) (p : proc) (w : World) :
  (0 < timeout_seconds self)%Z ->
  in_loop (main p) = true ->
  running p ->
  (1000 * timeout_seconds self < clock w - start_time)%Z ->
  ev <> EvExit ->
  let p' := fst (repo_test.step self suite fp start_time ev p w) in
  let w' := snd (repo_test.step self suite fp start_time ev p w) in
  (ev = EvMain /\ main p = AtTimeout /\
   p' = with_main (repo_test.terminate p) (Returned 1) /\
   w' = repo_test_suite.print_error suite (timeout_message self) w) \/
  (in_loop (main p') = true /\ running p' /\
   (1000 * timeout_seconds self < clock w' - start_time)%Z /\
   turns_to_test (main p') + (if is_EvMain ev then 1 else 0)
   = turns_to_test (main p)).
Proof.
  intros Ht Hloop (Hrc & Halive & Hlines) Hel Hev.
  destruct ev; cbn [repo_test.step fst snd is_EvMain].
  - right. unfold repo_test.child_write. rewrite Hrc.
    destruct (todo p) as [|line rest] eqn:Etodo; cbn [fst snd main].
    + split; [exact Hloop|]. split; [|split; [exact Hel | lia]].
      split; [exact Hrc|]. split; [exact Halive|].
      rewrite ?Etodo. exact Hlines.
    + split; [exact Hloop|]. split; [|split; [exact Hel | lia]].
      split; [reflexivity|]. split; [exact Halive|].
      cbn [pipe todo]. rewrite ?Etodo in Hlines.
      now rewrite <- app_assoc.
  - contradiction.
  - right. unfold repo_test.read_stdout_to_queue_thread. rewrite Halive.
    destruct (pipe p) as [|line rest] eqn:Epipe.
    + rewrite Hrc. cbn [fst snd].
      split; [exact Hloop|]. split; [|split; [exact Hel | lia]].
      split; [exact Hrc|]. split; [exact Halive|].
      rewrite ?Epipe. exact Hlines.
    + assert (Hne : line <> "")
        by (rewrite ?Epipe in Hlines; now inversion Hlines).
      apply String.eqb_neq in Hne. rewrite Hne. cbn [negb fst snd main].
      split; [exact Hloop|]. split; [|split; [exact Hel | lia]].
      split; [exact Hrc|]. split; [reflexivity|].
      cbn [pipe todo]. rewrite ?Epipe in Hlines. now inversion Hlines.
  - right. cbn [clock with_clock].
    split; [exact Hloop|]. split; [now repeat split|]. split; lia.
  - unfold repo_test.main_turn.
    destruct (main p) eqn:Emain; try discriminate Hloop.
    + right. rewrite Hrc, Halive. cbn [is_None andb fst snd with_main main].
      split; [reflexivity|]. split; [now repeat split|]. split; [exact Hel|].
      reflexivity.
    + right. destruct (output_queue p) as [|line rest]; cbn [fst snd].
      * cbn [with_main main clock with_clock].
        split; [reflexivity|]. split; [now repeat split|]. split; [lia|].
        reflexivity.
      * cbn [main]. rewrite clock_relay.
        split; [reflexivity|]. split; [now repeat split|]. split; [exact Hel|].
        reflexivity.
    + left.
      assert (Ht' : (timeout_seconds self >? 0)%Z = true)
        by (apply Z.gtb_lt; lia).
      assert (He' : (clock w - start_time >? 1000 * timeout_seconds self)%Z = true)
        by (apply Z.gtb_lt; lia).
      rewrite Ht', He'. now repeat split.
Qed.

(** Once the time elapsed is above the timeout and while the child does
    not exit, the next timeout test is reached, whatever the loop
    relays on the way, and it stops the child. *)
Lemma timeout_fires (self : repo_test_attrs) (suite : repo_test_suite)
    (fp : option string) (start_time : Z) :
  (0 < timeout_seconds self)%Z ->
  forall (pre rest : list event) (p : proc) (w : World),
    in_loop (main p) = true ->
    running p ->
    (1000 * timeout_seconds self < clock w - start_time)%Z ->
    Forall (fun ev => ev <> EvExit) pre ->
    turns_to_test (main p) <= List.length (filter is_EvMain pre) ->
    exists p0 w0,
      machine_at_return self suite fp start_time (pre ++ rest) p w
      = Some (with_main (repo_test.terminate p0) (Returned 1),
              repo_test_suite.print_error suite (timeout_message self) w0) /\
      running p0.
Proof.
  intros Ht.
  induction pre as [|ev pre IH]; intros rest p w Hloop Hrun Hel Hex Hn.
  - simpl in Hn. destruct (main p); simpl in Hn; try lia; discriminate Hloop.
  - inversion Hex as [|? ? Hev Hex']; subst.
    pose proof (running_step self suite fp start_time ev p w Ht Hloop Hrun Hel Hev)
      as Hstep.
    cbn [app machine_at_return].
    destruct (repo_test.step self suite fp start_time ev p w) as [p1 w1].
    cbn [fst snd] in Hstep.
    assert (Hgo : machine_at_return self suite fp start_time
                    (ev :: pre ++ rest) p w
                  = machine_at_return self suite fp start_time (pre ++ rest) p1 w1
                  -> True) by trivial.
    destruct (main p) eqn:Emain; try discriminate Hloop;
      (destruct Hstep as [(_ & _ & -> & ->)|(Hloop1 & Hrun1 & Hel1 & Hturns)];
       [ exists p, w; split; [|exact Hrun];
         destruct (pre ++ rest)%list; reflexivity
       | apply IH; try assumption;
         cbn [filter] in Hn; destruct (is_EvMain ev); cbn [List.length] in Hn;
         cbn [turns_to_test] in *; lia ]).
Qed.

(** C6 (as amended).  With a positive timeout, once the time elapsed
    since the launch is above the timeout while the child runs, the
    next timeout test stops it: every turn of the relay loop ends in
    that test, after a relayed line as after a wait on the empty queue,
    so that within three turns of the main thread (as long as the
    child does not exit by itself) the executor prints the error
    "Process exceeded N seconds and was terminated.", terminates the
    child and returns 1; and 1 is also what it returns for a child that
    exits with status 1 by itself. *)
Theorem timeout_returns_1_like_exit_status_1 :
  forall (self : repo_test_attrs) (suite : repo_test_suite) (fp : option string)
         (start_time : Z) (pre rest sched : list event) (p p2 : proc)
         (w w2 : World),
    (0 < timeout_seconds self)%Z ->
    in_loop (main p) = true ->
    running p ->
    (1000 * timeout_seconds self < clock w - start_time)%Z ->
    Forall (fun ev => ev <> EvExit) pre ->
    3 <= List.length (filter is_EvMain pre) ->
    main p2 = AtCommunicate ->
    returncode p2 = Some 1%Z ->
    (exists p0 w0,
        machine_at_return self suite fp start_time (pre ++ rest) p w
        = Some (with_main (repo_test.terminate p0) (Returned 1),
                repo_test_suite.print_error suite
                  ("Process exceeded " ++ str_of_Z (timeout_seconds self)
                   ++ " seconds and was terminated.") w0) /\
        returncode p0 = None /\
        returncode (repo_test.terminate p0) = Some (-15)%Z /\
        repo_test.run self suite fp start_time (pre ++ rest) p w
        = (Ret 1%Z,
           repo_test_suite.print_error suite
             ("Process exceeded " ++ str_of_Z (timeout_seconds self)
              ++ " seconds and was terminated.") w0)) /\
    repo_test.run self suite fp start_time (EvMain :: sched) p2 w2 = (Ret 1%Z, w2).
Proof.
  intros self suite fp start_time pre rest sched p p2 w w2
         Ht Hloop Hrun Hel Hex Hn Hp2 Hrc.
  split.
  - destruct (timeout_fires self suite fp start_time Ht pre rest p w
                Hloop Hrun Hel Hex) as (p0 & w0 & Hm & Hrc0 & _).
    { destruct (main p); simpl; lia. }
    exists p0, w0. split; [exact Hm|]. split; [exact Hrc0|].
    split; [unfold repo_test.terminate; now rewrite Hrc0|].
    now apply (run_of_machine_at_return _ _ _ _ _ _ _ _ _ _ Hm).
  - cbn [repo_test.run]. rewrite Hp2.
    unfold repo_test.step, repo_test.main_turn. rewrite Hp2, Hrc.
    destruct sched; reflexivity.
Qed.

Lemma timeout_returns_1_like_exit_status_1_witness :
  (exists p0 w0,
      machine_at_return (attrs_with_timeout 2) plain_suite None 0
        ([EvMain; EvWrite; EvMain; EvTick 7; EvMain] ++ [EvMain])
        (mk_proc ["line2" ++ nl] two_lines None [] true ["line1"] AtWhile)
        (with_clock quiet_world 2001)
      = Some (with_main (repo_test.terminate p0) (Returned 1),
              repo_test_suite.print_error plain_suite
                ("Process exceeded " ++ str_of_Z (timeout_seconds (attrs_with_timeout 2))
                 ++ " seconds and was terminated.") w0) /\
      returncode p0 = None /\
      returncode (repo_test.terminate p0) = Some (-15)%Z /\
      repo_test.run (attrs_with_timeout 2) plain_suite None 0
        ([EvMain; EvWrite; EvMain; EvTick 7; EvMain] ++ [EvMain])
        (mk_proc ["line2" ++ nl] two_lines None [] true ["line1"] AtWhile)
        (with_clock quiet_world 2001)
      = (Ret 1%Z,
         repo_test_suite.print_error plain_suite
           ("Process exceeded " ++ str_of_Z (timeout_seconds (attrs_with_timeout 2))
            ++ " seconds and was terminated.") w0)) /\
  repo_test.run (attrs_with_timeout 2) plain_suite None 0 [EvMain]
    (mk_proc [] (mk_program [] 1 []) (Some 1%Z) [] false [] AtCommunicate)
    quiet_world = (Ret 1%Z, quiet_world).
Proof.
  apply (timeout_returns_1_like_exit_status_1
           (attrs_with_timeout 2) plain_suite None 0
           [EvMain; EvWrite; EvMain; EvTick 7; EvMain] [EvMain] []
           (mk_proc ["line2" ++ nl] two_lines None [] true ["line1"] AtWhile)
           (mk_proc [] (mk_program [] 1 []) (Some 1%Z) [] false [] AtCommunicate)
           (with_clock quiet_world 2001) quiet_world).
  - simpl. lia.
  - reflexivity.
  - split; [reflexivity|]. split; [reflexivity|].
    repeat constructor. discriminate.
  - simpl. lia.
  - repeat constructor; discriminate.
  - simpl. lia.
  - reflexivity.
  - reflexivity.
Defined.

(** C6 as stated fails: a command stopped by the timeout and a command
    that exits with status 1 give the same status, and the same Result
    from the check of their unit.  And the timeout is tested in the
    loop only: a child that outlives the timeout and exits before the
    loop condition is tested again is not stopped, and its own status
    is returned. *)
Lemma timeout_status_not_distinct_counterexample :
  fst (repo_test.execute_command 1 (attrs_with_timeout 2) plain_suite
         ["make"; "sim"] None (machine_launching hangs)) = Ret 1%Z /\
  In ("Process exceeded 2 seconds and was terminated." ++ nl)
     (stdout (snd (repo_test.execute_command 1 (attrs_with_timeout 2) plain_suite
                     ["make"; "sim"] None (machine_launching hangs)))) /\
  fst (repo_test.execute_command 1 (attrs_with_timeout 2) plain_suite
         ["make"; "sim"] None (machine_launching fails_at_once)) = Ret 1%Z /\
  exit_status (prog fails_at_once) = 1%Z /\
  fst (make_test.perform_test 1 (attrs_with_timeout 2) sim_rule plain_suite
         (machine_launching hangs)) =
  fst (make_test.perform_test 1 (attrs_with_timeout 2) sim_rule plain_suite
         (machine_launching fails_at_once)) /\
  fst (repo_test.execute_command 1 (attrs_with_timeout 2) plain_suite
         ["make"; "sim"] None (machine_launching exits_late)) = Ret 0%Z /\
  clock (snd (repo_test.execute_command 1 (attrs_with_timeout 2) plain_suite
                ["make"; "sim"] None (machine_launching exits_late))) = 6000%Z.
Proof.
  split; [reflexivity|]. split; [simpl; right; left; reflexivity|].
  split; [reflexivity|]. split; [reflexivity|]. split; [reflexivity|].
  split; reflexivity.
Qed.

(** C7.  A child writes two lines and exits with status 0; its second
    line is in the queue when the main thread finds the child gone and
    leaves the loop: [execute_command] returns 0 and the line has
    reached no sink. *)
Theorem last_line_dropped_when_child_exits_first :
  out_lines (prog exits_before_last_get) = ["line1" ++ nl; "line2" ++ nl] /\
  fst (repo_test.execute_command 1 (attrs_with_timeout 60) plain_suite
         ["make"; "sim"] None (machine_launching exits_before_last_get))
  = Ret 0%Z /\
  stdout (snd (repo_test.execute_command 1 (attrs_with_timeout 60) plain_suite
                 ["make"; "sim"] None (machine_launching exits_before_last_get)))
  = ["Executing the following command in directory:.:make sim" ++ nl;
     "line1" ++ nl] /\
  ~ In ("line2" ++ nl)
       (stdout (snd (repo_test.execute_command 1 (attrs_with_timeout 60)
                       plain_suite ["make"; "sim"] None
                       (machine_launching exits_before_last_get)))).
Proof.
  split; [reflexivity|]. split; [reflexivity|]. split; [reflexivity|].
  simpl. intros [H|[H|[]]]; discriminate.
Qed.

(** ** Failures of the launch *)

(** C8 (as amended).  For a [make_test] unit whose required input files
    exist: when the launch of the command raises (the command cannot be
    invoked, the working directory cannot be used), the exception is
    not converted, it leaves the unit's check and its invocation as it
    was raised; what the check converts into an error-level Result,
    without a message, is a non-zero status returned by the executor. *)
Theorem launch_failure_reaches_the_caller :
  forall (h : heap) (u : oid) (fuel : nat) (s : state)
         (base : repo_test_attrs) (self : make_test_attrs)
         (suite : repo_test_suite),
    cls (h u) = make_test ->
    perform_test (h u) = make_test.perform_test u base self suite ->
    find (fun file => negb (os_path_exists file (world s)))
         (match required_input_files self with Some l => l | None => [] end)
    = None ->
    (forall e,
        Popen (world s) ["make"; make_rule self] (working_path suite) = inl e ->
        fst (call_perform_test h u s) = Raise e /\
        fst (initiate_test fuel h u s) = Raise e) /\
    (forall rc,
        fst (repo_test.execute_command u base suite ["make"; make_rule self]
               None (world s)) = Ret rc ->
        rc <> 0%Z ->
        fst (call_perform_test h u s) = Ret (repo_test.error_result u None)).
Proof.
  intros h u fuel s base self suite Hc Hp Hin.
  split.
  - intros e HP.
    pose proof (execute_command_launch_failure u base suite
                  ["make"; make_rule self] (world s) e HP) as Hx.
    assert (Hcheck : fst (call_perform_test h u s) = Raise e).
    { unfold call_perform_test. rewrite Hp.
      unfold make_test.perform_test. rewrite Hin. unfold bind.
      destruct (repo_test.execute_command u base suite
                  ["make"; make_rule self] None (world s)) as [o w'].
      simpl in Hx. subst o. reflexivity. }
    split; [exact Hcheck|].
    unfold initiate_test. rewrite Hc. simpl.
    unfold repo_test_follow.initiate_test, bind.
    destruct (call_perform_test h u s) as [o s'].
    simpl in Hcheck. subst o. reflexivity.
  - intros rc Hx Hrc.
    unfold call_perform_test. rewrite Hp.
    unfold make_test.perform_test. rewrite Hin. unfold bind.
    destruct (repo_test.execute_command u base suite
                ["make"; make_rule self] None (world s)) as [o w'].
    simpl in Hx. subst o.
    destruct (rc =? 0)%Z eqn:E; [apply Z.eqb_eq in E; contradiction|].
    reflexivity.
Qed.

Lemma launch_failure_reaches_the_caller_witness :
  (forall e,
      Popen (with_fs quiet_world ["top.sv"]) ["make"; "sim"] "." = inl e ->
      fst (call_perform_test (sim_unit 60) 1
             (mk_state (with_fs quiet_world ["top.sv"]) [])) = Raise e /\
      fst (initiate_test 0 (sim_unit 60) 1
             (mk_state (with_fs quiet_world ["top.sv"]) [])) = Raise e) /\
  (forall rc,
      fst (repo_test.execute_command 1 (attrs_with_timeout 60) plain_suite
             ["make"; "sim"] None (with_fs quiet_world ["top.sv"])) = Ret rc ->
      rc <> 0%Z ->
      fst (call_perform_test (sim_unit 60) 1
             (mk_state (with_fs quiet_world ["top.sv"]) []))
      = Ret (repo_test.error_result 1 None)).
Proof.
  apply (launch_failure_reaches_the_caller
           (sim_unit 60) 1 0 (mk_state (with_fs quiet_world ["top.sv"]) [])
           (attrs_with_timeout 60) sim_rule plain_suite).
  - reflexivity.
  - reflexivity.
  - reflexivity.
Defined.

(** C8 as stated fails: where [make] cannot be launched, the check and
    the invocation of the unit raise [FileNotFoundError] and return no
    Result. *)
Lemma launch_failure_not_converted_counterexample :
  fst (call_perform_test (sim_unit 60) 1
         (mk_state (with_fs quiet_world ["top.sv"]) []))
  = Raise FileNotFoundError /\
  fst (initiate_test 0 (sim_unit 60) 1
         (mk_state (with_fs quiet_world ["top.sv"]) []))
  = Raise FileNotFoundError /\
  forall r,
    fst (initiate_test 0 (sim_unit 60) 1
           (mk_state (with_fs quiet_world ["top.sv"]) [])) <> Ret r.
Proof.
  split; [reflexivity|]. split; [reflexivity|]. intros r. discriminate.
Qed.

(** * Further properties of the code *)

(** ** The merge operator *)

(** X1.  [merged_result] with a right operand raises [TypeError] exactly
    when the left message is absent and the right one present; on every
    other pair it returns the Result that names the left operand's unit,
    has the stricter severity and the messages joined by a newline (or
    the one that is present). *)
Theorem merged_result_total_description :
  forall a b : repo_test_result,
    repo_test_result.merged_result a (Some b) =
    match msg a, msg b with
    | None, Some _ => Raise TypeError
    | _, _ =>
        Ret (mk_result (test a) (stricter (result a) (result b))
                       (joined_msg (msg a) (msg b)))
    end.
Proof.
  intros a b. destruct (mergeable a b) eqn:E.
  - rewrite (merged_result_mergeable a b E).
    unfold mergeable in E. destruct (msg a), (msg b); try reflexivity.
    discriminate.
  - rewrite (merged_result_not_mergeable a b E).
    unfold mergeable in E. destruct (msg a), (msg b); try reflexivity;
      discriminate.
Qed.

Lemma merged_result_Ret_inv (a b r : repo_test_result) :
  repo_test_result.merged_result a (Some b) = Ret r ->
  mergeable a b = true /\ r = merge_spec a b.
Proof.
  destruct (mergeable a b) eqn:E.
  - rewrite (merged_result_mergeable a b E). intros H. injection H as <-.
    now split.
  - rewrite (merged_result_not_mergeable a b E). discriminate.
Qed.

(** X2.  The merge is associative wherever both groupings return: merging
    [a] with [b] and then with [c] gives the same Result as merging [a]
    with the merge of [b] and [c], and that Result names [a]'s unit. *)
Theorem merged_result_associative :
  forall a b c ab bc r1 r2 : repo_test_result,
    repo_test_result.merged_result a (Some b) = Ret ab ->
    repo_test_result.merged_result ab (Some c) = Ret r1 ->
    repo_test_result.merged_result b (Some c) = Ret bc ->
    repo_test_result.merged_result a (Some bc) = Ret r2 ->
    r1 = r2 /\ test r1 = test a.
Proof.
  intros a b c ab bc r1 r2 H1 H2 H3 H4.
  apply merged_result_Ret_inv in H1 as [_ ->].
  apply merged_result_Ret_inv in H2 as [_ ->].
  apply merged_result_Ret_inv in H3 as [_ ->].
  apply merged_result_Ret_inv in H4 as [_ ->].
  unfold merge_spec. simpl.
  now rewrite stricter_assoc, joined_msg_assoc.
Qed.

Lemma merged_result_associative_witness :
  mk_result 1 ERROR (Some ("make failed" ++ nl ++ "log clean" ++ nl ++ "ok"))
  = mk_result 1 ERROR (Some ("make failed" ++ nl ++ "log clean" ++ nl ++ "ok"))
  /\ test (mk_result 1 ERROR
             (Some ("make failed" ++ nl ++ "log clean" ++ nl ++ "ok")))
     = test r_make.
Proof.
  apply (merged_result_associative r_make r_log r_ok
           (mk_result 1 ERROR (Some ("make failed" ++ nl ++ "log clean")))
           (mk_result 2 WARNING (Some ("log clean" ++ nl ++ "ok")))
           (mk_result 1 ERROR
              (Some ("make failed" ++ nl ++ "log clean" ++ nl ++ "ok")))
           (mk_result 1 ERROR
              (Some ("make failed" ++ nl ++ "log clean" ++ nl ++ "ok"))));
    reflexivity.
Defined.

(** ** Follow units and chains *)

Lemma messages_joined_absent (rs : list repo_test_result) :
  Forall (fun r => msg r = None) rs ->
  forall a : option string, fold_left joined_msg (map msg rs) a = a.
Proof.
  induction 1 as [|r rs Hr _ IH]; intros a; simpl; [reflexivity|].
  now rewrite Hr, joined_msg_None_r, IH.
Qed.

Lemma first_or_none_absent (r0 : repo_test_result) (rs : list repo_test_result) :
  Forall (fun r => msg r = None) rs ->
  first_or_none (map msg (r0 :: rs)) = true.
Proof.
  intros H. simpl. destruct (msg r0); [reflexivity|].
  induction H as [|r rs Hr _ IH]; simpl; [reflexivity|].
  now rewrite Hr.
Qed.

(** X3.  A follow unit whose subordinate checks all return a Result
    without a message (as a regex check always does) returns a Result:
    it names what its own check named, its severity is the worst of its
    own and the subordinates', its message is its own check's message
    unchanged, and every subordinate was performed once, in list order,
    after its own check. *)
Theorem follow_unit_of_checks_without_messages :
  forall (h : heap) (self : oid) (fuel : nat) (s s' : state)
         (r0 : repo_test_result) (rs : list repo_test_result),
    resolve (cls (h self)) m_initiate_test = Some repo_test_follow ->
    perform_all h (self :: sub_tests (h self)) s = (Ret (r0 :: rs), s') ->
    Forall (fun r => msg r = None) rs ->
    initiate_test fuel h self s
    = (Ret (mk_result (test r0) (worst (map result (r0 :: rs))) (msg r0)), s') /\
    calls s' = (calls s ++ self :: sub_tests (h self))%list.
Proof.
  intros h self fuel s s' r0 rs Hc Hp Hm.
  destruct (follow_initiate_test_folds h self fuel s s' r0 rs Hc Hp
              (first_or_none_absent r0 rs Hm))
    as (r & Hi & Hcalls & Hres & Htest & Hmsg).
  split; [|exact Hcalls].
  rewrite Hi. destruct r as [t sev m]. simpl in *. subst.
  unfold messages_joined. cbn [map fold_left].
  rewrite joined_msg_None_l. now rewrite messages_joined_absent.
Qed.

Lemma follow_unit_of_checks_without_messages_witness :
  initiate_test 0 build_and_regex_checks 1 quiet_state
  = (Ret (mk_result 1 (worst [WARNING; ERROR; SUCCESS])
            (Some "Missing build files: ['sim.log']")),
     mk_state quiet_world [1; 2; 3]) /\
  calls (mk_state quiet_world [1; 2; 3]) = (calls quiet_state ++ [1; 2; 3])%list.
Proof.
  apply (follow_unit_of_checks_without_messages build_and_regex_checks 1 0
           quiet_state (mk_state quiet_world [1; 2; 3])
           (repo_test.warning_result 1 (Some "Missing build files: ['sim.log']"))
           [repo_test.error_result 2 None; repo_test.success_result 3 None]);
    [reflexivity | reflexivity | repeat constructor].
Defined.

Lemma for_sub_tests_app (h : heap) :
  forall (pre rest : list oid) (own : repo_test_result) (s : state),
    repo_test_follow.for_sub_tests h (pre ++ rest) own s =
    bind (repo_test_follow.for_sub_tests h pre own)
         (fun own' => repo_test_follow.for_sub_tests h rest own') s.
Proof.
  induction pre as [|u pre IH]; intros rest own s.
  - reflexivity.
  - cbn [app repo_test_follow.for_sub_tests]. unfold bind, pure.
    destruct (call_perform_test h u s) as [[r| |] s1]; try reflexivity.
    destruct (repo_test_result.merged_result own (Some r)); try reflexivity.
    rewrite IH. reflexivity.
Qed.

(** X4.  An exception raised by a check of a follow unit, the primary's
    or a subordinate's, is raised by the invocation: the checks before
    it have run, in order, and no later subordinate is run. *)
Theorem follow_check_exception_stops_the_unit :
  forall (h : heap) (self u : oid) (fuel : nat) (pre post : list oid)
         (s s1 s2 : state) (rs : list repo_test_result) (e : exn),
    resolve (cls (h self)) m_initiate_test = Some repo_test_follow ->
    (self :: sub_tests (h self) = pre ++ u :: post)%list ->
    perform_all h pre s = (Ret rs, s1) ->
    first_or_none (map msg rs) = true ->
    call_perform_test h u s1 = (Raise e, s2) ->
    initiate_test fuel h self s = (Raise e, s2) /\
    calls s2 = (calls s ++ pre ++ [u])%list.
Proof.
  intros h self u fuel pre post s s1 s2 rs e Hc Hsplit Hp Hm Hu.
  split.
  - unfold initiate_test. rewrite Hc. unfold repo_test_follow.initiate_test.
    destruct pre as [|p0 pre].
    + simpl in Hsplit. injection Hsplit as <- _.
      simpl in Hp. unfold ret in Hp. injection Hp as _ <-.
      unfold bind. now rewrite Hu.
    + simpl in Hsplit. injection Hsplit as <- Hsubs.
      apply perform_all_cons in Hp as (r0 & s0 & rs' & H0 & Hp & ->).
      unfold bind at 1. rewrite H0. rewrite Hsubs, for_sub_tests_app.
      unfold bind at 1.
      rewrite (for_sub_tests_fold h pre r0 s0 s1 rs' Hp Hm).
      cbn [repo_test_follow.for_sub_tests]. unfold bind at 1. now rewrite Hu.
  - apply perform_all_calls in Hp as [Hp _].
    apply call_perform_test_calls in Hu.
    now rewrite Hu, Hp, <- app_assoc.
Qed.

Lemma follow_check_exception_stops_the_unit_witness :
  initiate_test 0 raising_sub 1 quiet_state =
    (Raise OSError, mk_state quiet_world [1; 2]) /\
  calls (mk_state quiet_world [1; 2]) = (calls quiet_state ++ [1] ++ [2])%list.
Proof.
  apply (follow_check_exception_stops_the_unit raising_sub 1 2 0 [1] [3]
           quiet_state (mk_state quiet_world [1]) (mk_state quiet_world [1; 2])
           [repo_test.success_result 1 None] OSError);
    reflexivity.
Defined.

(** X5.  A chain whose head is followed by a unit that is not a
    [repo_test_linked_list] runs both checks and then raises
    [AttributeError]: the unit has no [next] to go on with. *)
Theorem chain_into_plain_unit_raises :
  forall (h : heap) (head v : oid) (fuel : nat) (s s1 s2 : state)
         (r1 r2 : repo_test_result),
    isinstance_linked_list (cls (h head)) = true ->
    next (h head) = Some v ->
    isinstance_linked_list (cls (h v)) = false ->
    call_perform_test h head s = (Ret r1, s1) ->
    call_perform_test h v s1 = (Ret r2, s2) ->
    mergeable r2 r1 = true ->
    initiate_test (S (S fuel)) h head s = (Raise AttributeError, s2) /\
    calls s2 = (calls s ++ [head; v])%list.
Proof.
  intros h head v fuel s s1 s2 r1 r2 Hh Hn Hv H1 H2 Hm.
  split.
  - unfold initiate_test.
    rewrite (resolve_initiate_test_linked_list _ Hh).
    unfold repo_test_linked_list.initiate_test.
    cbn [repo_test_linked_list.walk].
    unfold bind at 1. rewrite H1.
    unfold bind at 1, pure at 1. rewrite merged_result_None.
    unfold bind at 1, repo_test_linked_list.getattr_next at 1.
    rewrite Hh, Hn. unfold ret at 1.
    unfold bind at 1. rewrite H2.
    unfold bind at 1, pure at 1.
    rewrite (merged_result_mergeable r2 r1 Hm).
    unfold bind at 1, repo_test_linked_list.getattr_next.
    rewrite Hv. reflexivity.
  - apply call_perform_test_calls in H1, H2.
    now rewrite H2, H1, <- app_assoc.
Qed.

Lemma chain_into_plain_unit_raises_witness :
  initiate_test 2 link_then_leaf 1 quiet_state =
    (Raise AttributeError, mk_state quiet_world [1; 2]) /\
  calls (mk_state quiet_world [1; 2]) = (calls quiet_state ++ [1; 2])%list.
Proof.
  apply (chain_into_plain_unit_raises link_then_leaf 1 2 0 quiet_state
           (mk_state quiet_world [1]) (mk_state quiet_world [1; 2])
           (mk_result 1 SUCCESS (Some "a")) (mk_result 2 SUCCESS (Some "b")));
    reflexivity.
Defined.

Lemma walk_self_loop (h : heap) (u : oid) (r : repo_test_result) :
  isinstance_linked_list (cls (h u)) = true ->
  next (h u) = Some u ->
  perform_test (h u) = ret r ->
  forall (fuel : nat) (acc : option repo_test_result) (s : state),
    match acc with
    | Some a => mergeable r a = true /\ (msg r = None -> msg a = None)
    | None => True
    end ->
    fst (repo_test_linked_list.walk fuel h u acc s) = Pending.
Proof.
  intros Hc Hn Hp.
  induction fuel as [|fuel IH]; intros acc s Hacc; [reflexivity|].
  cbn [repo_test_linked_list.walk].
  unfold bind at 1, call_perform_test. rewrite Hp. unfold ret at 1.
  assert (Hnew : exists new,
    repo_test_result.merged_result r acc = Ret new /\
    mergeable r new = true /\ (msg r = None -> msg new = None)).
  { destruct acc as [a|].
    - destruct Hacc as [Hm Hnone].
      exists (merge_spec r a). split; [now apply merged_result_mergeable|].
      unfold mergeable, merge_spec. simpl.
      destruct (msg r) as [mr|] eqn:Er.
      + split; [reflexivity | discriminate].
      + rewrite (Hnone eq_refl). simpl. now split.
    - exists r. split; [apply merged_result_None|].
      unfold mergeable. destruct (msg r); now split. }
  destruct Hnew as (new & Hret & Hm & Hnone).
  unfold bind at 1, pure at 1. rewrite Hret.
  unfold bind at 1, repo_test_linked_list.getattr_next. rewrite Hc, Hn.
  unfold ret at 1. apply IH. now split.
Qed.

(** X6.  A link that is its own successor makes the walk endless: if its
    check returns, the invocation of the chain returns nothing, however
    many turns of the loop it is given. *)
Theorem chain_self_loop_never_returns :
  forall (h : heap) (u : oid) (r : repo_test_result) (fuel : nat) (s : state),
    isinstance_linked_list (cls (h u)) = true ->
    next (h u) = Some u ->
    perform_test (h u) = ret r ->
    fst (initiate_test fuel h u s) = Pending.
Proof.
  intros h u r fuel s Hc Hn Hp.
  unfold initiate_test. rewrite (resolve_initiate_test_linked_list _ Hc).
  now apply (walk_self_loop h u r Hc Hn Hp fuel None s).
Qed.

Lemma chain_self_loop_never_returns_witness :
  fst (initiate_test 1000 self_loop 1 quiet_state) = Pending.
Proof.
  apply (chain_self_loop_never_returns self_loop 1 (mk_result 1 SUCCESS None)
           1000 quiet_state); reflexivity.
Defined.

(** ** The group *)

Lemma worst_ERROR_iff (l : list result_type) : worst l = ERROR <-> In ERROR l.
Proof.
  induction l as [|x l IH]; simpl; [split; [discriminate | tauto]|].
  destruct x, (worst l) eqn:E; simpl; unfold stricter; simpl;
    intuition (try discriminate; auto).
Qed.

Lemma worst_SUCCESS_iff (l : list result_type) :
  worst l = SUCCESS <-> Forall (eq SUCCESS) l.
Proof.
  induction l as [|x l IH]; simpl; [split; [constructor | reflexivity]|].
  split.
  - intros H. destruct x, (worst l) eqn:E; try discriminate H.
    constructor; [reflexivity | now apply IH].
  - intros H. inversion H as [|y l' Hx Hl]; subst.
    apply IH in Hl. now rewrite Hl.
Qed.

(** X7.  The group-level Result names the group and always carries a
    message; it is [ERROR] exactly when some recorded Result is,
    [SUCCESS] exactly when every recorded Result is, and [WARNING]
    exactly when some recorded Result is a warning and none an error,
    whatever the order of the table. *)
Theorem group_getResult_severity :
  forall (h : heap) (g : repo_test_group),
    test (repo_test_group.getResult h g) = group_id g /\
    msg (repo_test_group.getResult h g) <> None /\
    (result (repo_test_group.getResult h g) = ERROR <->
     In ERROR (table_severities (result_dict g))) /\
    (result (repo_test_group.getResult h g) = SUCCESS <->
     Forall (eq SUCCESS) (table_severities (result_dict g))) /\
    (result (repo_test_group.getResult h g) = WARNING <->
     In WARNING (table_severities (result_dict g)) /\
     ~ In ERROR (table_severities (result_dict g))).
Proof.
  intros h g. rewrite getResult_fields. simpl.
  split; [reflexivity|]. split; [discriminate|].
  split; [apply worst_ERROR_iff|]. split; [apply worst_SUCCESS_iff|].
  rewrite <- worst_ERROR_iff.
  induction (table_severities (result_dict g)) as [|x l IH]; simpl.
  - split; [discriminate | tauto].
  - destruct x, (worst l) eqn:E; unfold stricter; simpl;
      intuition (try discriminate; auto).
Qed.

Lemma group_for_sub_tests_wf (fuel : nat) (h : heap) (suite : repo_test_suite) :
  forall (tests : list oid) (g : repo_test_group) (s : state),
    group_wf g ->
    incl tests (group_sub_tests g) ->
    group_wf (snd (fst (repo_test_group.for_sub_tests fuel h suite tests g s))) /\
    group_sub_tests
      (snd (fst (repo_test_group.for_sub_tests fuel h suite tests g s)))
    = group_sub_tests g.
Proof.
  induction tests as [|t tests IH]; intros g s Hwf Hin.
  - simpl. now split.
  - cbn [repo_test_group.for_sub_tests].
    destruct (initiate_test fuel h t _) as [[r|e|] s2]; try (simpl; now split).
    match goal with
    | |- context [repo_test_group.for_sub_tests fuel h suite tests ?g1 ?s3] =>
        destruct (IH g1 s3) as [Hwf' Hsub]
    end.
    + destruct Hwf as [Hnd Hincl]. split; simpl.
      * rewrite keys_dict_set. now apply add_key_NoDup.
      * rewrite keys_dict_set. intros x Hx. apply add_key_In in Hx.
        destruct Hx as [Hx| ->]; [now apply Hincl | apply Hin; now left].
    + simpl. intros x Hx. apply Hin. now right.
    + split; [exact Hwf' | exact Hsub].
Qed.

(** X8.  The keys of the result table are always distinct members of the
    group: this holds of a new group and is kept by [add_test],
    [add_group] and [initiate_test], also when a member raises. *)
Theorem group_table_invariant :
  forall (fuel : nat) (h : heap) (suite : repo_test_suite)
         (g g2 : repo_test_group) (s : state) (rtest : oid)
         (position : option Z) (id : oid) (nm : string),
    group_wf g ->
    group_wf (repo_test_group.init id nm) /\
    group_wf (repo_test_group.add_test g rtest position) /\
    group_wf (repo_test_group.add_group g g2) /\
    group_wf (snd (fst (repo_test_group.initiate_test fuel h suite g s))).
Proof.
  intros fuel h suite g g2 s rtest position id nm Hwf.
  split; [apply group_wf_init|].
  split; [now apply group_wf_add_test|].
  split; [now apply group_wf_add_group|].
  unfold repo_test_group.initiate_test.
  match goal with
  | |- context [repo_test_group.for_sub_tests fuel h suite ?ts g ?s0] =>
      destruct (group_for_sub_tests_wf fuel h suite ts g s0 Hwf (incl_refl _))
        as [Hwf' _];
      destruct (repo_test_group.for_sub_tests fuel h suite ts g s0)
        as [[[u|e|] g'] s']
  end; exact Hwf'.
Qed.

Lemma group_table_invariant_witness :
  group_wf (repo_test_group.init 7 "Build Steps") /\
  group_wf (repo_test_group.add_test three_members 1 (Some 0%Z)) /\
  group_wf (repo_test_group.add_group three_members build_steps) /\
  group_wf (snd (fst (repo_test_group.initiate_test 1 second_member_raises
                        plain_suite three_members quiet_state))).
Proof.
  apply (group_table_invariant 1 second_member_raises plain_suite
           three_members build_steps quiet_state 1 (Some 0%Z) 7 "Build Steps").
  split; [constructor | intros u []].
Defined.

Lemma insert_then_remove {A : Type} (l1 l2 : list A) (x : A) :
  nth_error (l1 ++ x :: l2) (List.length l1) = Some x /\
  (firstn (List.length l1) (l1 ++ x :: l2)
   ++ skipn (S (List.length l1)) (l1 ++ x :: l2))%list = (l1 ++ l2)%list.
Proof.
  induction l1 as [|y l1 [IH1 IH2]]; simpl; [now split|].
  split; [exact IH1|]. f_equal. exact IH2.
Qed.

(** X9.  [add_test] adds exactly one member and leaves the table alone:
    taking the new member out gives the old list back.  The member
    stands at [position] when that is an index of the old list, and at
    the end otherwise (no position, a negative one, or one at or past
    the length). *)
Theorem add_test_inserts_one_member :
  forall (g : repo_test_group) (rtest : oid) (position : option Z),
    let g' := repo_test_group.add_test g rtest position in
    let i := match position with
             | Some pos =>
                 if (0 <=? pos)%Z
                    && (pos <? Z.of_nat (List.length (group_sub_tests g)))%Z
                 then Z.to_nat pos
                 else List.length (group_sub_tests g)
             | None => List.length (group_sub_tests g)
             end in
    result_dict g' = result_dict g /\
    List.length (group_sub_tests g') = S (List.length (group_sub_tests g)) /\
    i <= List.length (group_sub_tests g) /\
    nth_error (group_sub_tests g') i = Some rtest /\
    (firstn i (group_sub_tests g') ++ skipn (S i) (group_sub_tests g'))%list
    = group_sub_tests g.
Proof.
  intros g rtest position. simpl.
  set (l := group_sub_tests g).
  assert (Hend :
    List.length (l ++ [rtest]) = S (List.length l) /\
    List.length l <= List.length l /\
    nth_error (l ++ [rtest]) (List.length l) = Some rtest /\
    (firstn (List.length l) (l ++ [rtest])
     ++ skipn (S (List.length l)) (l ++ [rtest]))%list = l).
  { destruct (insert_then_remove l [] rtest) as [Hn Hr].
    rewrite app_nil_r in Hr.
    split; [rewrite length_app; simpl; lia|]. split; [lia|]. now split. }
  split; [reflexivity|].
  destruct position as [pos|]; [|exact Hend].
  destruct ((0 <=? pos)%Z && (pos <? Z.of_nat (List.length l))%Z) eqn:E;
    [|exact Hend].
  apply andb_true_iff in E as [E1 E2].
  apply Z.leb_le in E1. apply Z.ltb_lt in E2.
  assert (Hlt : Z.to_nat pos < List.length l) by lia.
  set (n := Z.to_nat pos) in *.
  assert (Hfl : List.length (firstn n l) = n)
    by (rewrite length_firstn; lia).
  destruct (insert_then_remove (firstn n l) (skipn n l) rtest) as [Hn Hr].
  rewrite Hfl in Hn, Hr. rewrite firstn_skipn in Hr.
  split; [|split; [lia|now split]].
  rewrite length_app. simpl. rewrite length_firstn, length_skipn. lia.
Qed.

(** X10.  [getTest] gives the first member that carries the name, and
    nothing exactly when no member carries it; after a test has been
    appended, a lookup of any name gives what it gave before or, if it
    gave nothing, the new test when the name is its own. *)
Theorem getTest_finds_first_by_name :
  forall (h : heap) (g : repo_test_group) (test_name : string) (rtest : oid),
    (repo_test_group.getTest h g test_name = None <->
     forall t, In t (group_sub_tests g) -> name (h t) <> test_name) /\
    (forall t, repo_test_group.getTest h g test_name = Some t ->
       exists pre post,
         group_sub_tests g = (pre ++ t :: post)%list /\
         name (h t) = test_name /\
         forall x, In x pre -> name (h x) <> test_name) /\
    repo_test_group.getTest h (repo_test_group.add_test g rtest None) test_name =
    match repo_test_group.getTest h g test_name with
    | Some t => Some t
    | None => if String.eqb (name (h rtest)) test_name then Some rtest else None
    end.
Proof.
  intros h g test_name rtest.
  unfold repo_test_group.getTest, repo_test_unit.getName. simpl.
  set (l := group_sub_tests g).
  split; [|split].
  - split.
    + intros H t Ht E.
      apply (find_none _ _ H) in Ht. apply String.eqb_neq in Ht. contradiction.
    + intros H. induction l as [|x l IH]; [reflexivity|]. simpl.
      destruct (String.eqb (name (h x)) test_name) eqn:E.
      * apply String.eqb_eq in E. exfalso. apply (H x); [now left | exact E].
      * apply IH. intros t Ht. apply H. now right.
  - induction l as [|x l IH]; intros t H; [discriminate|]. simpl in H.
    destruct (String.eqb (name (h x)) test_name) eqn:E.
    + injection H as <-. apply String.eqb_eq in E.
      exists [], l. repeat split; [exact E | intros y []].
    + destruct (IH t H) as (pre & post & -> & Hn & Hpre).
      exists (x :: pre), post. repeat split; [exact Hn|].
      intros y [<-|Hy]; [now apply String.eqb_neq | now apply Hpre].
  - induction l as [|x l IH]; simpl.
    + reflexivity.
    + destruct (String.eqb (name (h x)) test_name); [reflexivity | exact IH].
Qed.

Lemma group_for_sub_tests_app (fuel : nat) (h : heap) (suite : repo_test_suite) :
  forall (pre rest : list oid) (g : repo_test_group) (s : state),
    repo_test_group.for_sub_tests fuel h suite (pre ++ rest) g s =
    match repo_test_group.for_sub_tests fuel h suite pre g s with
    | (Ret _, g1, s1) => repo_test_group.for_sub_tests fuel h suite rest g1 s1
    | other => other
    end.
Proof.
  induction pre as [|t pre IH]; intros rest g s; [reflexivity|].
  cbn [app repo_test_group.for_sub_tests].
  destruct (initiate_test fuel h t _) as [[r|e|] s2]; try reflexivity.
  apply IH.
Qed.

(** X11.  When, in a run, the members before [u] have returned and the
    invocation of [u] raises, [initiate_test] of the group raises the
    same exception in the very state in which that invocation raised:
    nothing runs after it, so no member after [u] is invoked or
    recorded and no group-level Result is computed; the table holds the
    entries of the members before [u], whose checks are the calls made
    before [u] was invoked. *)
Theorem group_member_exception_propagates :
  forall (fuel : nat) (h : heap) (suite : repo_test_suite)
         (g : repo_test_group) (s s1 s2 : state) (pre post : list oid) (u : oid)
         (rs : list repo_test_result) (e : exn),
    group_sub_tests g = (pre ++ u :: post)%list ->
    invoke_members fuel h suite pre
      (on_world (repo_test_suite.print_test_status suite
                   ("Executing Test Set: " ++ repo_test_group.getName g)) s)
    = (Ret rs, s1) ->
    initiate_test fuel h u
      (on_world (repo_test_suite.print_test_status suite
                   (" Executing Test: " ++ repo_test_unit.getName h u)) s1)
    = (Raise e, s2) ->
    repo_test_group.initiate_test fuel h suite g s =
      (Raise e,
       mk_group (group_id g) (group_name g) (group_sub_tests g)
                (record_results (result_dict g) pre rs),
       s2) /\
    keys (record_results (result_dict g) pre rs) =
      fold_left add_key pre (keys (result_dict g)) /\
    calls s1 = (calls s ++ flat_map (checks_of fuel h) pre)%list.
Proof.
  intros fuel h suite g s s1 s2 pre post u rs e Hsplit Hpre Hu.
  destruct (group_for_sub_tests_run fuel h suite pre g _ _ _ Hpre)
    as (Hrun & Hlen & Hcalls).
  split; [|split; [now apply keys_record_results | exact Hcalls]].
  unfold repo_test_group.initiate_test. rewrite Hsplit at 1.
  rewrite group_for_sub_tests_app, Hrun.
  cbn [repo_test_group.for_sub_tests group_id group_name group_sub_tests
       result_dict].
  now rewrite Hu.
Qed.

Lemma group_member_exception_propagates_witness :
  repo_test_group.initiate_test 1 second_member_raises plain_suite
    three_members quiet_state =
    (Raise OSError,
     mk_group (group_id three_members) (group_name three_members)
              (group_sub_tests three_members)
              (record_results (result_dict three_members) [1]
                 [repo_test.success_result 1 None]),
     snd (initiate_test 1 second_member_raises 2
            (on_world (repo_test_suite.print_test_status plain_suite
                         (" Executing Test: "
                          ++ repo_test_unit.getName second_member_raises 2))
               (snd (invoke_members 1 second_member_raises plain_suite [1]
                       (on_world (repo_test_suite.print_test_status plain_suite
                                    ("Executing Test Set: "
                                     ++ repo_test_group.getName three_members))
                                 quiet_state)))))) /\
  keys (record_results (result_dict three_members) [1]
          [repo_test.success_result 1 None]) =
    fold_left add_key [1] (keys (result_dict three_members)) /\
  calls (snd (invoke_members 1 second_member_raises plain_suite [1]
                (on_world (repo_test_suite.print_test_status plain_suite
                             ("Executing Test Set: "
                              ++ repo_test_group.getName three_members))
                          quiet_state)))
  = (calls quiet_state ++ flat_map (checks_of 1 second_member_raises) [1])%list.
Proof.
  apply (group_member_exception_propagates 1 second_member_raises plain_suite
           three_members quiet_state
           (snd (invoke_members 1 second_member_raises plain_suite [1]
                   (on_world (repo_test_suite.print_test_status plain_suite
                                ("Executing Test Set: "
                                 ++ repo_test_group.getName three_members))
                             quiet_state)))
           (snd (initiate_test 1 second_member_raises 2
                   (on_world (repo_test_suite.print_test_status plain_suite
                                (" Executing Test: "
                                 ++ repo_test_unit.getName second_member_raises 2))
                      (snd (invoke_members 1 second_member_raises plain_suite [1]
                              (on_world
                                 (repo_test_suite.print_test_status plain_suite
                                    ("Executing Test Set: "
                                     ++ repo_test_group.getName three_members))
                                 quiet_state))))))
           [1] [3] 2 [repo_test.success_result 1 None] OSError);
    reflexivity.
Defined.

Lemma stdout_print_color (suite : repo_test_suite) (color : option string)
    (m : string) (w : World) :
  stdout (repo_test_suite.print_color suite color m w) =
  (stdout w ++ [(match color with
                 | Some c => c ++ m ++ TermColor.END
                 | None => m
                 end ++ nl)%string])%list.
Proof.
  unfold repo_test_suite.print_color, py_print.
  now rewrite stdout_stdout_write, stdout_test_log_write.
Qed.

(** X12.  [run_build_test] with a rule name that no build step carries
    runs no check and prints one error line; with the name of a build
    step it invokes the first step of that name, whose checks are the
    only ones called. *)
Theorem run_build_test_runs_the_named_step :
  forall (fuel : nat) (h : heap) (suite : repo_test_suite)
         (makefile_tests : repo_test_group) (build_rule : string) (s : state),
    (repo_test_group.getTest h makefile_tests build_rule = None ->
     fst (run_build_test fuel h suite makefile_tests build_rule s) = Ret tt /\
     calls (snd (run_build_test fuel h suite makefile_tests build_rule s))
       = calls s /\
     stdout (world (snd (run_build_test fuel h suite makefile_tests build_rule s)))
       = (stdout (world s) ++
          [(match error_color suite with
            | Some c => c ++ ("Build rule '" ++ build_rule ++ "' not found")
                        ++ TermColor.END
            | None => "Build rule '" ++ build_rule ++ "' not found"
            end ++ nl)%string])%list) /\
    (forall t r s',
        repo_test_group.getTest h makefile_tests build_rule = Some t ->
        initiate_test fuel h t s = (Ret r, s') ->
        run_build_test fuel h suite makefile_tests build_rule s = (Ret tt, s') /\
        name (h t) = build_rule /\
        calls s' = (calls s ++ checks_of fuel h t)%list).
Proof.
  intros fuel h suite g rule s. unfold run_build_test. split.
  - intros ->. unfold exec. cbn [fst snd].
    split; [reflexivity|]. split; [reflexivity|].
    unfold on_world. cbn [world].
    unfold repo_test_suite.print_error. apply stdout_print_color.
  - intros t r s' Hget Hrun. rewrite Hget.
    unfold bind. rewrite Hrun. split; [reflexivity|].
    split; [|now apply (initiate_test_calls fuel h t r)].
    unfold repo_test_group.getTest in Hget.
    apply find_some in Hget as [_ E]. now apply String.eqb_eq in E.
Qed.

Lemma run_build_test_runs_the_named_step_witness :
  run_build_test 1 three_leaves plain_suite three_members "untracked" quiet_state
    = (Ret tt, mk_state quiet_world [2]) /\
  name (three_leaves 2) = "untracked" /\
  calls (mk_state quiet_world [2]) =
    (calls quiet_state ++ checks_of 1 three_leaves 2)%list.
Proof.
  destruct (run_build_test_runs_the_named_step 1 three_leaves plain_suite
              three_members "untracked" quiet_state) as [_ Hknown].
  apply (Hknown 2 (repo_test.warning_result 2 None)); reflexivity.
Defined.

Lemma dict_set_same_value (d : dict) (k : oid) (v : repo_test_result) :
  dict_get d k = Some v -> dict_set d k v = d.
Proof.
  induction d as [|[k' v'] d IH]; simpl; [discriminate|].
  destruct (Nat.eqb k' k) eqn:E.
  - intros H. injection H as ->. reflexivity.
  - intros H. now rewrite IH.
Qed.

Lemma record_all_get_other (res : oid -> repo_test_result) (tests : list oid) :
  forall (d : dict) (t : oid),
    ~ In t tests -> dict_get (record_all res tests d) t = dict_get d t.
Proof.
  induction tests as [|x tests IH]; intros d t Hn; [reflexivity|].
  unfold record_all in *. simpl.
  rewrite IH by (intros H; apply Hn; now right).
  apply dict_get_set_other. intros ->. apply Hn. now left.
Qed.

Lemma record_all_get (res : oid -> repo_test_result) (tests : list oid) :
  forall (d : dict) (t : oid),
    In t tests -> dict_get (record_all res tests d) t = Some (res t).
Proof.
  induction tests as [|x tests IH]; intros d t Hin; [destruct Hin|].
  unfold record_all in *. simpl.
  destruct (in_dec Nat.eq_dec t tests) as [Ht|Ht].
  - now apply IH.
  - destruct Hin as [->|Hin]; [|contradiction].
    change (dict_get (record_all res tests (dict_set d t (res t))) t
            = Some (res t)).
    rewrite record_all_get_other by exact Ht.
    apply dict_get_set_same.
Qed.

Lemma record_all_again (res : oid -> repo_test_result) (tests : list oid) :
  forall d : dict,
    (forall t, In t tests -> dict_get d t = Some (res t)) ->
    record_all res tests d = d.
Proof.
  induction tests as [|x tests IH]; intros d H; [reflexivity|].
  unfold record_all in *. simpl.
  rewrite dict_set_same_value by (apply H; now left).
  apply IH. intros t Ht. apply H. now right.
Qed.

Lemma group_for_sub_tests_fixed (fuel : nat) (h : heap) (suite : repo_test_suite)
    (res : oid -> repo_test_result) :
  forall (tests : list oid) (g : repo_test_group) (s : state),
    (forall u s1, In u tests -> fst (initiate_test fuel h u s1) = Ret (res u)) ->
    exists s',
      repo_test_group.for_sub_tests fuel h suite tests g s =
      (Ret tt,
       mk_group (group_id g) (group_name g) (group_sub_tests g)
                (record_all res tests (result_dict g)),
       s').
Proof.
  induction tests as [|t tests IH]; intros g s H.
  - exists s. simpl. now destruct g.
  - cbn [repo_test_group.for_sub_tests].
    match goal with
    | |- context [initiate_test fuel h t ?s1] =>
        pose proof (H t s1 (or_introl eq_refl)) as Ht;
        destruct (initiate_test fuel h t s1) as [[r|e|] s2]
    end; simpl in Ht; try discriminate Ht.
    injection Ht as ->.
    match goal with
    | |- context [repo_test_group.for_sub_tests fuel h suite tests ?g1 ?s3] =>
        destruct (IH g1 s3) as [s' Hrun]
    end.
    { intros u s1 Hu. apply H. now right. }
    exists s'. rewrite Hrun. reflexivity.
Qed.

(** X13.  For members whose invocations return a Result that does not
    depend on the state, invoking the group a second time leaves the
    table as the first invocation made it and returns the same
    group-level Result. *)
Theorem group_reinvocation_is_idempotent :
  forall (fuel : nat) (h : heap) (suite : repo_test_suite)
         (g : repo_test_group) (s : state) (res : oid -> repo_test_result),
    (forall u s1, In u (group_sub_tests g) ->
                  fst (initiate_test fuel h u s1) = Ret (res u)) ->
    exists r g1 s1 s2,
      repo_test_group.initiate_test fuel h suite g s = (Ret r, g1, s1) /\
      repo_test_group.initiate_test fuel h suite g1 s1 = (Ret r, g1, s2).
Proof.
  intros fuel h suite g s res H.
  destruct (group_for_sub_tests_fixed fuel h suite res (group_sub_tests g) g
              (on_world (repo_test_suite.print_test_status suite
                           ("Executing Test Set: " ++ repo_test_group.getName g))
                 s) H) as [s1 Hrun].
  set (g1 := mk_group (group_id g) (group_name g) (group_sub_tests g)
               (record_all res (group_sub_tests g) (result_dict g))) in *.
  destruct (group_for_sub_tests_fixed fuel h suite res (group_sub_tests g1) g1
              (on_world (repo_test_suite.print_test_status suite
                           ("Executing Test Set: " ++ repo_test_group.getName g1))
                 s1) H) as [s2 Hrun2].
  assert (E : record_all res (group_sub_tests g1) (result_dict g1)
              = result_dict g1).
  { apply record_all_again. intros t Ht. subst g1. simpl in *.
    now apply record_all_get. }
  rewrite E in Hrun2.
  exists (repo_test_group.getResult h g1), g1, s1, s2.
  unfold repo_test_group.initiate_test. rewrite Hrun, Hrun2.
  split; reflexivity.
Qed.

Lemma group_reinvocation_is_idempotent_witness :
  exists r g1 s1 s2,
    repo_test_group.initiate_test 1 three_leaves plain_suite three_members
      quiet_state = (Ret r, g1, s1) /\
    repo_test_group.initiate_test 1 three_leaves plain_suite g1 s1
      = (Ret r, g1, s2).
Proof.
  apply (group_reinvocation_is_idempotent 1 three_leaves plain_suite
           three_members quiet_state
           (fun u => match u with
                     | 1 => repo_test.success_result 1 None
                     | 2 => repo_test.warning_result 2 None
                     | _ => repo_test.error_result u (Some "fetch failed")
                     end)).
  intros u s1 Hu. simpl in Hu.
  destruct Hu as [<-|[<-|[<-|[]]]]; reflexivity.
Defined.

(** ** The executor *)

Lemma stdout_print (suite : repo_test_suite) (m : string) (w : World) :
  stdout (repo_test_suite.print suite m false w) =
  if print_to_stdout suite then (stdout w ++ [(m ++ nl)%string])%list
  else stdout w.
Proof.
  unfold repo_test_suite.print. cbn [negb orb].
  rewrite stdout_test_log_write.
  destruct (print_to_stdout suite); reflexivity.
Qed.

(** X14.  Whatever the interleaving of the child, the reader thread and
    the main thread, when [execute_command] returns for a child whose
    lines are not empty and are ASCII text, the console holds, after the
    message that names the command, a prefix of the child's lines,
    stripped and each ended by a newline, in the order the child wrote
    them; after them comes at most one more line. *)
Theorem relayed_lines_are_a_prefix_in_order :
  forall (self_id : oid) (self : repo_test_attrs) (suite : repo_test_suite)
         (cmd : list string) (w w' : World) (l : launched) (rc : Z),
    print_to_stdout suite = true ->
    Popen w cmd (working_path suite) = inr l ->
    Forall (fun x => x <> "") (out_lines (prog l)) ->
    Forall (fun x => is_ascii_text x = true) (out_lines (prog l)) ->
    repo_test.execute_command self_id self suite cmd None w = (Ret rc, w') ->
    exists done lost tail,
      map strip (out_lines (prog l)) = (done ++ lost)%list /\
      stdout w' =
        (stdout w
         ++ [("Executing the following command in directory:"
              ++ working_path suite ++ ":" ++ join " " cmd ++ nl)%string]
         ++ map (fun line => (line ++ nl)%string) done ++ tail)%list /\
      List.length tail <= 1.
Proof.
  intros self_id self suite cmd w w' l rc Hout HP Hne _ H.
  destruct (execute_command_relays_in_order self_id self suite cmd w w' l rc
              HP Hne H) as (done & lost & tail & Hall & Hstd & Hlen).
  exists done, lost, tail. split; [exact Hall|]. split; [|exact Hlen].
  rewrite Hstd, stdout_print, Hout, <- !app_assoc.
  unfold with_newline. now rewrite !string_app_assoc.
Qed.

Lemma relayed_lines_are_a_prefix_in_order_witness :
  exists done lost tail,
    map strip (out_lines (prog exits_before_last_get)) = (done ++ lost)%list /\
    stdout (snd (repo_test.execute_command 1 (attrs_with_timeout 60) plain_suite
                   ["make"; "sim"] None
                   (machine_launching exits_before_last_get))) =
      (stdout (machine_launching exits_before_last_get)
       ++ [("Executing the following command in directory:"
            ++ working_path plain_suite ++ ":" ++ join " " ["make"; "sim"]
            ++ nl)%string]
       ++ map (fun line => (line ++ nl)%string) done ++ tail)%list /\
    List.length tail <= 1.
Proof.
  apply (relayed_lines_are_a_prefix_in_order 1 (attrs_with_timeout 60)
           plain_suite ["make"; "sim"]
           (machine_launching exits_before_last_get)
           (snd (repo_test.execute_command 1 (attrs_with_timeout 60) plain_suite
                   ["make"; "sim"] None
                   (machine_launching exits_before_last_get)))
           exits_before_last_get 0%Z).
  - reflexivity.
  - reflexivity.
  - repeat constructor; discriminate.
  - repeat constructor.
  - reflexivity.
Defined.

(** With no per-command log file asked for and a launch that succeeds,
    [execute_command] is the run of the machine from the state in which
    the command message has been printed. *)
Lemma execute_command_is_run (self_id : oid) (self : repo_test_attrs)
    (suite : repo_test_suite) (cmd : list string) (w : World) (l : launched) :
  Popen w cmd (working_path suite) = inr l ->
  repo_test.execute_command self_id self suite cmd None w =
  repo_test.run self suite None
    (clock (repo_test_suite.print suite
              ("Executing the following command in directory:"
               ++ working_path suite ++ ":" ++ join " " cmd) false w))
    (schedule l)
    (mk_proc (out_lines (prog l)) (prog l) None [] true [] AtWhile)
    (repo_test_suite.print suite
       ("Executing the following command in directory:"
        ++ working_path suite ++ ":" ++ join " " cmd) false w).
Proof.
  intros HP. unfold repo_test.execute_command.
  destruct (log_dir suite);
    unfold bind, ret, exec, time_time, subprocess_Popen;
    rewrite Popen_print, HP; reflexivity.
Qed.

Lemma fs_test_log_write (s : string) (w : World) :
  fs (test_log_write s w) = fs w.
Proof. unfold test_log_write. now destruct (test_log_fp w). Qed.

Lemma fs_print_color (suite : repo_test_suite) (c : option string) (m : string)
    (w : World) :
  fs (repo_test_suite.print_color suite c m w) = fs w.
Proof.
  unfold repo_test_suite.print_color, py_print, stdout_write. simpl.
  apply fs_test_log_write.
Qed.

Lemma exit_status_step (self : repo_test_attrs) (suite : repo_test_suite)
    (fp : option string) (start_time : Z) (ev : event) (p : proc) (w : World) :
  (timeout_seconds self <= 0)%Z ->
  (returncode p = None \/
   (returncode p = Some (exit_status (child p)) /\
    incl (creates (child p)) (fs w))) ->
  child (fst (repo_test.step self suite fp start_time ev p w)) = child p /\
  (returncode (fst (repo_test.step self suite fp start_time ev p w)) = None \/
   (returncode (fst (repo_test.step self suite fp start_time ev p w))
    = Some (exit_status (child p)) /\
    incl (creates (child p))
         (fs (snd (repo_test.step self suite fp start_time ev p w))))) /\
  (forall rc,
      main p <> Returned rc ->
      main (fst (repo_test.step self suite fp start_time ev p w)) = Returned rc ->
      rc = exit_status (child p) /\
      incl (creates (child p))
           (fs (snd (repo_test.step self suite fp start_time ev p w)))).
Proof.
  intros Ht Hinv.
  assert (Hto : (timeout_seconds self >? 0)%Z = false)
    by (rewrite Z.gtb_ltb; apply Z.ltb_ge; lia).
  destruct ev; cbn [repo_test.step].
  - unfold repo_test.child_write.
    destruct (returncode p) eqn:Erc, (todo p) eqn:Etodo; cbn [fst snd];
      rewrite ?Erc; (split; [reflexivity|]); (split; [auto|]);
      cbn [main]; intros rc Hne Hm; contradiction.
  - unfold repo_test.child_exit.
    destruct (returncode p) eqn:Erc, (todo p) eqn:Etodo; cbn [fst snd];
      rewrite ?Erc; (split; [reflexivity|]);
      (split; [|cbn [main]; intros rc Hne Hm; contradiction]); auto.
    right. cbn [returncode child]. split; [reflexivity|].
    simpl. intros x Hx. apply in_or_app. now left.
  - unfold repo_test.read_stdout_to_queue_thread.
    destruct (thread_alive p), (pipe p), (returncode p) eqn:Erc;
      try destruct (negb (String.eqb _ _));
      cbn [fst snd]; rewrite ?Erc; (split; [reflexivity|]);
      (split; [auto|cbn [main]; intros rc Hne Hm; contradiction]).
  - cbn [fst snd]. split; [reflexivity|].
    split; [auto|intros rc Hne Hm; contradiction].
  - unfold repo_test.main_turn.
    destruct (main p) eqn:Emain.
    + destruct (is_None (returncode p) && thread_alive p); cbn [fst snd];
        (split; [reflexivity|]); (split; [auto|]);
        cbn [with_main main]; intros rc _ Hm; discriminate Hm.
    + destruct (output_queue p); cbn [fst snd]; (split; [reflexivity|]).
      * split; [auto|]. cbn [with_main main]. intros rc _ Hm. discriminate Hm.
      * assert (Hfs : forall line,
          fs (match fp with
              | Some f => file_write f line
                            (test_log_write line
                               (if print_to_stdout suite
                                then stdout_write line w else w))
              | None => test_log_write line
                          (if print_to_stdout suite
                           then stdout_write line w else w)
              end) = fs w).
        { intros line. destruct fp; simpl; rewrite fs_test_log_write;
            now destruct (print_to_stdout suite). }
        cbn [returncode main child]. rewrite Hfs.
        split; [auto|]. intros rc _ Hm. discriminate Hm.
    + rewrite Hto. cbn [fst snd with_main main].
      split; [reflexivity|]. split; [auto|]. intros rc _ Hm. discriminate Hm.
    + destruct (returncode p) eqn:Erc; cbn [fst snd].
      * destruct Hinv as [Hn|[Hs Hfs]]; [discriminate|].
        injection Hs as ->. cbn [child returncode main].
        split; [reflexivity|]. split; [auto|].
        intros rc _ Hm. injection Hm as <-. now split.
      * rewrite Erc, Emain. split; [reflexivity|]. split; [auto|].
        intros rc _ Hm. discriminate Hm.
    + cbn [fst snd]. split; [reflexivity|]. split; [auto|].
      intros rc0 Hne Hm. cbn [main] in Hm. rewrite Emain in Hm. contradiction.
Qed.

Lemma exit_status_run (self : repo_test_attrs) (suite : repo_test_suite)
    (fp : option string) (start_time : Z) (sched : list event) :
  (timeout_seconds self <= 0)%Z ->
  forall (p : proc) (w w' : World) (rc : Z),
    is_Returned (main p) = false ->
    (returncode p = None \/
     (returncode p = Some (exit_status (child p)) /\
      incl (creates (child p)) (fs w))) ->
    repo_test.run self suite fp start_time sched p w = (Ret rc, w') ->
    rc = exit_status (child p) /\ incl (creates (child p)) (fs w').
Proof.
  intros Ht.
  induction sched as [|ev sched IH]; intros p w w' rc Hrun Hinv H.
  - simpl in H. destruct (main p); discriminate.
  - cbn [repo_test.run] in H.
    destruct (exit_status_step self suite fp start_time ev p w Ht Hinv)
      as (Hchild & Hinv' & Hret).
    destruct (repo_test.step self suite fp start_time ev p w) as [p' w1].
    cbn [fst snd] in *.
    destruct (main p) eqn:Emain; try discriminate Hrun;
      (destruct (is_Returned (main p')) eqn:Eret;
       [ destruct (main p') as [| | | |rc'] eqn:Emain'; try discriminate Eret;
         destruct (Hret rc' ltac:(discriminate) eq_refl) as [-> Hfs];
         destruct sched; simpl in H; rewrite Emain' in H;
         injection H as <- <-; now split
       | rewrite <- Hchild; apply (IH p' w1 w' rc Eret);
         [rewrite Hchild; exact Hinv' | exact H] ]).
Qed.

(** X15.  With no timeout configured (a value of 0 or less), the status
    [execute_command] returns is the child's own exit status, and when
    it returns the child has exited: the files the child creates
    exist. *)
Theorem status_is_the_exit_status_without_timeout :
  forall (self_id : oid) (self : repo_test_attrs) (suite : repo_test_suite)
         (cmd : list string) (w w' : World) (l : launched) (rc : Z),
    (timeout_seconds self <= 0)%Z ->
    Popen w cmd (working_path suite) = inr l ->
    repo_test.execute_command self_id self suite cmd None w = (Ret rc, w') ->
    rc = exit_status (prog l) /\ incl (creates (prog l)) (fs w').
Proof.
  intros self_id self suite cmd w w' l rc Ht HP H.
  rewrite (execute_command_is_run self_id self suite cmd w l HP) in H.
  apply (exit_status_run self suite None _ (schedule l) Ht
           (mk_proc (out_lines (prog l)) (prog l) None [] true [] AtWhile)
           _ w' rc eq_refl (or_introl eq_refl) H).
Qed.

Lemma status_is_the_exit_status_without_timeout_witness :
  1%Z = exit_status (prog fails_at_once) /\
  incl (creates (prog fails_at_once))
       (fs (snd (repo_test.execute_command 1 (attrs_with_timeout 0) plain_suite
                   ["make"; "sim"] None (machine_launching fails_at_once)))).
Proof.
  apply (status_is_the_exit_status_without_timeout 1 (attrs_with_timeout 0)
           plain_suite ["make"; "sim"] (machine_launching fails_at_once)
           (snd (repo_test.execute_command 1 (attrs_with_timeout 0) plain_suite
                   ["make"; "sim"] None (machine_launching fails_at_once)))
           fails_at_once 1%Z).
  - simpl. lia.
  - reflexivity.
  - reflexivity.
Defined.

Lemma leaves_loop_after_exit (self : repo_test_attrs) (suite : repo_test_suite)
    (fp : option string) (start_time : Z) (rc0 : Z) :
  forall (sched : list event) (p : proc) (w : World),
    in_loop (main p) = true ->
    returncode p = Some rc0 ->
    turns_to_leave (main p) <= List.length (filter is_EvMain sched) ->
    exists pre post,
      sched = (pre ++ post)%list /\
      List.length (filter is_EvMain pre) <= turns_to_leave (main p) /\
      ((main (fst (steps self suite fp start_time pre p w)) = AtCommunicate /\
        returncode (fst (steps self suite fp start_time pre p w)) = Some rc0) \/
       (main (fst (steps self suite fp start_time pre p w)) = Returned 1 /\
        (0 < timeout_seconds self)%Z)).
Proof.
  induction sched as [|ev sched IH]; intros p w Hloop Hrc Hn.
  - simpl in Hn. destruct (main p); simpl in Hn; try lia; discriminate Hloop.
  - assert (Hstep :
      let p' := fst (repo_test.step self suite fp start_time ev p w) in
      (is_EvMain ev = true /\
       ((main p' = AtCommunicate /\ returncode p' = Some rc0) \/
        (main p' = Returned 1 /\ (0 < timeout_seconds self)%Z))) \/
      (in_loop (main p') = true /\ returncode p' = Some rc0 /\
       turns_to_leave (main p') + (if is_EvMain ev then 1 else 0)
       = turns_to_leave (main p))).
    { destruct ev; cbn [repo_test.step fst is_EvMain].
      - right. unfold repo_test.child_write. rewrite Hrc. kept_in_loop.
      - right. unfold repo_test.child_exit. rewrite Hrc. cbn [fst].
        kept_in_loop.
      - right. unfold repo_test.read_stdout_to_queue_thread.
        destruct (thread_alive p), (pipe p);
          try destruct (negb (String.eqb _ _)); rewrite ?Hrc;
          cbn [main returncode]; kept_in_loop.
      - right. kept_in_loop.
      - unfold repo_test.main_turn.
        destruct (main p) eqn:Emain; try discriminate Hloop.
        + left. rewrite Hrc. cbn [is_None andb fst with_main main returncode].
          split; [reflexivity|]. left. now split.
        + right. destruct (output_queue p);
            cbn [fst with_main main returncode in_loop turns_to_leave];
            kept_in_loop.
        + destruct (timeout_seconds self >? 0)%Z eqn:Et;
            [destruct (clock w - start_time >? 1000 * timeout_seconds self)%Z|].
          * left. split; [reflexivity|]. right. cbn [fst with_main main].
            split; [reflexivity|]. apply Z.gtb_lt in Et. lia.
          * right. cbn [fst with_main main returncode in_loop turns_to_leave].
            kept_in_loop.
          * right. cbn [fst with_main main returncode in_loop turns_to_leave].
            kept_in_loop. }
    destruct (repo_test.step self suite fp start_time ev p w) as [p1 w1] eqn:Est.
    cbn [fst] in Hstep.
    destruct Hstep as [(Hmain & Hdone)|(Hloop1 & Hrc1 & Hturns)].
    + exists [ev], sched. split; [reflexivity|].
      cbn [filter steps]. rewrite Hmain, Est. cbn [List.length fst].
      split; [|exact Hdone].
      destruct (main p); simpl; try lia; discriminate Hloop.
    + destruct (IH p1 w1 Hloop1 Hrc1) as (pre & post & -> & Hlen & Hend).
      { cbn [filter] in Hn. destruct (is_EvMain ev); cbn [List.length] in Hn; lia. }
      exists (ev :: pre), post. split; [reflexivity|].
      cbn [filter steps]. rewrite Est.
      split; [|exact Hend].
      destruct (is_EvMain ev); cbn [List.length]; lia.
Qed.

(** X16.  Once the child has exited, the relay loop is left: whatever
    the other activities do in between, within three turns of the main
    thread it stands before [proc.communicate()] with the child's status
    set, or has returned 1 from the timeout test. *)
Theorem relay_loop_is_left_once_child_exited :
  forall (self : repo_test_attrs) (suite : repo_test_suite) (fp : option string)
         (start_time : Z) (sched : list event) (p : proc) (w : World) (rc0 : Z),
    in_loop (main p) = true ->
    returncode p = Some rc0 ->
    3 <= List.length (filter is_EvMain sched) ->
    exists pre post,
      sched = (pre ++ post)%list /\
      List.length (filter is_EvMain pre) <= 3 /\
      ((main (fst (steps self suite fp start_time pre p w)) = AtCommunicate /\
        returncode (fst (steps self suite fp start_time pre p w)) = Some rc0) \/
       (main (fst (steps self suite fp start_time pre p w)) = Returned 1 /\
        (0 < timeout_seconds self)%Z)).
Proof.
  intros self suite fp start_time sched p w rc0 Hloop Hrc Hn.
  destruct (leaves_loop_after_exit self suite fp start_time rc0 sched p w
              Hloop Hrc) as (pre & post & Hs & Hlen & Hend).
  { destruct (main p); simpl; lia. }
  exists pre, post. split; [exact Hs|]. split; [|exact Hend].
  destruct (main p); simpl in Hlen; lia.
Qed.

Lemma relay_loop_is_left_once_child_exited_witness :
  exists pre post,
    [EvMain; EvReader; EvMain; EvTick 5; EvMain; EvMain] = (pre ++ post)%list /\
    List.length (filter is_EvMain pre) <= 3 /\
    ((main (fst (steps (attrs_with_timeout 60) plain_suite None 0 pre
                   (mk_proc [] (mk_program [] 2 []) (Some 2%Z) ["bye" ++ nl]
                            true [] AtGet)
                   quiet_world)) = AtCommunicate /\
      returncode (fst (steps (attrs_with_timeout 60) plain_suite None 0 pre
                         (mk_proc [] (mk_program [] 2 []) (Some 2%Z)
                                  ["bye" ++ nl] true [] AtGet)
                         quiet_world)) = Some 2%Z) \/
     (main (fst (steps (attrs_with_timeout 60) plain_suite None 0 pre
                   (mk_proc [] (mk_program [] 2 []) (Some 2%Z) ["bye" ++ nl]
                            true [] AtGet)
                   quiet_world)) = Returned 1 /\
      (0 < timeout_seconds (attrs_with_timeout 60))%Z)).
Proof.
  apply (relay_loop_is_left_once_child_exited (attrs_with_timeout 60) plain_suite
           None 0 [EvMain; EvReader; EvMain; EvTick 5; EvMain; EvMain]
           (mk_proc [] (mk_program [] 2 []) (Some 2%Z) ["bye" ++ nl] true []
                    AtGet)
           quiet_world 2%Z).
  - reflexivity.
  - reflexivity.
  - simpl. lia.
Defined.

(** X17.  When a per-command log file is asked for (the suite has a log
    directory and a file name is given), [execute_command] on an
    instance built by the constructors of the file raises before
    anything is launched or printed: [AttributeError] for the missing
    [log_dir] attribute, or the exception of [os.makedirs]. *)
Theorem log_file_request_raises_before_launch :
  forall (self_id : oid) (self : repo_test_attrs) (suite : repo_test_suite)
         (cmd : list string) (dir filename : string) (w : World),
    log_dir suite = Some dir ->
    attr_log_dir self = None ->
    (fst (repo_test.execute_command self_id self suite cmd (Some filename) w)
     = Raise AttributeError \/
     exists e,
       makedirs w dir = Some e /\
       fst (repo_test.execute_command self_id self suite cmd (Some filename) w)
       = Raise e) /\
    stdout (snd (repo_test.execute_command self_id self suite cmd
                   (Some filename) w)) = stdout w /\
    files (snd (repo_test.execute_command self_id self suite cmd
                  (Some filename) w)) = files w /\
    to_delete (snd (repo_test.execute_command self_id self suite cmd
                      (Some filename) w)) = to_delete w.
Proof.
  intros self_id self suite cmd dir filename w Hd Ha.
  unfold repo_test.execute_command, repo_test.getattr_log_dir.
  rewrite Hd, Ha. unfold bind, raise.
  destruct (os_path_exists dir w); cbn [negb fst snd].
  - split; [now left | repeat split; reflexivity].
  - unfold os_makedirs. destruct (makedirs w dir) as [e|] eqn:Em; cbn [fst snd].
    + split; [right; now exists e | repeat split; reflexivity].
    + split; [now left | repeat split; reflexivity].
Qed.

Lemma log_file_request_raises_before_launch_witness :
  (fst (repo_test.execute_command 1 (attrs_with_timeout 60) logging_suite
          ["make"; "sim"] (Some "make_sim.log")
          (machine_launching fails_at_once)) = Raise AttributeError \/
   exists e,
     makedirs (machine_launching fails_at_once) "logs" = Some e /\
     fst (repo_test.execute_command 1 (attrs_with_timeout 60) logging_suite
            ["make"; "sim"] (Some "make_sim.log")
            (machine_launching fails_at_once)) = Raise e) /\
  stdout (snd (repo_test.execute_command 1 (attrs_with_timeout 60) logging_suite
                 ["make"; "sim"] (Some "make_sim.log")
                 (machine_launching fails_at_once)))
  = stdout (machine_launching fails_at_once) /\
  files (snd (repo_test.execute_command 1 (attrs_with_timeout 60) logging_suite
                ["make"; "sim"] (Some "make_sim.log")
                (machine_launching fails_at_once)))
  = files (machine_launching fails_at_once) /\
  to_delete (snd (repo_test.execute_command 1 (attrs_with_timeout 60)
                    logging_suite ["make"; "sim"] (Some "make_sim.log")
                    (machine_launching fails_at_once)))
  = to_delete (machine_launching fails_at_once).
Proof.
  apply (log_file_request_raises_before_launch 1 (attrs_with_timeout 60)
           logging_suite ["make"; "sim"] "logs" "make_sim.log"
           (machine_launching fails_at_once));
    reflexivity.
Defined.

Lemma clock_print_color (suite : repo_test_suite) (c : option string)
    (m : string) (w : World) :
  clock (repo_test_suite.print_color suite c m w) = clock w.
Proof.
  unfold repo_test_suite.print_color, py_print, stdout_write, test_log_write.
  now destruct (test_log_fp w).
Qed.

Lemma clock_print (suite : repo_test_suite) (m : string) (v : bool) (w : World) :
  clock (repo_test_suite.print suite m v w) = clock w.
Proof.
  unfold repo_test_suite.print, test_log_write, py_print, stdout_write.
  destruct (negb v || verbose suite); [|reflexivity].
  destruct (print_to_stdout suite); simpl;
    destruct (test_log_fp w); reflexivity.
Qed.

(** The loop on a child that stays silent and does not exit: when [k]
    more waits of one second carry the time elapsed past the timeout,
    the main thread returns 1 within the turns these waits take, and
    earlier if time passes in between. *)
Lemma silent_child_loop (self : repo_test_attrs) (suite : repo_test_suite)
    (fp : option string) (start_time : Z) (T : nat) (prg : program) :
  timeout_seconds self = Z.of_nat T ->
  0 < T ->
  forall (sched : list event) (c : pc) (k : nat) (w : World),
    in_loop c = true ->
    (c = AtTimeout \/ 1 <= k) ->
    (1000 * (Z.of_nat T + 1 - Z.of_nat k) <= clock w - start_time)%Z ->
    Forall (fun ev => ev <> EvExit) sched ->
    turns_to_timeout c k <= List.length (filter is_EvMain sched) ->
    exists w0,
      repo_test.run self suite fp start_time sched
        (mk_proc [] prg None [] true [] c) w
      = (Ret 1%Z, repo_test_suite.print_error suite (timeout_message self) w0) /\
      (1000 * Z.of_nat T < clock w0 - start_time)%Z /\
      stdout w0 = stdout w.
Proof.
  intros HT Hpos.
  assert (Hto : (timeout_seconds self >? 0)%Z = true)
    by (apply Z.gtb_lt; lia).
  induction sched as [|ev sched IH]; intros c k w Hloop Hk Hel Hex Hn.
  - simpl in Hn. destruct c; simpl in Hn; try discriminate Hloop;
      destruct Hk as [Hk|Hk]; try discriminate Hk; lia.
  - inversion Hex as [|? ? Hev Hex']; subst.
    destruct c; try discriminate Hloop; cbn [repo_test.run main];
      destruct ev; try contradiction;
      cbn [repo_test.step repo_test.child_write repo_test.read_stdout_to_queue_thread
           returncode todo thread_alive pipe filter is_EvMain List.length] in *.
    + apply (IH AtWhile k); auto.
    + apply (IH AtWhile k); auto.
    + destruct (IH AtWhile k (with_clock w (clock w + Z.max 0 ms)%Z))
        as (w0 & Hrun & Hc & Hs); auto; [cbn [clock with_clock]; lia|].
      exists w0. split; [exact Hrun|]. split; [exact Hc | exact Hs].
    + unfold repo_test.main_turn.
      cbn [main returncode thread_alive is_None andb with_main todo child pipe
           output_queue].
      apply (IH AtGet k); auto.
      * destruct Hk as [Hk|Hk]; [discriminate Hk | now right].
      * cbn [turns_to_timeout] in *. lia.
    + apply (IH AtGet k); auto.
    + apply (IH AtGet k); auto.
    + destruct (IH AtGet k (with_clock w (clock w + Z.max 0 ms)%Z))
        as (w0 & Hrun & Hc & Hs); auto; [cbn [clock with_clock]; lia|].
      exists w0. split; [exact Hrun|]. split; [exact Hc | exact Hs].
    + unfold repo_test.main_turn.
      cbn [main returncode thread_alive is_None andb with_main todo child pipe
           output_queue].
      destruct Hk as [Hk|Hk]; [discriminate Hk|].
      destruct (IH AtTimeout (k - 1) (with_clock w (clock w + 1000)%Z))
        as (w0 & Hrun & Hc & Hs); auto.
      * cbn [clock with_clock]. lia.
      * cbn [turns_to_timeout] in *. lia.
      * exists w0. split; [exact Hrun|]. split; [exact Hc|]. exact Hs.
    + apply (IH AtTimeout k); auto.
    + apply (IH AtTimeout k); auto.
    + destruct (IH AtTimeout k (with_clock w (clock w + Z.max 0 ms)%Z))
        as (w0 & Hrun & Hc & Hs); auto; [cbn [clock with_clock]; lia|].
      exists w0. split; [exact Hrun|]. split; [exact Hc | exact Hs].
    + unfold repo_test.main_turn. cbn [main]. rewrite Hto.
      destruct (clock w - start_time >? 1000 * timeout_seconds self)%Z eqn:E.
      * exists w. split.
        -- destruct sched; reflexivity.
        -- split; [|reflexivity]. apply Z.gtb_lt in E. lia.
      * cbn [with_main todo child returncode pipe thread_alive output_queue].
        assert (1 <= k).
        { rewrite Z.gtb_ltb in E. apply Z.ltb_ge in E. lia. }
        apply (IH AtWhile k); auto.
        cbn [turns_to_timeout] in *. lia.
Qed.

(** X18.  A child that stays silent and does not exit by itself is
    stopped by the timeout: with a timeout of [T] seconds,
    [execute_command] returns 1 within [T + 1] turns of the loop, each
    of which waits one second on the empty queue, whatever other time
    passes in between; when it returns, more than [T] seconds have
    passed, and the one line printed after the command message is the
    error message of the timeout. *)
Theorem silent_child_is_stopped_by_the_timeout :
  forall (self_id : oid) (self : repo_test_attrs) (suite : repo_test_suite)
         (cmd : list string) (w : World) (T : nat) (l : launched),
    timeout_seconds self = Z.of_nat T ->
    0 < T ->
    Popen w cmd (working_path suite) = inr l ->
    out_lines (prog l) = [] ->
    Forall (fun ev => ev <> EvExit) (schedule l) ->
    3 * (T + 1) <= List.length (filter is_EvMain (schedule l)) ->
    exists w',
      repo_test.execute_command self_id self suite cmd None w = (Ret 1%Z, w') /\
      (clock w + 1000 * Z.of_nat T < clock w')%Z /\
      stdout w' =
        (stdout (repo_test_suite.print suite
                   ("Executing the following command in directory:"
                    ++ working_path suite ++ ":" ++ join " " cmd) false w)
         ++ [console_line (error_color suite)
               ("Process exceeded " ++ str_of_Z (timeout_seconds self)
                ++ " seconds and was terminated.")])%list.
Proof.
  intros self_id self suite cmd w T l HT Hpos HP Hsilent Hex Hn.
  rewrite (execute_command_is_run self_id self suite cmd w _ HP).
  set (w1 := repo_test_suite.print suite _ false w).
  rewrite Hsilent.
  destruct (silent_child_loop self suite None (clock w1) T (prog l)
              HT Hpos (schedule l) AtWhile (T + 1) w1)
    as (w0 & Hrun & Hc & Hs); auto.
  - lia.
  - cbn [turns_to_timeout]. lia.
  - exists (repo_test_suite.print_error suite (timeout_message self) w0).
    split; [exact Hrun|]. unfold repo_test_suite.print_error.
    rewrite clock_print_color, stdout_print_color, Hs. split.
    + unfold w1 in Hc. rewrite clock_print in Hc. lia.
    + reflexivity.
Qed.

Lemma silent_child_is_stopped_by_the_timeout_witness :
  exists w',
    repo_test.execute_command 1 (attrs_with_timeout 2) plain_suite
      ["make"; "sim"] None (machine_launching (silent 1 9))
    = (Ret 1%Z, w') /\
    (clock (machine_launching (silent 1 9)) + 1000 * Z.of_nat 2 < clock w')%Z /\
    stdout w' =
      (stdout (repo_test_suite.print plain_suite
                 ("Executing the following command in directory:"
                  ++ working_path plain_suite ++ ":" ++ join " " ["make"; "sim"])
                 false (machine_launching (silent 1 9)))
       ++ [console_line (error_color plain_suite)
             ("Process exceeded "
              ++ str_of_Z (timeout_seconds (attrs_with_timeout 2))
              ++ " seconds and was terminated.")])%list.
Proof.
  apply (silent_child_is_stopped_by_the_timeout 1 (attrs_with_timeout 2)
           plain_suite ["make"; "sim"] (machine_launching (silent 1 9)) 2
           (silent 1 9)).
  - reflexivity.
  - lia.
  - reflexivity.
  - reflexivity.
  - repeat constructor; discriminate.
  - simpl. lia.
Defined.

(** ** [make_test] *)

Lemma fs_print_error (suite : repo_test_suite) (m : string) (w : World) :
  fs (repo_test_suite.print_error suite m w) = fs w.
Proof. apply fs_print_color. Qed.

(** X19.  When a required input file of a Makefile rule does not exist,
    the check of the [make_test] returns an error Result for the unit,
    without a message, and the rule is not run: one line is printed and
    neither the clock nor the file system moves. *)
Theorem make_test_missing_input_is_an_error :
  forall (self_id : oid) (base : repo_test_attrs) (self : make_test_attrs)
         (suite : repo_test_suite) (w : World) (inputs : list string)
         (file : string),
    required_input_files self = Some inputs ->
    In file inputs ->
    os_path_exists file w = false ->
    fst (make_test.perform_test self_id base self suite w)
      = Ret (mk_result self_id ERROR None) /\
    fs (snd (make_test.perform_test self_id base self suite w)) = fs w /\
    clock (snd (make_test.perform_test self_id base self suite w)) = clock w /\
    exists line,
      stdout (snd (make_test.perform_test self_id base self suite w))
      = (stdout w ++ [line])%list.
Proof.
  intros self_id base self suite w inputs file Hreq Hin Hex.
  unfold make_test.perform_test. rewrite Hreq.
  destruct (find (fun f => negb (os_path_exists f w)) inputs) as [f|] eqn:Ef.
  - cbn [fst snd]. split; [reflexivity|].
    split; [apply fs_print_error|].
    split; [apply clock_print_color|].
    eexists. unfold repo_test_suite.print_error. apply stdout_print_color.
  - apply (find_none _ _ Ef) in Hin. rewrite Hex in Hin. discriminate.
Qed.

Lemma make_test_missing_input_is_an_error_witness :
  fst (make_test.perform_test 1 (attrs_with_timeout 60) sim_rule plain_suite
         quiet_world) = Ret (mk_result 1 ERROR None) /\
  fs (snd (make_test.perform_test 1 (attrs_with_timeout 60) sim_rule plain_suite
             quiet_world)) = fs quiet_world /\
  clock (snd (make_test.perform_test 1 (attrs_with_timeout 60) sim_rule
                plain_suite quiet_world)) = clock quiet_world /\
  exists line,
    stdout (snd (make_test.perform_test 1 (attrs_with_timeout 60) sim_rule
                   plain_suite quiet_world))
    = (stdout quiet_world ++ [line])%list.
Proof.
  apply (make_test_missing_input_is_an_error 1 (attrs_with_timeout 60) sim_rule
           plain_suite quiet_world ["top.sv"] "top.sv");
    [reflexivity | now left | reflexivity].
Defined.

(** X20.  When the rule has run with status 0, for required build files
    whose names [repr] writes as they are (printable ASCII without quote
    or backslash): if some of them do not exist, the check returns a
    warning (not an error) whose message lists exactly the missing
    files, in the order they were required; if they all exist and no
    copy is asked for, it returns success without a message and changes
    nothing more. *)
Theorem make_test_result_after_successful_rule :
  forall (self_id : oid) (base : repo_test_attrs) (self : make_test_attrs)
         (suite : repo_test_suite) (w w1 : World),
    find (fun file => negb (os_path_exists file w))
         (match required_input_files self with Some l => l | None => [] end)
    = None ->
    repo_test.execute_command self_id base suite ["make"; make_rule self] None w
    = (Ret 0%Z, w1) ->
    forallb repr_plain
      (match required_build_files self with Some l => l | None => [] end)
    = true ->
    let missing :=
      filter (fun file => negb (os_path_exists file w1))
             (match required_build_files self with Some l => l | None => [] end)
    in
    (missing <> [] ->
     fst (make_test.perform_test self_id base self suite w) =
     Ret (mk_result self_id WARNING
            (Some ("Missing build files: " ++ repr_list missing)))) /\
    (missing = [] ->
     copy_build_files_dir suite = None ->
     make_test.perform_test self_id base self suite w =
     (Ret (mk_result self_id SUCCESS None), w1)).
Proof.
  intros self_id base self suite w w1 Hin Hrun _ missing.
  unfold make_test.perform_test. rewrite Hin. unfold bind. rewrite Hrun.
  cbn [Z.eqb negb]. fold missing. split.
  - intros Hm. destruct missing as [|m ms]; [contradiction|]. reflexivity.
  - intros -> Hc. cbn [List.length Nat.ltb Nat.leb]. now rewrite Hc.
Qed.

Lemma make_test_result_after_successful_rule_witness :
  (filter (fun file => negb (os_path_exists file
             (snd (repo_test.execute_command 1 (attrs_with_timeout 60)
                     plain_suite ["make"; "sim"] None
                     (machine_launching (succeeds_at_once []))))))
          ["sim.log"] <> [] ->
   fst (make_test.perform_test 1 (attrs_with_timeout 60) sim_rule plain_suite
          (machine_launching (succeeds_at_once []))) =
   Ret (mk_result 1 WARNING
          (Some ("Missing build files: " ++
                 repr_list
                   (filter (fun file => negb (os_path_exists file
                      (snd (repo_test.execute_command 1 (attrs_with_timeout 60)
                              plain_suite ["make"; "sim"] None
                              (machine_launching (succeeds_at_once []))))))
                      ["sim.log"]))))) /\
  (filter (fun file => negb (os_path_exists file
             (snd (repo_test.execute_command 1 (attrs_with_timeout 60)
                     plain_suite ["make"; "sim"] None
                     (machine_launching (succeeds_at_once []))))))
          ["sim.log"] = [] ->
   copy_build_files_dir plain_suite = None ->
   make_test.perform_test 1 (attrs_with_timeout 60) sim_rule plain_suite
     (machine_launching (succeeds_at_once [])) =
   (Ret (mk_result 1 SUCCESS None),
    snd (repo_test.execute_command 1 (attrs_with_timeout 60) plain_suite
           ["make"; "sim"] None (machine_launching (succeeds_at_once []))))).
Proof.
  apply (make_test_result_after_successful_rule 1 (attrs_with_timeout 60)
           sim_rule plain_suite (machine_launching (succeeds_at_once []))
           (snd (repo_test.execute_command 1 (attrs_with_timeout 60) plain_suite
                   ["make"; "sim"] None
                   (machine_launching (succeeds_at_once [])))));
    reflexivity.
Defined.

(** X21.  When the suite asks for the build files to be copied but the
    unit has no copy directory of its own (none is passed when the suite
    builds its Makefile tests), a rule that has run with status 0 and
    left all of its build files makes the check raise [TypeError]: no
    Result is returned for a build that succeeded. *)
Theorem make_test_copy_without_directory_raises :
  forall (self_id : oid) (base : repo_test_attrs) (self : make_test_attrs)
         (suite : repo_test_suite) (w w1 : World) (dir build : string)
         (builds : list string),
    find (fun file => negb (os_path_exists file w))
         (match required_input_files self with Some l => l | None => [] end)
    = None ->
    repo_test.execute_command self_id base suite ["make"; make_rule self] None w
    = (Ret 0%Z, w1) ->
    required_build_files self = Some (build :: builds) ->
    filter (fun file => negb (os_path_exists file w1)) (build :: builds) = [] ->
    copy_build_files_dir suite = Some dir ->
    self_copy_build_files_dir self = None ->
    make_test.perform_test self_id base self suite w = (Raise TypeError, w1).
Proof.
  intros self_id base self suite w w1 dir build builds Hin Hrun Hb Hall Hc Hs.
  unfold make_test.perform_test. rewrite Hin. unfold bind at 1. rewrite Hrun.
  cbn [Z.eqb negb]. rewrite Hb, Hall, Hc.
  cbn [List.length Nat.ltb Nat.leb for_each].
  unfold make_test.copy_build_file. rewrite Hs. reflexivity.
Qed.

Lemma make_test_copy_without_directory_raises_witness :
  make_test.perform_test 1 (attrs_with_timeout 60) sim_rule copying_suite
    (machine_launching (succeeds_at_once ["sim.log"])) =
  (Raise TypeError,
   snd (repo_test.execute_command 1 (attrs_with_timeout 60) copying_suite
          ["make"; "sim"] None
          (machine_launching (succeeds_at_once ["sim.log"])))).
Proof.
  apply (make_test_copy_without_directory_raises 1 (attrs_with_timeout 60)
           sim_rule copying_suite
           (machine_launching (succeeds_at_once ["sim.log"]))
           (snd (repo_test.execute_command 1 (attrs_with_timeout 60)
                   copying_suite ["make"; "sim"] None
                   (machine_launching (succeeds_at_once ["sim.log"]))))
           "out" "sim.log" []);
    reflexivity.
Defined.

(** X22.  Whatever path the check of a [make_test] takes, a Result it
    returns names the unit itself; it carries a message exactly when it
    is a warning. *)
Theorem make_test_result_names_the_unit :
  forall (self_id : oid) (base : repo_test_attrs) (self : make_test_attrs)
         (suite : repo_test_suite) (w : World) (r : repo_test_result),
    fst (make_test.perform_test self_id base self suite w) = Ret r ->
    test r = self_id /\
    (result r = WARNING <-> msg r <> None).
Proof.
  intros self_id base self suite w r.
  unfold make_test.perform_test.
  assert (Hplain : forall sev,
             sev <> WARNING ->
             test (mk_result self_id sev None) = self_id /\
             (result (mk_result self_id sev None) = WARNING <->
              msg (mk_result self_id sev None) <> None)).
  { intros sev Hs. simpl. split; [reflexivity|]. split; [contradiction|].
    intros H. now contradiction H. }
  destruct (find _ _) as [f|].
  - cbn [fst]. intros H. injection H as <-. apply Hplain. discriminate.
  - unfold bind at 1.
    destruct (repo_test.execute_command self_id base suite _ None w)
      as [[rc|e|] w1]; try discriminate.
    destruct (negb (rc =? 0)%Z).
    + cbn [fst ret]. intros H. injection H as <-. apply Hplain. discriminate.
    + destruct (0 <? List.length _)%nat.
      * cbn [fst]. intros H. injection H as <-. simpl.
        split; [reflexivity|]. split; [discriminate | reflexivity].
      * destruct (copy_build_files_dir suite), (required_build_files self);
          try (cbn [fst]; intros H; injection H as <-; apply Hplain;
               discriminate).
        unfold bind.
        destruct (for_each _ _ w1) as [[u|e|] w2]; cbn [fst ret];
          try discriminate.
        intros H. injection H as <-. apply Hplain. discriminate.
Qed.

Lemma make_test_result_names_the_unit_witness :
  test (mk_result 1 ERROR None) = 1 /\
  (result (mk_result 1 ERROR None) = WARNING <->
   msg (mk_result 1 ERROR None) <> None).
Proof.
  apply (make_test_result_names_the_unit 1 (attrs_with_timeout 2) sim_rule
           plain_suite (machine_launching fails_at_once)
           (mk_result 1 ERROR None)).
  reflexivity.
Defined.

(** ** The names of the checks *)

Lemma substring_0_app (s t : string) :
  substring 0 (String.length s) (s ++ t) = s.
Proof.
  induction s as [|c s IH]; simpl.
  - now destruct t.
  - now rewrite IH.
Qed.

Lemma string_length_app (s t : string) :
  String.length (s ++ t) = String.length s + String.length t.
Proof. induction s as [|c s IH]; simpl; [reflexivity | now rewrite IH]. Qed.

Lemma slice_to_minus_app (s t : string) :
  slice_to_minus (String.length t) (s ++ t) = s.
Proof.
  unfold slice_to_minus. rewrite string_length_app.
  replace (String.length s + String.length t - String.length t)
    with (String.length s) by lia.
  apply substring_0_app.
Qed.

Lemma add_items_join (l : list string) :
  forall (name_str item : string),
    add_items name_str (item :: l) = (name_str ++ join ", " (item :: l)) ++ ", ".
Proof.
  induction l as [|x l IH]; intros name_str item.
  - simpl. now rewrite string_app_assoc.
  - change (add_items name_str (item :: x :: l))
      with (add_items (name_str ++ item ++ ", ") (x :: l)).
    rewrite IH. change (join ", " (item :: x :: l))
      with (item ++ ", " ++ join ", " (x :: l)).
    now rewrite !string_app_assoc.
Qed.

Lemma slice_add_items (name_str item : string) (l : list string) :
  slice_to_minus 2 (add_items name_str (item :: l))
  = name_str ++ join ", " (item :: l).
Proof. rewrite add_items_join. apply (slice_to_minus_app _ ", "). Qed.

(** X23.  The name of a check over a list of files (or executables) is
    its title, a colon and the items separated by a comma and a space,
    with nothing after the last item.  Over an empty list the slice
    that removes the last separator removes the colon instead. *)
Theorem list_check_names_have_no_trailing_separator :
  forall (item : string) (l : list string),
    file_exists_test.module_name (item :: l)
      = "Files Exist: " ++ join ", " (item :: l) /\
    file_not_tracked_test.module_name (item :: l)
      = "Files Not Tracked: " ++ join ", " (item :: l) /\
    files_tracked_test.module_name (item :: l)
      = "Files Tracked: " ++ join ", " (item :: l) /\
    execs_exist_test.module_name (item :: l)
      = "Executables Exist: " ++ join ", " (item :: l) /\
    file_exists_test.module_name [] = "Files Exist" /\
    file_not_tracked_test.module_name [] = "Files Not Tracked" /\
    files_tracked_test.module_name [] = "Files Tracked" /\
    execs_exist_test.module_name [] = "Executables Exist".
Proof.
  intros item l.
  unfold file_exists_test.module_name, file_not_tracked_test.module_name,
    files_tracked_test.module_name, execs_exist_test.module_name.
  rewrite !slice_add_items. repeat split; reflexivity.
Qed.

(** X24.  The name of a [make_test] is the rule, then the required
    input files after [required:] when there are any, then the required
    build files in brackets when there are any, each list separated by a
    comma and a space with nothing after its last item; an absent list
    and an empty list give the same name.  Its rule summary lists the
    same files under the unit's name. *)
Theorem make_test_name_lists_its_files :
  forall (name : string) (self : make_test_attrs),
    let listed (title closing : string) (files : option (list string)) :=
      match files with
      | Some (file :: l) => title ++ join ", " (file :: l) ++ closing
      | _ => ""
      end in
    make_test_strings.module_name self
      = "Makefile: 'make " ++ make_rule self ++ "'"
        ++ listed " required: " "" (required_input_files self)
        ++ listed " [" "]" (required_build_files self) /\
    make_test_strings.rule_summary name self
      = name ++ ":"
        ++ listed (nl ++ "   Required Input Files: ") ""
             (required_input_files self)
        ++ listed (nl ++ "   Required Build Files: ") ""
             (required_build_files self).
Proof.
  intros name self listed.
  assert (Hnil : forall s : string, s ++ "" = s).
  { induction s as [|c s IH]; simpl; [reflexivity | now rewrite IH]. }
  unfold make_test_strings.module_name, make_test_strings.rule_summary, listed.
  destruct (required_input_files self) as [[|i il]|],
           (required_build_files self) as [[|b bl]|];
    rewrite ?slice_add_items, ?Hnil, ?string_app_assoc;
    cbn [append]; rewrite ?Hnil, ?string_app_assoc; split; try reflexivity.
Qed.

(** ** [file_regex_check] *)

(** X25.  A regex check of a file that exists and can be read returns an
    error exactly when whether the pattern was found agrees with
    [error_on_match], and success otherwise; it never returns a warning
    and never a message, names the unit itself, and leaves the file
    system and the clock alone. *)
Theorem regex_check_verdict :
  forall (joinpath : string -> string -> string)
         (read_text : string -> exn + string)
         (re_search : string -> string -> exn + bool)
         (self_id : oid) (self : file_regex_check_attrs)
         (suite : repo_test_suite) (w : World) (text : string) (found : bool),
    os_path_exists (joinpath (working_path suite) (filename self)) w = true ->
    read_text (joinpath (working_path suite) (filename self)) = inr text ->
    re_search (regex_str self) text = inr found ->
    fst (file_regex_check.perform_test joinpath read_text re_search
           self_id self suite w)
    = Ret (mk_result self_id
             (if Bool.eqb (error_on_match self) found then ERROR else SUCCESS)
             None) /\
    fs (snd (file_regex_check.perform_test joinpath read_text re_search
               self_id self suite w)) = fs w /\
    clock (snd (file_regex_check.perform_test joinpath read_text re_search
                  self_id self suite w)) = clock w.
Proof.
  intros joinpath read_text re_search self_id self suite w text found He Hr Hs.
  unfold file_regex_check.perform_test. rewrite He, Hr, Hs. cbn [negb].
  unfold repo_test_suite.print_error.
  destruct (error_on_match self), found, (error_msg self); cbn [andb negb Bool.eqb fst snd];
    rewrite ?fs_print_color, ?clock_print_color, ?fs_print, ?clock_print;
    repeat split; reflexivity.
Qed.

Lemma regex_check_verdict_witness :
  fst (file_regex_check.perform_test slash (reads_text "initial begin") (answers true)
         2 no_initial plain_suite world_with_top)
  = Ret (mk_result 2
           (if Bool.eqb (error_on_match no_initial) true then ERROR else SUCCESS)
           None) /\
  fs (snd (file_regex_check.perform_test slash (reads_text "initial begin")
             (answers true) 2 no_initial plain_suite world_with_top))
  = fs world_with_top /\
  clock (snd (file_regex_check.perform_test slash (reads_text "initial begin")
                (answers true) 2 no_initial plain_suite world_with_top))
  = clock world_with_top.
Proof.
  apply (regex_check_verdict slash (reads_text "initial begin") (answers true)
           2 no_initial plain_suite world_with_top "initial begin" true);
    reflexivity.
Defined.

(** X26.  A regex check of a file that does not exist returns an error
    for the unit without reading anything: the answer does not depend
    on what reading the file or matching the pattern would give. *)
Theorem regex_check_missing_file :
  forall (joinpath : string -> string -> string)
         (read_text read_text' : string -> exn + string)
         (re_search re_search' : string -> string -> exn + bool)
         (self_id : oid) (self : file_regex_check_attrs)
         (suite : repo_test_suite) (w : World),
    os_path_exists (joinpath (working_path suite) (filename self)) w = false ->
    fst (file_regex_check.perform_test joinpath read_text re_search
           self_id self suite w) = Ret (mk_result self_id ERROR None) /\
    file_regex_check.perform_test joinpath read_text re_search self_id self suite w
    = file_regex_check.perform_test joinpath read_text' re_search' self_id self
        suite w.
Proof.
  intros joinpath read_text read_text' re_search re_search' self_id self suite w He.
  unfold file_regex_check.perform_test. rewrite He. split; reflexivity.
Qed.

Lemma regex_check_missing_file_witness :
  fst (file_regex_check.perform_test slash (reads_text "") (answers true)
         2 no_initial plain_suite quiet_world) = Ret (mk_result 2 ERROR None) /\
  file_regex_check.perform_test slash (reads_text "") (answers true) 2 no_initial
    plain_suite quiet_world
  = file_regex_check.perform_test slash (fun _ => inl PermissionError)
      (fun _ _ => inl TypeError) 2 no_initial plain_suite quiet_world.
Proof.
  apply (regex_check_missing_file slash (reads_text "") (fun _ => inl PermissionError)
           (answers true) (fun _ _ => inl TypeError) 2 no_initial plain_suite
           quiet_world).
  reflexivity.
Defined.

(** ** [check_for_max_repo_files] *)

Lemma split_on_piece (c : ascii) (s : string) :
  without c s = true -> split_on c s = [s].
Proof.
  induction s as [|a s IH]; simpl; [reflexivity|].
  intros H. apply andb_prop in H as [Ha Hs].
  apply negb_true_iff in Ha. rewrite Ha, (IH Hs). reflexivity.
Qed.

Lemma split_on_app (c : ascii) (s rest : string) :
  without c s = true ->
  split_on c (s ++ String c rest) = s :: split_on c rest.
Proof.
  induction s as [|a s IH]; simpl.
  - intros _. now rewrite Ascii.eqb_refl.
  - intros H. apply andb_prop in H as [Ha Hs].
    apply negb_true_iff in Ha. rewrite Ha, (IH Hs). reflexivity.
Qed.

Lemma split_on_join (c : ascii) (name : string) (names : list string) :
  forallb (without c) (name :: names) = true ->
  split_on c (join (String c EmptyString) (name :: names)) = name :: names.
Proof.
  revert name. induction names as [|x names IH]; intros name H.
  - simpl in *. apply split_on_piece.
    now apply andb_prop in H as [H _].
  - change (join (String c EmptyString) (name :: x :: names))
      with (name ++ String c (join (String c EmptyString) (x :: names))).
    cbn [forallb] in H. apply andb_prop in H as [Hn Hr].
    rewrite (split_on_app c name _ Hn). f_equal. now apply IH.
Qed.

(** X27.  When the listing names the tracked files one per line, the
    check counts exactly those names: it returns a warning when there
    are more than the maximum and success otherwise, never an error and
    never a message.  A listing of no file at all is the empty string,
    which counts as one name: an empty directory is counted as one
    tracked file. *)
Theorem max_repo_files_counts_the_listed_names :
  forall (git_ls_files : string -> exn + string) (self_id : oid)
         (max_dir_files : Z) (relative_repo_path : string)
         (suite : repo_test_suite) (w : World)
         (name : string) (names : list string),
    forallb (without "010"%char) (name :: names) = true ->
    git_ls_files relative_repo_path = inr (join nl (name :: names)) ->
    fst (check_for_max_repo_files.perform_test git_ls_files self_id max_dir_files
           relative_repo_path suite w)
    = Ret (mk_result self_id
             (if (Z.of_nat (List.length (name :: names)) >? max_dir_files)%Z
              then WARNING else SUCCESS)
             None).
Proof.
  intros git_ls_files self_id max_dir_files relative_repo_path suite w name names
         Hn Hl.
  unfold check_for_max_repo_files.perform_test. rewrite Hl.
  unfold nl. rewrite (split_on_join _ _ _ Hn).
  destruct (Z.of_nat (List.length (name :: names)) >? max_dir_files)%Z;
    reflexivity.
Qed.

Lemma max_repo_files_counts_the_listed_names_witness :
  fst (check_for_max_repo_files.perform_test (lists [""]) 4 0 "lab1" plain_suite
         quiet_world)
  = Ret (mk_result 4
           (if (Z.of_nat (List.length [""]) >? 0)%Z then WARNING else SUCCESS)
           None).
Proof.
  apply (max_repo_files_counts_the_listed_names (lists [""]) 4 0 "lab1"
           plain_suite quiet_world "" []);
    reflexivity.
Defined.

(** ** The summary of a group *)

Lemma summary_turn_fold (d : dict) :
  forall success warnings errors,
    fold_left summary_turn d (success, warnings, errors)
    = ((success ++ recorded SUCCESS d)%list,
       (warnings ++ recorded WARNING d)%list,
       (errors ++ recorded ERROR d)%list).
Proof.
  unfold recorded.
  induction d as [|[k r] d IH]; intros success warnings errors.
  - simpl. now rewrite !app_nil_r.
  - cbn [fold_left summary_turn snd map filter]. 
    destruct (result r); cbn [result_type_eqb]; rewrite IH;
      now rewrite <- ?app_assoc.
Qed.

Lemma recorded_nil_iff (sev : result_type) (d : dict) :
  recorded sev d = [] <-> ~ In sev (table_severities d).
Proof.
  unfold recorded, table_severities.
  induction d as [|[k r] d IH]; simpl.
  - split; [intros _ [] | reflexivity].
  - destruct (result_type_eqb (result r) sev) eqn:E.
    + split; [discriminate|]. intros H. exfalso. apply H. left.
      destruct (result r), sev; try discriminate E; reflexivity.
    + rewrite IH. split.
      * intros H [Hr|Hin]; [|now apply H].
        rewrite Hr in E. destruct sev; discriminate E.
      * intros H Hin. apply H. now right.
Qed.

Lemma appends_bind {A B : Type} (m : M World A) (k : A -> M World B) :
  appends m -> (forall a, appends (k a)) -> appends (bind m k).
Proof.
  intros Hm Hk w. unfold bind. destruct (Hm w) as [t1 H1].
  destruct (m w) as [[a|e|] w1]; simpl in *.
  - destruct (Hk a w1) as [t2 H2]. exists (t1 ++ t2)%list.
    now rewrite H2, H1, app_assoc.
  - now exists t1.
  - now exists t1.
Qed.

Lemma appends_print_error (suite : repo_test_suite) (m : string) :
  appends (exec (repo_test_suite.print_error suite m)).
Proof.
  intros w. eexists. unfold exec, repo_test_suite.print_error. cbn [snd].
  apply stdout_print_color.
Qed.

Lemma appends_ret {A : Type} (a : A) : appends (ret (S := World) a).
Proof. intros w. exists []. simpl. now rewrite app_nil_r. Qed.

Lemma appends_raise {A : Type} (e : exn) : appends (raise (S := World) (A := A) e).
Proof. intros w. exists []. simpl. now rewrite app_nil_r. Qed.

Lemma appends_for_each {A : Type} (body : A -> M World unit) (l : list A) :
  (forall a, appends (body a)) -> appends (for_each l body).
Proof.
  intros Hb. induction l as [|a l IH]; simpl.
  - apply appends_ret.
  - apply appends_bind; [apply Hb | intros _; exact IH].
Qed.

Lemma appends_print_listed (own : oid -> string) (h : heap)
    (suite : repo_test_suite) (title : string) (listed : list repo_test_result) :
  appends (print_listed own h suite title listed).
Proof.
  unfold print_listed. destruct (negb _); [|apply appends_ret].
  apply appends_bind; [apply appends_print_error|]. intros _.
  apply appends_for_each. intros r.
  destruct (call_module_name own h (test r)); [apply appends_raise|].
  apply appends_bind; [apply appends_print_error|]. intros _.
  destruct (msg r); [apply appends_print_error | apply appends_ret].
Qed.

Lemma print_listed_header (own : oid -> string) (h : heap)
    (suite : repo_test_suite) (title : string) (r : repo_test_result)
    (listed : list repo_test_result) (w : World) :
  exists tail,
    stdout (snd (print_listed own h suite title (r :: listed) w))
    = (stdout w
       ++ console_line (error_color suite)
            (" " ++ str_of_Z (Z.of_nat (List.length (r :: listed))) ++ title)
       :: tail)%list.
Proof.
  unfold print_listed. cbn [List.length Nat.eqb negb].
  match goal with
  | |- context [bind (exec ?f) (fun _ => for_each ?l ?body)] =>
      change (bind (exec f) (fun _ => for_each l body) w)
        with (for_each l body (f w));
      destruct (appends_for_each body l) with (w := f w) as [tail Ht]
  end.
  { intros r0.
    destruct (call_module_name own h (test r0)); [apply appends_raise|].
    apply appends_bind; [apply appends_print_error|]. intros _.
    destruct (msg r0); [apply appends_print_error | apply appends_ret]. }
  exists tail. rewrite Ht. unfold repo_test_suite.print_error.
  rewrite stdout_print_color, <- app_assoc. reflexivity.
Qed.

Lemma bind_stdout_head {A B : Type} (m : M World A) (k : A -> M World B)
    (w : World) (line : string) (tail : list string) :
  stdout (snd (m w)) = (stdout w ++ line :: tail)%list ->
  (forall a, appends (k a)) ->
  exists tail', stdout (snd (bind m k w)) = (stdout w ++ line :: tail')%list.
Proof.
  intros Hm Hk. unfold bind. destruct (m w) as [[a|e|] w1]; simpl in *.
  - destruct (Hk a w1) as [t2 H2]. exists (tail ++ t2)%list.
    rewrite H2, Hm, <- app_assoc. reflexivity.
  - now exists tail.
  - now exists tail.
Qed.

(** X28.  The summary of a group agrees with the group-level Result.
    When that Result is [SUCCESS] the summary is the one line saying
    that there are no errors or warnings.  Otherwise that line is not
    printed: the first line is a count, of the recorded warnings when
    there are any and else of the recorded errors, so warnings are
    listed before errors. *)
Theorem summary_agrees_with_the_group_result :
  forall (own_module_name : oid -> string) (h : heap) (suite : repo_test_suite)
         (g : repo_test_group) (w : World),
    (result (repo_test_group.getResult h g) = SUCCESS ->
     print_test_summary own_module_name h suite g w
     = (Ret tt,
        repo_test_suite.print_test_status suite "  No errors or warnings" w)) /\
    (result (repo_test_group.getResult h g) <> SUCCESS ->
     exists tail,
       stdout (snd (print_test_summary own_module_name h suite g w))
       = (stdout w
          ++ console_line (error_color suite)
               (match recorded WARNING (result_dict g) with
                | [] =>
                    " " ++ str_of_Z (Z.of_nat (List.length
                                        (recorded ERROR (result_dict g))))
                    ++ " Errors"
                | _ =>
                    " " ++ str_of_Z (Z.of_nat (List.length
                                        (recorded WARNING (result_dict g))))
                    ++ " Warnings"
                end)
          :: tail)%list).
Proof.
  intros own h suite g w. rewrite getResult_fields. cbn [result].
  unfold print_test_summary. rewrite summary_turn_fold. cbn [app].
  split.
  - intros H. apply worst_SUCCESS_iff in H.
    assert (Hw : recorded WARNING (result_dict g) = []).
    { apply recorded_nil_iff. intros Hin.
      rewrite Forall_forall in H. apply H in Hin. discriminate Hin. }
    assert (He : recorded ERROR (result_dict g) = []).
    { apply recorded_nil_iff. intros Hin.
      rewrite Forall_forall in H. apply H in Hin. discriminate Hin. }
    rewrite Hw, He. reflexivity.
  - intros H.
    destruct (recorded WARNING (result_dict g)) as [|r l] eqn:Ew.
    + destruct (recorded ERROR (result_dict g)) as [|r l] eqn:Ee.
      * exfalso. apply H. apply worst_SUCCESS_iff, Forall_forall.
        intros x Hx. destruct x; [reflexivity | |].
        -- now apply recorded_nil_iff in Ew.
        -- now apply recorded_nil_iff in Ee.
      * cbn [List.length Nat.eqb andb].
        change (bind (print_listed own h suite " Warnings" []) ?k w)
          with (print_listed own h suite " Errors" (r :: l) w).
        apply print_listed_header.
    + cbn [List.length Nat.eqb andb].
      destruct (print_listed_header own h suite " Warnings" r l w) as [tail Ht].
      eapply bind_stdout_head; [exact Ht|].
      intros _. apply appends_print_listed.
Qed.

Lemma for_each_app {A : Type} (body : A -> M World unit) (l1 l2 : list A)
    (w : World) :
  for_each (l1 ++ l2) body w = bind (for_each l1 body) (fun _ => for_each l2 body) w.
Proof.
  revert w. induction l1 as [|a l1 IH]; intros w; [reflexivity|].
  cbn [app for_each]. unfold bind in *.
  destruct (body a w) as [[[]|e|] w1]; try reflexivity.
  apply IH.
Qed.

(** The lines of the summary for Results whose names resolve are all
    printed. *)
Lemma for_each_listed_returns (own : oid -> string) (h : heap)
    (suite : repo_test_suite) (listed : list repo_test_result) :
  Forall (fun x => resolve (cls (h (test x))) m_module_name <> None) listed ->
  forall w, exists w1 tail,
    for_each listed (fun r =>
      match call_module_name own h (test r) with
      | inl e => raise e
      | inr module_name =>
          exec (repo_test_suite.print_error suite ("  " ++ module_name)) ;;;
          match msg r with
          | Some m => exec (repo_test_suite.print_error suite ("   " ++ m))
          | None => ret tt
          end
      end) w = (Ret tt, w1) /\
    stdout w1 = (stdout w ++ tail)%list.
Proof.
  induction 1 as [|r listed Hr _ IH]; intros w.
  - exists w, []. split; [reflexivity | now rewrite app_nil_r].
  - cbn [for_each]. unfold call_module_name at 1.
    destruct (resolve (cls (h (test r))) m_module_name) as [c|];
      [|contradiction].
    set (name := match c with repo_test => "BASE MODULE" | _ => own (test r) end).
    assert (Hbody :
      exists w2 t2,
        (exec (repo_test_suite.print_error suite ("  " ++ name)) ;;;
         match msg r with
         | Some m => exec (repo_test_suite.print_error suite ("   " ++ m))
         | None => ret tt
         end) w = (Ret tt, w2) /\ stdout w2 = (stdout w ++ t2)%list).
    { unfold bind, exec, ret. destruct (msg r); eexists _, _;
        (split; [reflexivity|]); unfold repo_test_suite.print_error;
        rewrite ?stdout_print_color, <- ?app_assoc; reflexivity. }
    destruct Hbody as (w2 & t2 & Hb & Hs2).
    destruct (IH w2) as (w1 & t1 & Hrest & Hs1).
    exists w1, (t2 ++ t1)%list. split.
    + unfold bind at 1.
      replace (match c with
               | repo_test => inr "BASE MODULE"
               | _ => inr (own (test r))
               end) with (@inr exn string name) by (unfold name; now destruct c).
      cbv beta iota. rewrite Hb. exact Hrest.
    + now rewrite Hs1, Hs2, app_assoc.
Qed.

(** X29.  A recorded warning of a check whose class leaves [module_name]
    to [repo_test], as [check_for_max_repo_files] and
    [check_remote_starter] do, is listed in the summary under the
    constant name [BASE MODULE], whatever the table holds besides,
    provided the names of the warnings listed before it resolve; and
    the summary does not depend on what the check would call itself. *)
Theorem summary_lists_an_unnamed_check_as_BASE_MODULE :
  forall (own_module_name own' : oid -> string) (h : heap)
         (suite : repo_test_suite) (g : repo_test_group)
         (r : repo_test_result) (pre post : list repo_test_result) (w : World),
    recorded WARNING (result_dict g) = (pre ++ r :: post)%list ->
    Forall (fun x => resolve (cls (h (test x))) m_module_name <> None) pre ->
    cls (h (test r)) = check_for_max_repo_files \/
    cls (h (test r)) = check_remote_starter ->
    (forall u, cls (h u) <> check_for_max_repo_files ->
               cls (h u) <> check_remote_starter ->
               own' u = own_module_name u) ->
    (exists before after,
        stdout (snd (print_test_summary own_module_name h suite g w))
        = (stdout w ++ before
           ++ console_line (error_color suite) "  BASE MODULE" :: after)%list) /\
    print_test_summary own' h suite g w
    = print_test_summary own_module_name h suite g w.
Proof.
  intros own own' h suite g r pre post w Hrec Hpre Hcls Hown.
  split.
  - unfold print_test_summary. rewrite summary_turn_fold. cbn [app].
    rewrite Hrec.
    assert (Hlen : (List.length (pre ++ r :: post) =? 0)%nat = false)
      by (rewrite length_app; cbn [List.length]; apply Nat.eqb_neq; lia).
    rewrite Hlen. cbn [andb].
    assert (Hfirst : exists before after,
      stdout (snd (print_listed own h suite " Warnings" (pre ++ r :: post) w))
      = (stdout w ++ before
         ++ console_line (error_color suite) "  BASE MODULE" :: after)%list).
    { unfold print_listed. rewrite Hlen. cbn [negb].
      match goal with
      | |- context [bind (exec ?f) (fun _ => for_each ?l ?body)] =>
          change (bind (exec f) (fun _ => for_each l body) w)
            with (for_each l body (f w));
          set (w0 := f w); set (bd := body)
      end.
      rewrite for_each_app.
      destruct (for_each_listed_returns own h suite pre Hpre w0)
        as (w1 & t1 & Hret & Hs1).
      fold bd in Hret. unfold bind at 1. rewrite Hret.
      cbn [for_each].
      assert (Hr : stdout (snd (bd r w1))
                   = (stdout w1
                      ++ console_line (error_color suite) "  BASE MODULE"
                      :: match msg r with
                         | Some m => [console_line (error_color suite) ("   " ++ m)]
                         | None => []
                         end)%list).
      { unfold bd, call_module_name.
        assert (Hres : resolve (cls (h (test r))) m_module_name = Some repo_test)
          by (destruct Hcls as [-> | ->]; reflexivity).
        rewrite Hres. unfold bind, exec, ret, repo_test_suite.print_error.
        destruct (msg r); cbn [snd];
          rewrite ?stdout_print_color, <- ?app_assoc; reflexivity. }
      destruct (bind_stdout_head (bd r) (fun _ => for_each post bd) w1 _ _ Hr)
        as (after & Hafter).
      { intros _. apply appends_for_each. intros x. unfold bd.
        destruct (call_module_name own h (test x)); [apply appends_raise|].
        apply appends_bind; [apply appends_print_error|]. intros _.
        destruct (msg x); [apply appends_print_error | apply appends_ret]. }
      exists (console_line (error_color suite)
                (" " ++ str_of_Z (Z.of_nat (List.length (pre ++ r :: post)))
                 ++ " Warnings") :: t1), after.
      rewrite Hafter, Hs1. unfold w0, repo_test_suite.print_error.
      rewrite stdout_print_color. unfold console_line.
      rewrite <- !app_assoc. reflexivity. }
    destruct Hfirst as (before & after & Hfirst).
    unfold bind.
    destruct (print_listed own h suite " Warnings" (pre ++ r :: post) w)
      as [[[]|e|] w1] eqn:E; cbn [snd] in *; try (now exists before, after).
    destruct (appends_print_listed own h suite " Errors"
                (recorded ERROR (result_dict g)) w1) as (t2 & Ht2).
    exists before, (after ++ t2)%list.
    rewrite Ht2, Hfirst, <- !app_assoc. reflexivity.
  - assert (Hcall : forall u, call_module_name own' h u = call_module_name own h u).
    { intros u. unfold call_module_name.
      destruct (cls (h u)) eqn:E; try reflexivity;
        cbn [resolve mro find defines];
        rewrite Hown by (rewrite E; discriminate); reflexivity. }
    unfold print_test_summary, print_listed.
    destruct (fold_left summary_turn (result_dict g) ([], [], []))
      as [[success warnings] errors].
    assert (Hbody : forall l : list repo_test_result,
      for_each l (fun r0 =>
        match call_module_name own' h (test r0) with
        | inl e => raise e
        | inr module_name =>
            exec (repo_test_suite.print_error suite ("  " ++ module_name)) ;;;
            match msg r0 with
            | Some m => exec (repo_test_suite.print_error suite ("   " ++ m))
            | None => ret tt
            end
        end) =
      for_each l (fun r0 =>
        match call_module_name own h (test r0) with
        | inl e => raise e
        | inr module_name =>
            exec (repo_test_suite.print_error suite ("  " ++ module_name)) ;;;
            match msg r0 with
            | Some m => exec (repo_test_suite.print_error suite ("   " ++ m))
            | None => ret tt
            end
        end)).
    { induction l as [|x l IHl]; [reflexivity|].
      cbn [for_each]. now rewrite Hcall, IHl. }
    now rewrite !Hbody.
Qed.

Lemma summary_lists_an_unnamed_check_as_BASE_MODULE_witness :
  (exists before after,
      stdout (snd (print_test_summary (fun _ => "named") max_files_heap
                     plain_suite max_files_group quiet_world))
      = (stdout quiet_world ++ before
         ++ console_line (error_color plain_suite) "  BASE MODULE" :: after)%list) /\
  print_test_summary (fun _ => "named") max_files_heap plain_suite
    max_files_group quiet_world
  = print_test_summary (fun _ => "named") max_files_heap plain_suite
      max_files_group quiet_world.
Proof.
  apply (summary_lists_an_unnamed_check_as_BASE_MODULE
           (fun _ => "named") (fun _ => "named") max_files_heap plain_suite
           max_files_group (repo_test.warning_result 4 None)
           [repo_test.warning_result 2 None] [] quiet_world).
  - reflexivity.
  - repeat constructor. discriminate.
  - left. reflexivity.
  - reflexivity.
Defined.
